(** * Steam game playtime tracker: process watcher, playtime store, duration formatter

    A shallow embedding of [src/utils/utils.py] (the duration formatter) and of
    [src/steam/process_watcher.py] (class [ProcessWatcher]: the tick operation,
    the JSON playtime store and its initialisation), followed by the properties
    of the specification that were checked against it.

    The callers and the suppliers of that code are embedded as well:
    [src/tray.py] ([get_today_ranking]), [src/ui/main_window.py]
    ([MainWindow.refresh], [append_log]) and [src/steam/game_scanner.py]
    ([parse_acf], [scan_steam_games]); more properties of the code follow
    those of the specification.

    Conventions.
    - Python [int] is [Z]; [bool] is a subclass of [int].
    - Python [dict] is an association list with unique keys kept in insertion
      order ([dict_get], [dict_set], [dict_setdefault], [dict_del]).
    - What the program takes from its runtime (binary floating point, the
      local time zone, the [json] codec, [pathlib]) is an interface, the class
      [Runtime]; the program is embedded over any implementation of it.
    - Effects (the clock, the data file, the console, [self.running]) are
      threaded through a state and exception monad [M]; the window and the
      tray have their own, [U], over the same clock and disk.
    - What the tray and the window take from the builtins is the class
      [Builtins], what the scanner takes from the file system the class
      [FileSystem]. *)

From Stdlib Require Import Ascii String ZArith Sorted.
From stdpp Require Import gmap strings list pretty.

Set Warnings "-register-all".

Open Scope string_scope.
Open Scope Z_scope.
Open Scope list_scope.

(** ** src/utils/utils.py *)

Module Utils.

(** The argument of [format_playtime] is any Python object; the function
    only looks at whether it is an instance of [int] and, if so, at its
    value. *)
Inductive pyarg :=
| ArgInt (n : Z)
| ArgBool (b : bool)
| ArgOther.

(** [isinstance(seconds, int)]: [bool] is a subclass of [int], with
    [True == 1] and [False == 0]. *)
Definition as_int (x : pyarg) : option Z :=
  match x with
  | ArgInt n => Some n
  | ArgBool b => Some (Z.b2z b)
  | ArgOther => None
  end.

Definition format_playtime (seconds : pyarg) : string :=
  match as_int seconds with
  | None => "0s"
  | Some n =>
    if n <? 0 then "0s"
    else
      let hours := n / 3600 in
      let remaining_seconds := n mod 3600 in
      let minutes := remaining_seconds / 60 in
      let secs := remaining_seconds mod 60 in
      if 0 <? hours then
        if secs =? 0 then pretty hours +:+ "h" +:+ pretty minutes +:+ "m"
        else pretty hours +:+ "h" +:+ pretty minutes +:+ "m" +:+ pretty secs +:+ "s"
      else if 0 <? minutes then
        if secs =? 0 then pretty minutes +:+ "m"
        else pretty minutes +:+ "m" +:+ pretty secs +:+ "s"
      else pretty secs +:+ "s"
  end.

(** The formatter as section 4.3 of the specification words it (rules 1 to
    5), to be compared with the code above. *)
Definition format_spec (x : pyarg) : string :=
  match as_int x with
  | None => "0s"
  | Some seconds =>
    if seconds <? 0 then "0s"
    else
      let hours := seconds / 3600 in
      let minutes := (seconds mod 3600) / 60 in
      let secs := seconds mod 60 in
      let tail := if secs =? 0 then "" else pretty secs +:+ "s" in
      if 0 <? hours then pretty hours +:+ "h" +:+ pretty minutes +:+ "m" +:+ tail
      else if 0 <? minutes then pretty minutes +:+ "m" +:+ tail
      else pretty secs +:+ "s"
  end.

End Utils.

Export Utils.

(** ** Python values used by src/steam/process_watcher.py *)

(** Exceptions: the class and [str(e)]. Every class listed derives from
    [Exception]; the three [psutil] classes are the ones [tick] names. *)
Inductive ExcClass :=
| FileNotFoundError | FileExistsError | OSError | UnicodeError
| JSONDecodeError | AttributeError | TypeError | KeyError
| NoSuchProcess | AccessDenied | ZombieProcess
| OtherException.

Record Exc := mkExc { exc_class : ExcClass; exc_str : string }.

Inductive Outcome (A : Type) :=
| Return (a : A)
| Raise (e : Exc).
Arguments Return {A} a.
Arguments Raise {A} e.

(** What [json.loads] returns; [F] is the type of Python floats. *)
Inductive JSON (F : Type) :=
| JNull
| JBool (b : bool)
| JInt (n : Z)
| JFloat (x : F)
| JStr (s : string)
| JList (xs : list (JSON F))
| JDict (kvs : list (string * JSON F)).
Arguments JNull {F}.
Arguments JBool {F} b.
Arguments JInt {F} n.
Arguments JFloat {F} x.
Arguments JStr {F} s.
Arguments JList {F} xs.
Arguments JDict {F} kvs.

(** *** dict: insertion-ordered, keys unique *)

Fixpoint dict_get {V} (k : string) (d : list (string * V)) : option V :=
  match d with
  | [] => None
  | (k', v) :: d' => if decide (k' = k) then Some v else dict_get k d'
  end.

(** [d[k] = v]: an existing key keeps its position, a new key goes last. *)
Fixpoint dict_set {V} (k : string) (v : V) (d : list (string * V)) : list (string * V) :=
  match d with
  | [] => [(k, v)]
  | (k', v') :: d' =>
    if decide (k' = k) then (k, v) :: d' else (k', v') :: dict_set k v d'
  end.

(** [d.setdefault(k, v)], the dict afterwards; the value returned by the call
    is [dict_get k] of it. *)
Definition dict_setdefault {V} (k : string) (v : V) (d : list (string * V)) : list (string * V) :=
  match dict_get k d with
  | Some _ => d
  | None => d ++ [(k, v)]
  end.

(** The dict after [d.pop(k)] for a key that is present. *)
Fixpoint dict_del {V} (k : string) (d : list (string * V)) : list (string * V) :=
  match d with
  | [] => []
  | (k', v') :: d' => if decide (k' = k) then d' else (k', v') :: dict_del k d'
  end.

Definition dict_keys {V} (d : list (string * V)) : list string := d.*1.

(** *** datetime *)

Record DateTime := mkDateTime {
  dt_year : Z; dt_month : Z; dt_day : Z;
  dt_hour : Z; dt_minute : Z; dt_second : Z
}.

Definition pad2 (n : Z) : string :=
  if n <? 10 then "0" +:+ pretty n else pretty n.

Definition pad4 (n : Z) : string :=
  if n <? 10 then "000" +:+ pretty n
  else if n <? 100 then "00" +:+ pretty n
  else if n <? 1000 then "0" +:+ pretty n
  else pretty n.

(** [strftime("%Y-%m-%d")] *)
Definition strftime_date (t : DateTime) : string :=
  pad4 (dt_year t) +:+ "-" +:+ pad2 (dt_month t) +:+ "-" +:+ pad2 (dt_day t).

(** [strftime("%H:%M:%S")] *)
Definition strftime_clock (t : DateTime) : string :=
  pad2 (dt_hour t) +:+ ":" +:+ pad2 (dt_minute t) +:+ ":" +:+ pad2 (dt_second t).

(** [strftime("%Y-%m-%d %H:%M:%S")] *)
Definition strftime_full (t : DateTime) : string :=
  strftime_date t +:+ " " +:+ strftime_clock t.

(** *** The runtime interface *)

Class Runtime := {
  (** Python [float], the type of [time.time()] *)
  Float : Type;
  (** [x - y] on floats *)
  fsub : Float -> Float -> Float;
  (** [x + n] for a float [x] and an int [n] *)
  fadd_int : Float -> Z -> Float;
  (** [int(x)]: truncation toward zero *)
  py_int : Float -> Z;
  (** [datetime.fromtimestamp(x)], in the local time zone *)
  fromtimestamp : Float -> DateTime;
  (** [json.loads(text)] *)
  json_loads : string -> Outcome (JSON Float);
  (** [json.dumps(data, ensure_ascii=False, indent=2)] *)
  json_dumps : JSON Float -> string;
  (** [Path(p).name.lower()] *)
  path_name_lower : string -> string
}.

(** ** src/steam/process_watcher.py *)

(** A value of the catalog built by [scan_steam_games]. *)
Record Game := mkGame { name : string; appid : string; exe_path : string }.

(** The messages handed to [_log], before they are laid out as text. *)
Inductive LogMsg :=
| MsgInitialized
| MsgMonitored (n : nat)
| MsgDataFile (path : string)
| MsgLoadWarning (e : Exc)
| MsgSaveError (e : Exc)
| MsgTraverseWarning (e : Exc)
| MsgStartup (exe game_name : string) (pid : option Z) (game_exe_path : string)
| MsgShutdown (exe game_name : string) (duration : Z).

Definition newline : string := String "010"%char "".

(** The text of each message, as the f-strings of the source build it. *)
Definition render (m : LogMsg) : string :=
  match m with
  | MsgInitialized => "ProcessWatcher initialized successfully"
  | MsgMonitored n => "Number of monitored EXE files: " +:+ pretty n
  | MsgDataFile path => "Data file path: " +:+ path
  | MsgLoadWarning e =>
    "[Warning] Failed to load data, using empty dictionary: " +:+ exc_str e
  | MsgSaveError e => "[Error] Failed to save data: " +:+ exc_str e
  | MsgTraverseWarning e => "[Warning] Failed to traverse process: " +:+ exc_str e
  | MsgStartup exe game_name pid game_exe_path =>
    "Detected process startup: " +:+ exe +:+ " (" +:+ game_name +:+ ")" +:+ newline
    +:+ "  - Process PID: " +:+ from_option pretty "Unknown" pid +:+ newline
    +:+ "  - Game path: " +:+ game_exe_path
  | MsgShutdown exe game_name duration =>
    "Detected process shutdown: " +:+ exe +:+ " (" +:+ game_name
    +:+ "), this session: " +:+ format_playtime (ArgInt duration)
  end.

(** A line on the console: a message stamped by [_log], or the warning that
    the log callback raised. *)
Inductive ConsoleLine :=
| Printed (at_time : DateTime) (msg : LogMsg)
| CallbackFailed (e : Exc).

Definition render_line (l : ConsoleLine) : string :=
  match l with
  | Printed t msg => "[" +:+ strftime_clock t +:+ "] " +:+ render msg
  | CallbackFailed e => "[Warning] Failed to execute log callback: " +:+ exc_str e
  end.

(** One item yielded by [psutil.process_iter(["pid", "name", "exe"])]: either
    its [info] can be read ([exe] may be [None] or empty), or inspecting it
    raises. *)
Inductive Proc :=
| ProcInfo (exe : option string) (pid : option Z)
| ProcRaises (e : Exc).

(** The attributes of a [ProcessWatcher] that never change after
    construction. [log_fn msg] is [None] when the callback returns and
    [Some e] when it raises [e]. *)
Record Watcher := mkWatcher {
  games : gmap string Game;
  log_fn : option (LogMsg -> option Exc);
  DATA_FILE : string
}.

(** The data file on disk. *)
Inductive FileState :=
| Missing
| Unreadable (e : Exc)
| Content (text : string).

(** The directory [base_dir / "data"]. [DirBlocked e]: it does not exist
    and [mkdir] raises [e]. *)
Inductive DirState :=
| DirAbsent
| DirPresent
| DirBlocked (e : Exc).

(** How one call of [write_text] ends. Opening the file for writing
    truncates it, so a failure after the opening leaves only what had been
    written by then. *)
Inductive WriteOutcome :=
| WriteOk
| OpenFails (e : Exc)
| WriteFails (e : Exc) (written : nat).

Declare Scope py_scope.
Delimit Scope py_scope with py.

Section ProcessWatcher.
Context `{RT : Runtime}.

(** Everything a method can read or change: [self.running], the system
    clock (the readings it will give, and how many were taken), the data
    directory and file, how the next calls of [write_text] will end, and the
    console. *)
Record State := mkState {
  running : list (string * Float);
  clock : nat -> Float;
  clock_reads : nat;
  data_dir : DirState;
  data_file : FileState;
  write_outcomes : nat -> WriteOutcome;
  writes : nat;
  console : list ConsoleLine
}.

Definition set_running (r : list (string * Float)) (s : State) : State :=
  mkState r (clock s) (clock_reads s) (data_dir s) (data_file s)
          (write_outcomes s) (writes s) (console s).

Definition tick_clock (s : State) : State :=
  mkState (running s) (clock s) (S (clock_reads s)) (data_dir s) (data_file s)
          (write_outcomes s) (writes s) (console s).

Definition set_data_dir (d : DirState) (s : State) : State :=
  mkState (running s) (clock s) (clock_reads s) d (data_file s)
          (write_outcomes s) (writes s) (console s).

(** One call of [write_text] is over and the file is now [f]. *)
Definition written (f : FileState) (s : State) : State :=
  mkState (running s) (clock s) (clock_reads s) (data_dir s) f
          (write_outcomes s) (S (writes s)) (console s).

Definition printed (l : ConsoleLine) (s : State) : State :=
  mkState (running s) (clock s) (clock_reads s) (data_dir s) (data_file s)
          (write_outcomes s) (writes s) (console s ++ [l]).

(** *** The monad of methods *)

Definition M (A : Type) : Type := State -> Outcome A * State.

Definition ret {A} (a : A) : M A := fun s => (Return a, s).

Definition raise {A} (e : Exc) : M A := fun s => (Raise e, s).

Definition bind {A B} (m : M A) (k : A -> M B) : M B :=
  fun s =>
    match m s with
    | (Return a, s') => k a s'
    | (Raise e, s') => (Raise e, s')
    end.

(** [try: m except Exception as e: h e] *)
Definition try_except {A} (m : M A) (h : Exc -> M A) : M A :=
  fun s =>
    match m s with
    | (Return a, s') => (Return a, s')
    | (Raise e, s') => h e s'
    end.

Definition lift {A} (o : Outcome A) : M A := fun s => (o, s).

Definition get {A} (f : State -> A) : M A := fun s => (Return (f s), s).

Definition modify (f : State -> State) : M unit := fun s => (Return tt, f s).

Notation "'let*' x ':=' m 'in' k" := (bind m (fun x => k))
  (at level 10, x name, m at level 100, k at level 200) : py_scope.
Notation "m '>>' k" := (bind m (fun _ => k))
  (at level 100, k at level 200, right associativity) : py_scope.
Open Scope py_scope.

(** *** What the methods call *)

(** [time.time()] *)
Definition time_time : M Float :=
  fun s => (Return (clock s (clock_reads s)), tick_clock s).

(** [datetime.now()] is [datetime.fromtimestamp(time.time())] *)
Definition datetime_now : M DateTime :=
  let* t := time_time in ret (fromtimestamp t).

Definition print (l : ConsoleLine) : M unit := modify (printed l).

(** [DATA_FILE.read_text(encoding="utf-8")] *)
Definition read_text : M string :=
  fun s =>
    match data_file s with
    | Missing => (Raise (mkExc FileNotFoundError "No such file or directory"), s)
    | Unreadable e => (Raise e, s)
    | Content text => (Return text, s)
    end.

(** [DATA_FILE.write_text(text, encoding="utf-8")]: the file cannot be
    opened when its directory is not there. *)
Definition write_text (text : string) : M unit :=
  fun s =>
    match data_dir s with
    | DirPresent =>
      match write_outcomes s (writes s) with
      | WriteOk => (Return tt, written (Content text) s)
      | OpenFails e => (Raise e, written (data_file s) s)
      | WriteFails e n => (Raise e, written (Content (String.substring 0 n text)) s)
      end
    | _ => (Raise (mkExc FileNotFoundError "No such file or directory"), s)
    end.

(** [DATA_FILE.exists()] *)
Definition file_exists : M bool :=
  get (fun s => match data_file s with Missing => false | _ => true end).

(** [DATA_FILE.parent.mkdir(exist_ok=True)] *)
Definition mkdir_exist_ok : M unit :=
  fun s =>
    match data_dir s with
    | DirAbsent => (Return tt, set_data_dir DirPresent s)
    | DirPresent => (Return tt, s)
    | DirBlocked e => (Raise e, s)
    end.

(** *** Logging *)

Definition _log (self : Watcher) (msg : LogMsg) : M unit :=
  let* now := datetime_now in
  print (Printed now msg) >>
  match log_fn self with
  | Some f =>
    match f msg with
    | None => ret tt
    | Some e => print (CallbackFailed e)
    end
  | None => ret tt
  end.

(** *** Data IO *)

Definition _load (self : Watcher) : M (JSON Float) :=
  try_except
    (let* text := read_text in lift (json_loads text))
    (fun e => _log self (MsgLoadWarning e) >> ret (JDict [])).

Definition _save (self : Watcher) (data : JSON Float) : M unit :=
  try_except
    (write_text (json_dumps data))
    (fun e => _log self (MsgSaveError e)).

(** *** Data recording *)

Definition new_record : JSON Float :=
  JDict [("total", JInt 0); ("last_open", JNull); ("last_close", JNull)].

(** [total + duration] for whatever the document holds under ["total"]. *)
Definition add_duration (total : JSON Float) (duration : Z) : Outcome (JSON Float) :=
  match total with
  | JInt n => Return (JInt (n + duration))
  | JBool b => Return (JInt (Z.b2z b + duration))
  | JFloat x => Return (JFloat (fadd_int x duration))
  | _ => Raise (mkExc TypeError "unsupported operand type(s) for +=")
  end.

(** Lines 189 to 191 on [game_data]. *)
Definition update_record (game_data : JSON Float) (start_str end_str : string)
    (duration : Z) : Outcome (JSON Float) :=
  match game_data with
  | JDict r =>
    match dict_get "total" r with
    | None => Raise (mkExc KeyError "'total'")
    | Some total =>
      match add_duration total duration with
      | Raise e => Raise e
      | Return total' =>
        Return (JDict (dict_set "last_close" (JStr end_str)
                        (dict_set "last_open" (JStr start_str)
                          (dict_set "total" total' r))))
      end
    end
  | _ => Raise (mkExc TypeError "object is not subscriptable by 'total'")
  end.

(** Lines 178 to 191 on [data]; [game_data] is an alias into [data], so the
    update is seen through [data]. *)
Definition merge_session (data : JSON Float) (current_date game_name : string)
    (start_str end_str : string) (duration : Z) : Outcome (JSON Float) :=
  match data with
  | JDict top =>
    let top1 := dict_setdefault current_date (JDict []) top in
    match dict_get current_date top1 with
    | Some (JDict day) =>
      let day1 := dict_setdefault game_name new_record day in
      match dict_get game_name day1 with
      | Some game_data =>
        match update_record game_data start_str end_str duration with
        | Raise e => Raise e
        | Return game_data' =>
          Return (JDict (dict_set current_date
                          (JDict (dict_set game_name game_data' day1)) top1))
        end
      | None => Raise (mkExc KeyError game_name)
      end
    | Some _ => Raise (mkExc AttributeError "object has no attribute 'setdefault'")
    | None => Raise (mkExc KeyError current_date)
    end
  | _ => Raise (mkExc AttributeError "object has no attribute 'setdefault'")
  end.

(** [self.games[exe]] *)
Definition lookup_game (self : Watcher) (exe : string) : M Game :=
  match games self !! exe with
  | Some g => ret g
  | None => raise (mkExc KeyError exe)
  end.

Definition _record (self : Watcher) (exe : string) (start_ts : Float)
    (duration : Z) : M unit :=
  let* g := lookup_game self exe in
  let game_name := name g in
  let start_str := strftime_full (fromtimestamp start_ts) in
  let* end_time := datetime_now in
  let end_str := strftime_full end_time in
  _log self (MsgShutdown exe game_name duration) >>
  let* data := _load self in
  let* today := datetime_now in
  let current_date := strftime_date today in
  let* data' := lift (merge_session data current_date game_name start_str end_str duration) in
  _save self data'.

(** *** Core process detection *)

(** The classes of the first [except] clause of [tick]. *)
Definition is_skipped (e : Exc) : bool :=
  match exc_class e with
  | NoSuchProcess | AccessDenied | ZombieProcess => true
  | _ => false
  end.

(** The [try] block of the scan: the lowercase filename and the pid, or
    [None] when the loop goes on to the next process. *)
Definition inspect (p : Proc) : M (option (string * option Z)) :=
  match p with
  | ProcRaises e => raise e
  | ProcInfo None _ => ret None
  | ProcInfo (Some proc_exe) pid =>
    if decide (proc_exe = "") then ret None
    else ret (Some (path_name_lower proc_exe, pid))
  end.

(** The body of the first loop of [tick]. *)
Definition scan_proc (self : Watcher) (p : Proc) (now_running : gset string)
    : M (gset string) :=
  let* r := try_except (inspect p)
              (fun e =>
                 if is_skipped e then ret None
                 else _log self (MsgTraverseWarning e) >> ret None) in
  match r with
  | None => ret now_running
  | Some (exe_filename, pid) =>
    match games self !! exe_filename with
    | None => ret now_running
    | Some g =>
      let now_running' := {[exe_filename]} ∪ now_running in
      let* r := get running in
      match dict_get exe_filename r with
      | Some _ => ret now_running'
      | None =>
        let* t := time_time in
        modify (fun s => set_running (dict_set exe_filename t (running s)) s) >>
        _log self (MsgStartup exe_filename (name g) pid (exe_path g)) >>
        ret now_running'
      end
    end
  end.

Fixpoint scan_loop (self : Watcher) (procs : list Proc) (now_running : gset string)
    : M (gset string) :=
  match procs with
  | [] => ret now_running
  | p :: procs' =>
    let* now_running' := scan_proc self p now_running in
    scan_loop self procs' now_running'
  end.

(** [self.running.pop(exe)] *)
Definition running_pop (exe : string) : M Float :=
  fun s =>
    match dict_get exe (running s) with
    | Some start_ts => (Return start_ts, set_running (dict_del exe (running s)) s)
    | None => (Raise (mkExc KeyError exe), s)
    end.

(** The body of the second loop of [tick]. *)
Definition stop_proc (self : Watcher) (exe : string) (now_running : gset string)
    : M unit :=
  if decide (exe ∈ now_running) then ret tt
  else
    let* start_ts := running_pop exe in
    let* now := time_time in
    let duration := py_int (fsub now start_ts) in
    _record self exe start_ts duration.

Fixpoint stop_loop (self : Watcher) (exes : list string) (now_running : gset string)
    : M unit :=
  match exes with
  | [] => ret tt
  | exe :: exes' =>
    stop_proc self exe now_running >> stop_loop self exes' now_running
  end.

(** [tick], given what [psutil.process_iter] yields during the call. *)
Definition tick (self : Watcher) (procs : list Proc) : M unit :=
  let* now_running := scan_loop self procs ∅ in
  let* exes := get (fun s => dict_keys (running s)) in
  stop_loop self exes now_running.

(** [__init__] after its attributes [games] and [log_fn] are set. *)
Definition __init__ (self : Watcher) : M unit :=
  modify (set_running []) >>
  mkdir_exist_ok >>
  let* there := file_exists in
  (if there then ret tt else write_text "{}") >>
  _log self MsgInitialized >>
  _log self (MsgMonitored (size (games self))) >>
  _log self (MsgDataFile (DATA_FILE self)).

End ProcessWatcher.

(** ** What the properties are stated with *)

Section Vocabulary.
Context `{RT : Runtime}.

(** The state after [_log self msg]. *)
Definition logged (self : Watcher) (msg : LogMsg) (s : State) : State :=
  let s1 := printed (Printed (fromtimestamp (clock s (clock_reads s))) msg) (tick_clock s) in
  match log_fn self with
  | Some f =>
    match f msg with
    | None => s1
    | Some e => printed (CallbackFailed e) s1
    end
  | None => s1
  end.

(** The state after the three messages that end [__init__]. *)
Definition announced (self : Watcher) (s : State) : State :=
  logged self (MsgDataFile (DATA_FILE self))
    (logged self (MsgMonitored (size (games self)))
       (logged self MsgInitialized s)).

(** The exception that reading and decoding the data file raises, if any. *)
Definition load_error (s : State) : option Exc :=
  match data_file s with
  | Missing => Some (mkExc FileNotFoundError "No such file or directory")
  | Unreadable e => Some e
  | Content text =>
    match json_loads text with
    | Raise e => Some e
    | Return _ => None
    end
  end.

(** What [_load] returns, and the state it leaves. *)
Definition loaded (s : State) : JSON Float :=
  match data_file s with
  | Content text =>
    match json_loads text with
    | Return data => data
    | Raise _ => JDict []
    end
  | _ => JDict []
  end.

Definition after_load (self : Watcher) (s : State) : State :=
  match load_error s with
  | Some e => logged self (MsgLoadWarning e) s
  | None => s
  end.

(** The exception that [write_text] raises in [s], if any, with the file
    it leaves. *)
Definition write_error (text : string) (s : State) : option (Exc * FileState) :=
  match data_dir s with
  | DirPresent =>
    match write_outcomes s (writes s) with
    | WriteOk => None
    | OpenFails e => Some (e, data_file s)
    | WriteFails e n => Some (e, Content (String.substring 0 n text))
    end
  | _ => Some (mkExc FileNotFoundError "No such file or directory", data_file s)
  end.

(** In [_record] started in [s]: [end_str], the index of the clock reading
    that gives [current_date], and [current_date]. *)
Definition closed_at (s : State) : string :=
  strftime_full (fromtimestamp (clock s (clock_reads s))).

Definition merge_reading (s : State) : nat :=
  (clock_reads s + if load_error s is Some _ then 3 else 2)%nat.

Definition today_of (s : State) : string :=
  strftime_date (fromtimestamp (clock s (merge_reading s))).

(** Start and stop events on the console. *)
Definition is_start (exe : string) (l : ConsoleLine) : bool :=
  match l with
  | Printed _ (MsgStartup exe' _ _ _) => bool_decide (exe' = exe)
  | _ => false
  end.

Definition is_stop (exe : string) (l : ConsoleLine) : bool :=
  match l with
  | Printed _ (MsgShutdown exe' _ _) => bool_decide (exe' = exe)
  | _ => false
  end.

Definition is_event (l : ConsoleLine) : bool :=
  match l with
  | Printed _ (MsgStartup _ _ _ _) | Printed _ (MsgShutdown _ _ _) => true
  | _ => false
  end.

Definition is_shutdown (l : ConsoleLine) : bool :=
  match l with
  | Printed _ (MsgShutdown _ _ _) => true
  | _ => false
  end.

Definition is_startup (l : ConsoleLine) : bool :=
  match l with
  | Printed _ (MsgStartup _ _ _ _) => true
  | _ => false
  end.

Definition nstart (exe : string) (lines : list ConsoleLine) : nat :=
  length (List.filter (is_start exe) lines).

Definition nstop (exe : string) (lines : list ConsoleLine) : nat :=
  length (List.filter (is_stop exe) lines).

(** A step that starts and stops nothing: [self.running] is as before and
    the console has gained no start or stop event. *)
Definition silent (s s' : State) : Prop :=
  running s' = running s /\ clock s' = clock s /\
  (clock_reads s <= clock_reads s')%nat /\
  exists new, console s' = console s ++ new /\ Forall (fun l => is_event l = false) new.

(** The filename under which the scan of [tick] sees a process, if it
    does. *)
Definition filename_of (p : Proc) : option string :=
  match p with
  | ProcInfo (Some proc_exe) _ =>
    if decide (proc_exe = "") then None else Some (path_name_lower proc_exe)
  | _ => None
  end.

Definition observed (exe : string) (procs : list Proc) : Prop :=
  Exists (fun p => filename_of p = Some exe) procs.

(** The keys of [self.running] are filenames of the catalog. *)
Definition in_catalog (self : Watcher) (s : State) : Prop :=
  forall exe, exe ∈ dict_keys (running s) -> is_Some (games self !! exe).

(** What a scan does about one filename; [seen] says whether the scan saw
    a process under it. *)
Definition scan_effect (self : Watcher) (exe : string) (seen : Prop)
    (now_running now_running' : gset string) (s s' : State) : Prop :=
  clock s' = clock s /\ (clock_reads s <= clock_reads s')%nat /\
  (exists new,
      console s' = console s ++ new /\ Forall (fun l => is_shutdown l = false) new) /\
  (exe ∈ now_running' <-> exe ∈ now_running \/ (seen /\ is_Some (games self !! exe))) /\
  match dict_get exe (running s) with
  | Some ts =>
    dict_get exe (running s') = Some ts /\
    nstart exe (console s') = nstart exe (console s)
  | None =>
    (seen /\ is_Some (games self !! exe) ->
     (exists i, (clock_reads s <= i < clock_reads s')%nat /\
                dict_get exe (running s') = Some (clock s i)) /\
     nstart exe (console s') = S (nstart exe (console s))) /\
    (~ (seen /\ is_Some (games self !! exe)) ->
     dict_get exe (running s') = None /\
     nstart exe (console s') = nstart exe (console s))
  end.

(** What the second loop of [tick] does about one filename: nothing, or
    the filename leaves [self.running] and one stop event is printed for
    it, with the duration measured on a clock reading [i] of the loop. *)
Definition stop_effect (self : Watcher) (exe : string) (exes : list string)
    (now_running : gset string) (s s' : State) : Prop :=
  (dict_get exe (running s') = dict_get exe (running s) /\
   nstop exe (console s') = nstop exe (console s))
  \/
  (exe ∈ exes /\ (exe ∉ now_running) /\
   exists g start_ts i t new1 new2,
     games self !! exe = Some g /\
     dict_get exe (running s) = Some start_ts /\
     dict_get exe (running s') = None /\
     (clock_reads s <= i < clock_reads s')%nat /\
     console s' =
       console s ++ new1
       ++ (Printed t (MsgShutdown exe (name g) (py_int (fsub (clock s i) start_ts)))
           :: new2) /\
     nstop exe new1 = 0%nat /\ nstop exe new2 = 0%nat).

(** What the second loop does whatever the filename. *)
Definition stop_frame (self : Watcher) (s s' : State) : Prop :=
  clock s' = clock s /\ (clock_reads s <= clock_reads s')%nat /\
  (exists new,
      console s' = console s ++ new /\ Forall (fun l => is_startup l = false) new) /\
  (NoDup (dict_keys (running s)) -> NoDup (dict_keys (running s'))) /\
  (in_catalog self s -> in_catalog self s').

(** A filename has one more start event than stop events on the console
    when it is a key of [self.running], and as many otherwise. *)
Definition balanced (s : State) : Prop :=
  forall exe,
    nstart exe (console s) =
    (nstop exe (console s) + if dict_get exe (running s) is Some _ then 1 else 0)%nat.

(** What holds of [self.running] and of the console between two calls: the
    keys are distinct, they are filenames of the catalog, and the events
    are balanced. *)
Definition consistent (self : Watcher) (s : State) : Prop :=
  NoDup (dict_keys (running s)) /\ in_catalog self s /\ balanced s.

(** Runs of the watcher: ticks, each on what the process scan yields, and
    between them whatever the rest of the world does to the clock and the
    disk. *)
Inductive run (self : Watcher) : list (list Proc) -> State -> State -> Prop :=
| run_done s : run self [] s s
| run_world scans s s1 s' :
    running s1 = running s -> console s1 = console s ->
    run self scans s1 s' -> run self scans s s'
| run_tick procs scans s r s1 s' :
    tick self procs s = (r, s1) ->
    run self scans s1 s' -> run self (procs :: scans) s s'.

(** The states of a watcher that was constructed and then run. *)
Definition reachable (self : Watcher) (s : State) : Prop :=
  exists s0 s1 scans,
    console s0 = [] /\ __init__ self s0 = (Return tt, s1) /\ run self scans s1 s.

(** [doc[date][game]] *)
Definition doc_get (date game : string) (doc : JSON Float) : option (JSON Float) :=
  match doc with
  | JDict top =>
    match dict_get date top with
    | Some (JDict day) => dict_get game day
    | _ => None
    end
  | _ => None
  end.

(** [doc[date]] *)
Definition day_get (date : string) (doc : JSON Float) : option (JSON Float) :=
  match doc with
  | JDict top => dict_get date top
  | _ => None
  end.

(** Fields of a record of the document. *)
Definition record_field (field : string) (r : JSON Float) : option (JSON Float) :=
  match r with
  | JDict kvs => dict_get field kvs
  | _ => None
  end.

Definition record_total (r : JSON Float) : option Z :=
  match record_field "total" r with
  | Some (JInt n) => Some n
  | _ => None
  end.

(** The total a document holds for (date, game) when the record is absent
    (zero) or well formed; [None] for any other document. *)
Definition prior_total (date game : string) (doc : JSON Float) : option Z :=
  match doc with
  | JDict top =>
    match dict_get date top with
    | None => Some 0
    | Some (JDict day) =>
      match dict_get game day with
      | None => Some 0
      | Some r => record_total r
      end
    | Some _ => None
    end
  | _ => None
  end.

End Vocabulary.


(** ** A runtime to run the embedding on

    Timestamps are fixed-point numbers, in milliseconds since the epoch; the
    time zone is UTC; the JSON codec covers what the playtime document is
    made of (objects, arrays, strings with the common escapes, integers,
    numbers with up to three decimals, [true], [false], [null]). *)

Module Milli.

Definition dquote : ascii := "034"%char.
Definition backslash : ascii := "092"%char.

(** *** Time *)

Definition civil_from_days (days : Z) : Z * Z * Z :=
  let z := days + 719468 in
  let era := z / 146097 in
  let doe := z - era * 146097 in
  let yoe := (doe - doe / 1460 + doe / 36524 - doe / 146096) / 365 in
  let doy := doe - (365 * yoe + yoe / 4 - yoe / 100) in
  let mp := (5 * doy + 2) / 153 in
  let d := doy - (153 * mp + 2) / 5 + 1 in
  let m := if mp <? 10 then mp + 3 else mp - 9 in
  let y := yoe + era * 400 + (if m <=? 2 then 1 else 0) in
  (y, m, d).

Definition utc_of_millis (ms : Z) : DateTime :=
  let secs := ms / 1000 in
  let '(y, m, d) := civil_from_days (secs / 86400) in
  let r := secs mod 86400 in
  mkDateTime y m d (r / 3600) ((r mod 3600) / 60) (r mod 60).

(** *** Paths *)

Definition lower_char (c : ascii) : ascii :=
  let n := nat_of_ascii c in
  if ((65 <=? n) && (n <=? 90))%nat then ascii_of_nat (n + 32) else c.

Fixpoint lower (s : string) : string :=
  match s with
  | EmptyString => EmptyString
  | String c s' => String (lower_char c) (lower s')
  end.

Definition is_sep (c : ascii) : bool :=
  bool_decide (c = "/"%char) || bool_decide (c = backslash).

(** The last non-empty component of a path; [cur] is the component being
    read and [last] the latest one completed. *)
Fixpoint last_component (s cur last : string) : string :=
  match s with
  | EmptyString => if decide (cur = "") then last else cur
  | String c s' =>
    if is_sep c
    then last_component s' "" (if decide (cur = "") then last else cur)
    else last_component s' (cur +:+ String c "") last
  end.

Definition name_lower (p : string) : string := lower (last_component p "" "").

(** *** JSON: writing *)

Fixpoint spaces (n : nat) : string :=
  match n with
  | O => ""
  | S k => "  " +:+ spaces k
  end.

Fixpoint escape (s : string) : string :=
  match s with
  | EmptyString => ""
  | String c s' =>
    if decide (c = dquote) then String backslash (String dquote (escape s'))
    else if decide (c = backslash) then String backslash (String backslash (escape s'))
    else if decide (c = "010"%char) then String backslash (String "n" (escape s'))
    else String c (escape s')
  end.

Definition quote (s : string) : string :=
  String dquote (escape s) +:+ String dquote "".

Definition pad3 (n : Z) : string :=
  if n <? 10 then "00" +:+ pretty n
  else if n <? 100 then "0" +:+ pretty n
  else pretty n.

Definition show_millis (x : Z) : string :=
  (if x <? 0 then "-" else "") +:+ pretty (Z.abs x / 1000) +:+ "." +:+ pad3 (Z.abs x mod 1000).

Fixpoint join (sep : string) (parts : list string) : string :=
  match parts with
  | [] => ""
  | [p] => p
  | p :: rest => p +:+ sep +:+ join sep rest
  end.

Fixpoint dumps_at (level : nat) (j : JSON Z) : string :=
  let inner := newline +:+ spaces (S level) in
  let sep := "," +:+ inner in
  match j with
  | JNull => "null"
  | JBool b => if b then "true" else "false"
  | JInt n => pretty n
  | JFloat x => show_millis x
  | JStr s => quote s
  | JList [] => "[]"
  | JList xs =>
    "[" +:+ inner +:+ join sep (List.map (dumps_at (S level)) xs)
    +:+ newline +:+ spaces level +:+ "]"
  | JDict [] => "{}"
  | JDict kvs =>
    "{" +:+ inner
    +:+ join sep (List.map (fun kv => quote (fst kv) +:+ ": " +:+ dumps_at (S level) (snd kv)) kvs)
    +:+ newline +:+ spaces level +:+ "}"
  end.

Definition dumps (j : JSON Z) : string := dumps_at 0 j.

(** *** JSON: reading *)

Definition bad (what : string) : Exc := mkExc JSONDecodeError what.

Definition is_ws (c : ascii) : bool :=
  bool_decide (c = " "%char) || bool_decide (c = "010"%char)
  || bool_decide (c = "013"%char) || bool_decide (c = "009"%char).

Fixpoint skip_ws (s : string) : string :=
  match s with
  | String c s' => if is_ws c then skip_ws s' else s
  | EmptyString => s
  end.

Definition digit_of (c : ascii) : option Z :=
  let n := nat_of_ascii c in
  if ((48 <=? n) && (n <=? 57))%nat then Some (Z.of_nat n - 48) else None.

(** The digits at the head of [s]: their value, how many, and the rest. *)
Fixpoint read_digits (s : string) (acc : Z) (count : nat) : Z * nat * string :=
  match s with
  | String c s' =>
    match digit_of c with
    | Some d => read_digits s' (10 * acc + d) (S count)
    | None => (acc, count, s)
    end
  | EmptyString => (acc, count, s)
  end.

Definition read_number (s : string) : option (JSON Z * string) :=
  let '(neg, s1) :=
    match s with
    | String "-" s' => (true, s')
    | _ => (false, s)
    end in
  let sign := if neg then -1 else 1 in
  match read_digits s1 0 0 with
  | (_, O, _) => None
  | (n, _, String "." s2) =>
    match read_digits s2 0 0 with
    | (f, 1%nat, s3) => Some (JFloat (sign * (1000 * n + 100 * f)), s3)
    | (f, 2%nat, s3) => Some (JFloat (sign * (1000 * n + 10 * f)), s3)
    | (f, 3%nat, s3) => Some (JFloat (sign * (1000 * n + f)), s3)
    | _ => None
    end
  | (n, _, s2) => Some (JInt (sign * n), s2)
  end.

(** The characters up to the closing quote, escapes undone. *)
Fixpoint read_string (s : string) : option (string * string) :=
  match s with
  | EmptyString => None
  | String c s' =>
    if decide (c = dquote) then Some ("", s')
    else if decide (c = backslash) then
      match s' with
      | String e s'' =>
        let plain (x : ascii) :=
          match read_string s'' with
          | Some (body, rest) => Some (String x body, rest)
          | None => None
          end in
        if decide (e = dquote) then plain dquote
        else if decide (e = backslash) then plain backslash
        else if decide (e = "/"%char) then plain "/"%char
        else if decide (e = "n"%char) then plain "010"%char
        else if decide (e = "t"%char) then plain "009"%char
        else if decide (e = "r"%char) then plain "013"%char
        else None
      | EmptyString => None
      end
    else
      match read_string s' with
      | Some (body, rest) => Some (String c body, rest)
      | None => None
      end
  end.

Section Containers.
Variable read_value : string -> option (JSON Z * string).

(** After an opening bracket and a first value: [, value]* then the
    closing bracket. *)
Fixpoint read_elements (fuel : nat) (s : string) (acc : list (JSON Z))
    : option (list (JSON Z) * string) :=
  match fuel with
  | O => None
  | S fuel' =>
    match read_value s with
    | Some (v, s1) =>
      match skip_ws s1 with
      | String "," s2 => read_elements fuel' s2 (acc ++ [v])
      | String "]" s2 => Some ((acc ++ [v]), s2)
      | _ => None
      end
    | None => None
    end
  end.

Fixpoint read_members (fuel : nat) (s : string) (acc : list (string * JSON Z))
    : option (list (string * JSON Z) * string) :=
  match fuel with
  | O => None
  | S fuel' =>
    match skip_ws s with
    | String q s1 =>
      if decide (q = dquote) then
        match read_string s1 with
        | Some (k, s2) =>
          match skip_ws s2 with
          | String ":" s3 =>
            match read_value s3 with
            | Some (v, s4) =>
              match skip_ws s4 with
              | String "," s5 => read_members fuel' s5 (dict_set k v acc)
              | String "}" s5 => Some (dict_set k v acc, s5)
              | _ => None
              end
            | None => None
            end
          | _ => None
          end
        | None => None
        end
      else None
    | EmptyString => None
    end
  end.
End Containers.

Fixpoint read_value (fuel : nat) (s : string) : option (JSON Z * string) :=
  match fuel with
  | O => None
  | S fuel' =>
    match skip_ws s with
    | String "n" (String "u" (String "l" (String "l" rest))) => Some (JNull, rest)
    | String "t" (String "r" (String "u" (String "e" rest))) => Some (JBool true, rest)
    | String "f" (String "a" (String "l" (String "s" (String "e" rest)))) =>
      Some (JBool false, rest)
    | String "[" rest =>
      match skip_ws rest with
      | String "]" rest' => Some (JList [], rest')
      | _ =>
        match read_elements (read_value fuel') (String.length rest) rest [] with
        | Some (xs, rest') => Some (JList xs, rest')
        | None => None
        end
      end
    | String "{" rest =>
      match skip_ws rest with
      | String "}" rest' => Some (JDict [], rest')
      | _ =>
        match read_members (read_value fuel') (String.length rest) rest [] with
        | Some (kvs, rest') => Some (JDict kvs, rest')
        | None => None
        end
      end
    | String c rest =>
      if decide (c = dquote) then
        match read_string rest with
        | Some (body, rest') => Some (JStr body, rest')
        | None => None
        end
      else read_number (String c rest)
    | EmptyString => None
    end
  end.

Definition loads (text : string) : Outcome (JSON Z) :=
  match read_value (S (String.length text)) text with
  | Some (v, rest) =>
    match skip_ws rest with
    | EmptyString => Return v
    | _ => Raise (bad "Extra data")
    end
  | None => Raise (bad "Expecting value")
  end.

#[export] Instance runtime : Runtime := {|
  Float := Z;
  fsub := Z.sub;
  fadd_int := fun x n => x + 1000 * n;
  py_int := fun x => Z.quot x 1000;
  fromtimestamp := utc_of_millis;
  json_loads := loads;
  json_dumps := dumps;
  path_name_lower := name_lower
|}.

(** A catalog of one game. *)
Definition catalog : gmap string Game :=
  {[ "game.exe" := mkGame "Game" "1" "/x/game.exe" ]}.

Definition watcher : Watcher := mkWatcher catalog None "/x/data/playtime.json".

(** 2024-01-01 23:59:50 UTC *)
Definition t0 : Z := 1704153590000.

(** A state of the world to start from: nothing running, the clock at [t0]
    and advancing by [step] milliseconds at each reading, the data
    directory in place, every write succeeding. *)
Definition world (step : Z) (file : FileState) : State :=
  mkState [] (fun i => t0 + step * Z.of_nat i) 0 DirPresent file (fun _ => WriteOk) 0 [].

(** The same with a disk on which every write ends as [o]. *)
Definition failing (o : WriteOutcome) (file : FileState) : State :=
  mkState [] (fun i => t0 + 1000 * Z.of_nat i) 0 DirPresent file (fun _ => o) 0 [].

Definition disk_full : WriteOutcome :=
  WriteFails (mkExc OSError "No space left on device") 0.

Definition read_only : WriteOutcome :=
  OpenFails (mkExc OSError "Permission denied").

Definition game_proc : Proc := ProcInfo (Some "/x/Game.EXE") (Some 42).

(** A watcher constructed on an empty document, a tick that sees the game,
    one that sees it still, and one that does not. *)
Definition constructed : State := snd (__init__ watcher (world 1000 (Content "{}"))).
Definition playing : State := snd (tick watcher [game_proc] constructed).
Definition still_playing : State := snd (tick watcher [game_proc; game_proc] playing).
Definition stopped : State := snd (tick watcher [ProcInfo None None] still_playing).

Definition one_hour : JSON Z :=
  JDict [("2024-01-01",
          JDict [("Game", JDict [("total", JInt 3600);
                                 ("last_open", JStr "2024-01-01 10:00:00");
                                 ("last_close", JStr "2024-01-01 11:00:00")])])].

(** The document on disk holds [one_hour]; two sessions of the game are
    recorded, of one and of two minutes. *)
Definition saved_hour : State := world 1000 (Content (dumps one_hour)).
Definition first_recorded : State :=
  snd (_record watcher "game.exe" (t0 - 60000) 60 saved_hour).

(** The same document, and a clock that passes midnight between the moment
    [_record] is entered and the moment it reads the date. *)
Definition before_midnight : State := world 6000 (Content (dumps one_hour)).



End Milli.

(** ** More vocabulary *)

Section MoreVocabulary.
Context `{RT : Runtime}.

(** A process that the scan of [tick] passes over: its inspection raises
    one of the three [psutil] exceptions, or it has no executable path, or
    its filename is not in the catalog. *)
Definition passed_over (self : Watcher) (p : Proc) : bool :=
  match p with
  | ProcRaises e => is_skipped e
  | ProcInfo _ _ =>
    match filename_of p with
    | Some f => if games self !! f is Some _ then false else true
    | None => true
    end
  end.

(** A record that [_record] can add a duration to: an object whose
    ["total"] is a number. *)
Definition addable (r : JSON Float) : bool :=
  match record_field "total" r with
  | Some (JInt _) | Some (JBool _) | Some (JFloat _) => true
  | _ => false
  end.

(** A document into which [_record] can merge a session of [game] under
    [date]: an object, in which [date] is absent or an object, in which
    [game] is absent or addable. *)
Definition mergeable (date game : string) (doc : JSON Float) : bool :=
  match doc with
  | JDict top =>
    match dict_get date top with
    | None => true
    | Some (JDict day) =>
      match dict_get game day with
      | None => true
      | Some r => addable r
      end
    | Some _ => false
    end
  | _ => false
  end.

(** The disk is as it was: the data file and directory, and the writes
    made and to come. *)
Definition same_disk (s s' : State) : Prop :=
  data_file s' = data_file s /\ data_dir s' = data_dir s /\
  writes s' = writes s /\ write_outcomes s' = write_outcomes s.

(** The data file as something else than the watcher left it: the state
    after the file was edited, replaced or removed behind its back. *)
Definition edited (f : FileState) (s : State) : State :=
  mkState (running s) (clock s) (clock_reads s) (data_dir s) f
          (write_outcomes s) (writes s) (console s).

End MoreVocabulary.

(** ** src/tray.py and src/ui/main_window.py *)

(** What the builtins do where the two files use them and [Runtime] does
    not say it already. *)
Class Builtins `{RT : Runtime} := {
  (** [x + y] on floats *)
  fadd : Float -> Float -> Float;
  (** [text.strip()] *)
  str_strip : string -> string;
  (** [datetime.strptime(date, "%Y-%m-%d")] *)
  strptime_date : string -> Outcome DateTime;
  (** [d.isocalendar().week] *)
  iso_week : DateTime -> Z;
  (** whether [float(n)] returns: an int that is too large for a float
      makes it raise [OverflowError] *)
  fits_float : Z -> bool;
  (** [sorted(items, key=..., reverse=True)] when the keys, given here
      with the items, are numbers of which one at least is a float *)
  sorted_floats : forall A : Type, list (JSON Float * A) -> list A;
  (** the same when one key at least is not a number: the comparisons may
      raise *)
  sorted_other : forall A : Type, list (JSON Float * A) -> Outcome (list A)
}.

(** The texts [refresh] hands to [append_log]. *)
Inductive UiMsg :=
| InfoNoDataFile
| ErrorReadFailed (e : Exc)
| WarnDaily (date : string)
| WarnGame (game_name : string)
| WarnNoTotal (game_name : string).

(** What [print] writes: the warning of [get_today_ranking] and the one of
    [append_log]. *)
Inductive UiLine :=
| RankingWarning (e : Exc)
| EmitFailed (e : Exc).

Declare Scope ui_scope.
Delimit Scope ui_scope with ui.

Section Ui.
Context `{BI : Builtins}.

(** *** Values *)

(** The sums of [refresh]: they start at the int [0] and have numbers
    added, so they are ints or floats. *)
Inductive Num :=
| NInt (n : Z)
| NFloat (x : Float).

(** The [OverflowError] of an int that is converted to a float; the class
    is none of those that the code names. *)
Definition int_too_large : Exc := mkExc OtherException "int too large to convert to float".

(** [acc += v] for whatever the document holds as [v]. An int plus a float
    is the float plus the int, and the int is converted to a float first,
    which raises when it is too large; two ints, or two floats, are added
    as they are. *)
Definition num_add (acc : Num) (v : JSON Float) : Outcome Num :=
  match acc, v with
  | NInt a, JInt b => Return (NInt (a + b))
  | NInt a, JBool b => Return (NInt (a + Z.b2z b))
  | NInt a, JFloat y =>
    if fits_float a then Return (NFloat (fadd_int y a)) else Raise int_too_large
  | NFloat x, JInt b =>
    if fits_float b then Return (NFloat (fadd_int x b)) else Raise int_too_large
  | NFloat x, JBool b => Return (NFloat (fadd_int x (Z.b2z b)))
  | NFloat x, JFloat y => Return (NFloat (fadd x y))
  | _, _ => Raise (mkExc TypeError "unsupported operand type(s) for +=")
  end.

Definition num_json (x : Num) : JSON Float :=
  match x with
  | NInt n => JInt n
  | NFloat x => JFloat x
  end.

(** What [format_playtime] sees of a value of the document, and of a sum. *)
Definition arg_of (v : JSON Float) : pyarg :=
  match v with
  | JInt n => ArgInt n
  | JBool b => ArgBool b
  | _ => ArgOther
  end.

Definition arg_of_num (x : Num) : pyarg := arg_of (num_json x).

(** A key of a sort that is an int. *)
Definition json_int (v : JSON Float) : option Z :=
  match v with
  | JInt n => Some n
  | JBool b => Some (Z.b2z b)
  | _ => None
  end.

Definition is_number (v : JSON Float) : bool :=
  match v with
  | JInt _ | JBool _ | JFloat _ => true
  | _ => false
  end.

(** *** [sorted(..., reverse=True)] *)

(** On int keys the sort is stable and descending: an item goes before the
    first one whose key is not greater than its own. *)
Fixpoint insert_desc {A} (k : Z) (x : A) (l : list (Z * A)) : list (Z * A) :=
  match l with
  | [] => [(k, x)]
  | (k', y) :: l' =>
    if k <? k' then (k', y) :: insert_desc k x l' else (k, x) :: (k', y) :: l'
  end.

Fixpoint sort_desc {A} (l : list (Z * A)) : list (Z * A) :=
  match l with
  | [] => []
  | (k, x) :: l' => insert_desc k x (sort_desc l')
  end.

(** The keys as ints, when they all are. *)
Fixpoint int_keys {A} (l : list (JSON Float * A)) : option (list (Z * A)) :=
  match l with
  | [] => Some []
  | (k, x) :: l' =>
    match json_int k, int_keys l' with
    | Some n, Some r => Some ((n, x) :: r)
    | _, _ => None
    end
  end.

Definition sorted_reverse {A} (l : list (JSON Float * A)) : Outcome (list A) :=
  match int_keys l with
  | Some r => Return (sort_desc r).*2
  | None =>
    if forallb (fun kx => is_number kx.1) l then Return (sorted_floats A l)
    else sorted_other A l
  end.

(** *** The window and the tray *)

(** [games[name]] in [refresh] *)
Record Entry := mkEntry {
  e_today : Num;
  e_week : Num;
  e_total : Num;
  e_last_open : JSON Float;
  e_last_close : JSON Float
}.

(** What the two files read and change: the clock and the disk (shared
    with the watcher), the texts sent through [log_signal] and how the
    calls of [emit] to come will end, what [print] wrote, and the widgets
    and the cache of the window. *)
Record Ui := mkUi {
  ui_world : State;
  has_log_view : bool;
  emit_outcomes : nat -> option Exc;
  emits : nat;
  log_signal : list UiMsg;
  stdout : list UiLine;
  today_label : string;
  week_label : string;
  table : list (string * string * string * string);
  cache : list (string * Entry)
}.

Definition set_world (w : State) (u : Ui) : Ui :=
  mkUi w (has_log_view u) (emit_outcomes u) (emits u) (log_signal u) (stdout u)
       (today_label u) (week_label u) (table u) (cache u).

Definition emitted (text : UiMsg) (u : Ui) : Ui :=
  mkUi (ui_world u) (has_log_view u) (emit_outcomes u) (S (emits u))
       (log_signal u ++ [text]) (stdout u)
       (today_label u) (week_label u) (table u) (cache u).

Definition emit_failed (e : Exc) (u : Ui) : Ui :=
  mkUi (ui_world u) (has_log_view u) (emit_outcomes u) (S (emits u))
       (log_signal u) (stdout u ++ [EmitFailed e])
       (today_label u) (week_label u) (table u) (cache u).

Definition uprinted (l : UiLine) (u : Ui) : Ui :=
  mkUi (ui_world u) (has_log_view u) (emit_outcomes u) (emits u)
       (log_signal u) (stdout u ++ [l])
       (today_label u) (week_label u) (table u) (cache u).

(** The end of [refresh]: the cache, the two labels and the rows of the
    table. *)
Definition shown (games : list (string * Entry)) (today_text week_text : string)
    (rows : list (string * string * string * string)) (u : Ui) : Ui :=
  mkUi (ui_world u) (has_log_view u) (emit_outcomes u) (emits u)
       (log_signal u) (stdout u) today_text week_text rows games.

(** *** The monad of the two files *)

Definition U (A : Type) : Type := Ui -> Outcome A * Ui.

Definition uret {A} (a : A) : U A := fun u => (Return a, u).

Definition uraise {A} (e : Exc) : U A := fun u => (Raise e, u).

Definition ubind {A B} (m : U A) (k : A -> U B) : U B :=
  fun u =>
    match m u with
    | (Return a, u') => k a u'
    | (Raise e, u') => (Raise e, u')
    end.

Definition utry_except {A} (m : U A) (h : Exc -> U A) : U A :=
  fun u =>
    match m u with
    | (Return a, u') => (Return a, u')
    | (Raise e, u') => h e u'
    end.

Definition ulift {A} (o : Outcome A) : U A := fun u => (o, u).

Definition uget {A} (f : Ui -> A) : U A := fun u => (Return (f u), u).

Definition umodify (f : Ui -> Ui) : U unit := fun u => (Return tt, f u).

(** A call on the clock or the disk. *)
Definition in_world {A} (m : M A) : U A :=
  fun u => let (r, w) := m (ui_world u) in (r, set_world w u).

Notation "'let*' x ':=' m 'in' k" := (ubind m (fun x => k))
  (at level 10, x name, m at level 100, k at level 200) : ui_scope.
Notation "m '>>' k" := (ubind m (fun _ => k))
  (at level 100, k at level 200, right associativity) : ui_scope.
Open Scope ui_scope.

(** [MainWindow.append_log]: the text goes out through [log_signal], or
    [emit] raises and a warning is printed. *)
Definition append_log (text : UiMsg) : U unit :=
  fun u =>
    match emit_outcomes u (emits u) with
    | None => (Return tt, emitted text u)
    | Some e => (Return tt, emit_failed e u)
    end.

(** *** src/tray.py: [get_today_ranking] *)

(** [except (json.JSONDecodeError, OSError)]: the two classes and the
    subclasses of [OSError]. *)
Definition is_decode_or_os_error (e : Exc) : bool :=
  match exc_class e with
  | JSONDecodeError | OSError | FileNotFoundError | FileExistsError => true
  | _ => false
  end.

(** [data.get(today, {})] *)
Definition get_day (today : string) (data : JSON Float) : Outcome (JSON Float) :=
  match data with
  | JDict top => Return (default (JDict []) (dict_get today top))
  | _ => Raise (mkExc AttributeError "object has no attribute 'get'")
  end.

(** [d.items()] *)
Definition items (d : JSON Float) : Outcome (list (string * JSON Float)) :=
  match d with
  | JDict kvs => Return kvs
  | _ => Raise (mkExc AttributeError "object has no attribute 'items'")
  end.

(** [x[1]["total"]], the key of the sort *)
Definition total_key (info : JSON Float) : Outcome (JSON Float) :=
  match info with
  | JDict r =>
    match dict_get "total" r with
    | Some t => Return t
    | None => Raise (mkExc KeyError "'total'")
    end
  | _ => Raise (mkExc TypeError "object is not subscriptable by 'total'")
  end.

(** [sorted] computes the key of every item before it compares any. *)
Fixpoint keyed (l : list (string * JSON Float))
    : Outcome (list (JSON Float * (string * JSON Float))) :=
  match l with
  | [] => Return []
  | (game_name, info) :: l' =>
    match total_key info with
    | Raise e => Raise e
    | Return k =>
      match keyed l' with
      | Raise e => Raise e
      | Return r => Return ((k, (game_name, info)) :: r)
      end
    end
  end.

(** The loop over the sorted items. *)
Fixpoint ranking_loop (l : list (string * JSON Float)) (ranking_list : list (string * string))
    : list (string * string) :=
  match l with
  | [] => ranking_list
  | (game_name, info) :: l' =>
    ranking_loop l'
      match info with
      | JDict r =>
        match dict_get "total" r with
        | Some t => ranking_list ++ [(game_name, format_playtime (arg_of t))]
        | None => ranking_list
        end
      | _ => ranking_list
      end
  end.

(** What the [try] block of [get_today_ranking] comes to: a [return], or
    the document. *)
Definition get_today_ranking : U (list (string * string)) :=
  let* there := in_world file_exists in
  if negb there then uret []
  else
    let* r :=
      utry_except
        (let* raw := in_world read_text in
         let text := str_strip raw in
         if decide (text = "") then uret (inl [])
         else let* data := ulift (json_loads text) in uret (inr data))
        (fun e =>
           if is_decode_or_os_error e
           then umodify (uprinted (RankingWarning e)) >> uret (inl [])
           else uraise e) in
    match r with
    | inl early => uret early
    | inr data =>
      let* now := in_world datetime_now in
      let today := strftime_date now in
      let* games := ulift (get_day today data) in
      let* l := ulift (items games) in
      let* ks := ulift (keyed l) in
      let* ordered := ulift (sorted_reverse ks) in
      uret (ranking_loop ordered [])
    end.

(** *** src/ui/main_window.py: [MainWindow.refresh] *)

(** [info.get(k)] *)
Definition field_or_none (k : string) (r : list (string * JSON Float)) : JSON Float :=
  default JNull (dict_get k r).

(** The three local variables that the loops of [refresh] update. *)
Record Acc := mkAcc {
  today_total : Num;
  week_total : Num;
  acc_games : list (string * Entry)
}.

(** The body of the inner loop past the fault tolerance: [r] is [info]
    and [t] is [info["total"]]. *)
Definition add_record (today : string) (current_week : Z) (date : string) (date_week : Z)
    (game_name : string) (r : list (string * JSON Float)) (t : JSON Float) (acc : Acc)
    : Outcome Acc :=
  let games1 :=
    dict_setdefault game_name
      (mkEntry (NInt 0) (NInt 0) (NInt 0)
               (field_or_none "last_open" r) (field_or_none "last_close" r))
      (acc_games acc) in
  match dict_get game_name games1 with
  | None => Raise (mkExc KeyError game_name)
  | Some g =>
    match num_add (e_total g) t with
    | Raise e => Raise e
    | Return total1 =>
      let g1 := mkEntry (e_today g) (e_week g) total1 (e_last_open g) (e_last_close g) in
      match
        (if decide (date = today)
         then match num_add (e_today g1) t, num_add (today_total acc) t with
              | Return x, Return y =>
                Return (mkEntry x (e_week g1) (e_total g1) (e_last_open g1) (e_last_close g1), y)
              | Raise e, _ => Raise e
              | _, Raise e => Raise e
              end
         else Return (g1, today_total acc))
      with
      | Raise e => Raise e
      | Return (g2, today_total1) =>
        match
          (if decide (date_week = current_week)
           then match num_add (e_week g2) t, num_add (week_total acc) t with
                | Return x, Return y =>
                  Return (mkEntry (e_today g2) x (e_total g2) (e_last_open g2) (e_last_close g2),
                          y)
                | Raise e, _ => Raise e
                | _, Raise e => Raise e
                end
           else Return (g2, week_total acc))
        with
        | Raise e => Raise e
        | Return (g3, week_total1) =>
          Return (mkAcc today_total1 week_total1 (dict_set game_name g3 games1))
        end
      end
    end
  end.

(** The body of the inner loop. *)
Definition refresh_game (today : string) (current_week : Z) (date : string) (date_week : Z)
    (game_name : string) (info : JSON Float) (acc : Acc) : U Acc :=
  match info with
  | JDict r =>
    match dict_get "total" r with
    | None => append_log (WarnNoTotal game_name) >> uret acc
    | Some t => ulift (add_record today current_week date date_week game_name r t acc)
    end
  | _ => append_log (WarnGame game_name) >> uret acc
  end.

Fixpoint refresh_games (today : string) (current_week : Z) (date : string) (date_week : Z)
    (day : list (string * JSON Float)) (acc : Acc) : U Acc :=
  match day with
  | [] => uret acc
  | (game_name, info) :: day' =>
    let* acc1 := refresh_game today current_week date date_week game_name info acc in
    refresh_games today current_week date date_week day' acc1
  end.

(** The body of the outer loop. *)
Definition refresh_date (today : string) (current_week : Z) (date : string)
    (daily : JSON Float) (acc : Acc) : U Acc :=
  match daily with
  | JDict day =>
    let* date_obj := ulift (strptime_date date) in
    refresh_games today current_week date (iso_week date_obj) day acc
  | _ => append_log (WarnDaily date) >> uret acc
  end.

Fixpoint refresh_dates (today : string) (current_week : Z)
    (top : list (string * JSON Float)) (acc : Acc) : U Acc :=
  match top with
  | [] => uret acc
  | (date, daily) :: top' =>
    let* acc1 := refresh_date today current_week date daily acc in
    refresh_dates today current_week top' acc1
  end.

(** A row of the table. *)
Definition row_of (item : string * Entry) : string * string * string * string :=
  (item.1,
   format_playtime (arg_of_num (e_today item.2)),
   format_playtime (arg_of_num (e_week item.2)),
   format_playtime (arg_of_num (e_total item.2))).

(** The keys [g["today"]] are numbers, so the sort does not raise. *)
Definition sorted_by_today (games : list (string * Entry)) : list (string * Entry) :=
  let ks := (fun item => (num_json (e_today item.2), item)) <$> games in
  match int_keys ks with
  | Some r => (sort_desc r).*2
  | None => sorted_floats _ ks
  end.

Definition refresh : U unit :=
  let* there := in_world file_exists in
  if negb there then
    let* has := uget has_log_view in
    if has then append_log InfoNoDataFile else uret tt
  else
    let* r :=
      utry_except
        (let* text := in_world read_text in
         let* data := ulift (json_loads text) in
         uret (Some data))
        (fun e =>
           let* has := uget has_log_view in
           (if has then append_log (ErrorReadFailed e) else uret tt) >> uret None) in
    match r with
    | None => uret tt
    | Some data =>
      let* now := in_world datetime_now in
      let today := strftime_date now in
      let* now' := in_world datetime_now in
      let current_week := iso_week now' in
      let* top := ulift (items data) in
      let* acc := refresh_dates today current_week top (mkAcc (NInt 0) (NInt 0) []) in
      umodify (shown (acc_games acc)
                     ("Today's Playtime: " +:+ format_playtime (arg_of_num (today_total acc)))
                     ("This Week's Playtime: " +:+ format_playtime (arg_of_num (week_total acc)))
                     (row_of <$> sorted_by_today (acc_games acc)))
    end.

End Ui.

(** ** What the properties of the tray and the window are stated with *)

Section UiVocabulary.
Context `{BI : Builtins}.

(** The date that a call of [datetime.now()] made in [u] gives. *)
Definition ui_today (u : Ui) : string :=
  strftime_date (fromtimestamp (clock (ui_world u) (clock_reads (ui_world u)))).

(** The state after one reading of the clock. *)
Definition clock_read (u : Ui) : Ui := set_world (tick_clock (ui_world u)) u.

(** What [get_today_ranking] makes of the document once it is loaded. *)
Definition ranking_of (today : string) (data : JSON Float) : Outcome (list (string * string)) :=
  match get_day today data with
  | Raise e => Raise e
  | Return games =>
    match items games with
    | Raise e => Raise e
    | Return l =>
      match keyed l with
      | Raise e => Raise e
      | Return ks =>
        match sorted_reverse ks with
        | Raise e => Raise e
        | Return ordered => Return (ranking_loop ordered [])
        end
      end
    end
  end.

(** The total of a record, when the record is an object whose ["total"]
    is an int. *)
Definition int_total (info : JSON Float) : option Z :=
  match info with
  | JDict r =>
    match dict_get "total" r with
    | Some t => json_int t
    | None => None
    end
  | _ => None
  end.

(** The test of the loop of [get_today_ranking]:
    [isinstance(info, dict) and "total" in info]. *)
Definition valid_record (info : JSON Float) : bool :=
  match info with
  | JDict r => if dict_get "total" r is Some _ then true else false
  | _ => false
  end.

(** The exception that the [try] block of [get_today_ranking] raises, if
    it does. *)
Definition tray_error (u : Ui) : option Exc :=
  match data_file (ui_world u) with
  | Missing => None
  | Unreadable e => Some e
  | Content raw =>
    if decide (str_strip raw = "") then None
    else match json_loads (str_strip raw) with
         | Raise e => Some e
         | Return _ => None
         end
  end.

(** The document that [get_today_ranking] goes on with, if it does. *)
Definition tray_document (u : Ui) : option (JSON Float) :=
  match data_file (ui_world u) with
  | Content raw =>
    if decide (str_strip raw = "") then None
    else match json_loads (str_strip raw) with
         | Raise _ => None
         | Return data => Some data
         end
  | _ => None
  end.

(** The total by which the ranking orders a record. *)
Definition rank_total (item : string * JSON Float) : Z := default 0 (int_total item.2).

(** The ISO week that the second call of [datetime.now()] in [refresh]
    gives. *)
Definition ui_week (u : Ui) : Z :=
  iso_week (fromtimestamp (clock (ui_world u) (S (clock_reads (ui_world u))))).

(** The state after [append_log] was called on each text in turn. *)
Fixpoint emit_all (texts : list UiMsg) (u : Ui) : Ui :=
  match texts with
  | [] => u
  | text :: texts' => emit_all texts' (snd (append_log text u))
  end.

(** What the loops of [refresh] come to: the sums, or the exception, and
    the warnings sent on the way. *)
Definition tally_game (today : string) (current_week : Z) (date : string) (date_week : Z)
    (item : string * JSON Float) (acc : Acc) : Outcome Acc * list UiMsg :=
  match item.2 with
  | JDict r =>
    match dict_get "total" r with
    | None => (Return acc, [WarnNoTotal item.1])
    | Some t => (add_record today current_week date date_week item.1 r t acc, [])
    end
  | _ => (Return acc, [WarnGame item.1])
  end.

Fixpoint tally_games (today : string) (current_week : Z) (date : string) (date_week : Z)
    (day : list (string * JSON Float)) (acc : Acc) : Outcome Acc * list UiMsg :=
  match day with
  | [] => (Return acc, [])
  | item :: day' =>
    match tally_game today current_week date date_week item acc with
    | (Return acc1, ws) =>
      let (r, ws') := tally_games today current_week date date_week day' acc1 in
      (r, ws ++ ws')
    | (Raise e, ws) => (Raise e, ws)
    end
  end.

Definition tally_date (today : string) (current_week : Z) (entry : string * JSON Float)
    (acc : Acc) : Outcome Acc * list UiMsg :=
  match entry.2 with
  | JDict day =>
    match strptime_date entry.1 with
    | Raise e => (Raise e, [])
    | Return date_obj => tally_games today current_week entry.1 (iso_week date_obj) day acc
    end
  | _ => (Return acc, [WarnDaily entry.1])
  end.

Fixpoint tally_dates (today : string) (current_week : Z)
    (top : list (string * JSON Float)) (acc : Acc) : Outcome Acc * list UiMsg :=
  match top with
  | [] => (Return acc, [])
  | entry :: top' =>
    match tally_date today current_week entry acc with
    | (Return acc1, ws) =>
      let (r, ws') := tally_dates today current_week top' acc1 in
      (r, ws ++ ws')
    | (Raise e, ws) => (Raise e, ws)
    end
  end.

(** The window at the end of [refresh], for the sums [acc]. *)
Definition shows (acc : Acc) (u : Ui) : Ui :=
  shown (acc_games acc)
        ("Today's Playtime: " +:+ format_playtime (arg_of_num (today_total acc)))
        ("This Week's Playtime: " +:+ format_playtime (arg_of_num (week_total acc)))
        (row_of <$> sorted_by_today (acc_games acc)) u.

(** A document on which [refresh] returns: an object in which the key of
    each object is a date and the ["total"] of each record that is an
    object and has one is a number. *)
Definition record_ok (info : JSON Float) : bool :=
  match info with
  | JDict r =>
    match dict_get "total" r with
    | Some t => is_number t
    | None => true
    end
  | _ => true
  end.

Definition date_ok (entry : string * JSON Float) : bool :=
  match entry.2 with
  | JDict day =>
    (if strptime_date entry.1 is Return _ then true else false)
    && forallb (fun item => record_ok item.2) day
  | _ => true
  end.

Definition refreshable (data : JSON Float) : bool :=
  match data with
  | JDict top => forallb date_ok top
  | _ => false
  end.

(** A document without floats: no record that [refresh] does not skip has
    a float as its ["total"]. *)
Definition float_record (info : JSON Float) : bool :=
  match info with
  | JDict r => if dict_get "total" r is Some (JFloat _) then true else false
  | _ => false
  end.

Definition float_free (data : JSON Float) : bool :=
  match data with
  | JDict top =>
    forallb
      (fun entry : string * JSON Float =>
         match entry.2 with
         | JDict day => forallb (fun item : string * JSON Float => negb (float_record item.2)) day
         | _ => true
         end)
      top
  | _ => true
  end.

(** A record as the inner loop of [refresh] meets it: whether its date is
    today, whether the week of its date is the current one, and the item
    of the day. *)
Record Visit := mkVisit {
  on_today : bool;
  in_week : bool;
  visited : string * JSON Float
}.

(** The records that [refresh] meets, in the order of the document. *)
Definition visits (today : string) (current_week : Z)
    (top : list (string * JSON Float)) : list Visit :=
  flat_map
    (fun entry =>
       match entry.2 with
       | JDict day =>
         match strptime_date entry.1 with
         | Return date_obj =>
           (fun item =>
              mkVisit (bool_decide (entry.1 = today)) (iso_week date_obj =? current_week) item)
             <$> day
         | Raise _ => []
         end
       | _ => []
       end)
    top.

Definition of_game (game_name : string) (v : Visit) : bool :=
  bool_decide ((visited v).1 = game_name).

(** The seconds of the records kept by [keep]; a record counts when it is
    an object whose ["total"] is an int. *)
Definition seconds (keep : Visit -> bool) (vs : list Visit) : Z :=
  foldr (fun v s => (if keep v then rank_total (visited v) else 0) + s) 0 vs.

(** The first record of a game that [refresh] does not skip. *)
Definition first_record (game_name : string) (vs : list Visit) : option (JSON Float) :=
  (fun v => (visited v).2)
    <$> List.find (fun v => of_game game_name v && valid_record (visited v).2) vs.

(** A document of ints: the key of each object is a date, and each record
    that [refresh] does not skip has an int as its ["total"]. *)
Definition int_record (info : JSON Float) : bool :=
  negb (valid_record info) || (if int_total info is Some _ then true else false).

Definition int_date (entry : string * JSON Float) : bool :=
  match entry.2 with
  | JDict day =>
    (if strptime_date entry.1 is Return _ then true else false)
    && forallb (fun item => int_record item.2) day
  | _ => true
  end.

Definition int_document (top : list (string * JSON Float)) : bool := forallb int_date top.

(** The sums [acc] are those of the records [vs]. *)
Definition tallies (vs : list Visit) (acc : Acc) : Prop :=
  today_total acc = NInt (seconds on_today vs) /\
  week_total acc = NInt (seconds in_week vs) /\
  (forall game_name,
     match dict_get game_name (acc_games acc) with
     | Some e =>
       e_today e = NInt (seconds (fun v => on_today v && of_game game_name v) vs) /\
       e_week e = NInt (seconds (fun v => in_week v && of_game game_name v) vs) /\
       e_total e = NInt (seconds (of_game game_name) vs) /\
       exists r,
         first_record game_name vs = Some (JDict r) /\
         e_last_open e = field_or_none "last_open" r /\
         e_last_close e = field_or_none "last_close" r
     | None => first_record game_name vs = None
     end) /\
  Forall (fun item : string * Entry => exists n, e_today item.2 = NInt n) (acc_games acc).

(** The seconds of today by which the table orders a game. *)
Definition today_seconds (item : string * Entry) : Z :=
  match e_today item.2 with
  | NInt n => n
  | NFloat _ => 0
  end.

(** What the window shows. *)
Definition display (u : Ui)
    : list (string * Entry) * string * string * list (string * string * string * string) :=
  (cache u, today_label u, week_label u, table u).

End UiVocabulary.

(** ** The builtins over millisecond timestamps *)

(** An instance of [Builtins] on the runtime of [Milli]: ASCII text, dates
    in the proleptic Gregorian calendar. *)
Module MilliUi.

(** *** [str.strip] *)

Definition is_space (c : ascii) : bool :=
  let n := nat_of_ascii c in
  (((9 <=? n) && (n <=? 13)) || ((28 <=? n) && (n <=? 32)))%nat.

Fixpoint lstrip (s : string) : string :=
  match s with
  | EmptyString => EmptyString
  | String c s' => if is_space c then lstrip s' else s
  end.

Fixpoint rstrip (s : string) : string :=
  match s with
  | EmptyString => EmptyString
  | String c s' =>
    let r := rstrip s' in
    if is_space c && bool_decide (r = "") then "" else String c r
  end.

Definition strip (s : string) : string := rstrip (lstrip s).

(** *** Dates *)

Definition days_from_civil (y m d : Z) : Z :=
  let y' := if m <=? 2 then y - 1 else y in
  let era := y' / 400 in
  let yoe := y' - era * 400 in
  let mp := (m + 9) mod 12 in
  let doy := (153 * mp + 2) / 5 + d - 1 in
  let doe := yoe * 365 + yoe / 4 - yoe / 100 + doy in
  era * 146097 + doe - 719468.

Definition is_leap (y : Z) : bool :=
  ((y mod 4 =? 0) && negb (y mod 100 =? 0)) || (y mod 400 =? 0).

Definition days_in_month (y m : Z) : Z :=
  if m =? 2 then (if is_leap y then 29 else 28)
  else if (m =? 4) || (m =? 6) || (m =? 9) || (m =? 11) then 30
  else 31.

Fixpoint read_int (s : string) (acc : Z) : option Z :=
  match s with
  | EmptyString => Some acc
  | String c s' =>
    match Milli.digit_of c with
    | Some d => read_int s' (10 * acc + d)
    | None => None
    end
  end.

Fixpoint split_dash (s cur : string) : list string :=
  match s with
  | EmptyString => [cur]
  | String c s' =>
    if bool_decide (c = "-"%char) then cur :: split_dash s' ""
    else split_dash s' (cur +:+ String c "")
  end.

Definition bad_date (s : string) : Exc :=
  mkExc OtherException ("time data does not match format '%Y-%m-%d': " +:+ s).

(** Four digits, one or two, one or two; the month and the day in range. *)
Definition strptime (s : string) : Outcome DateTime :=
  match split_dash s "" with
  | [ys; ms; ds] =>
    match read_int ys 0, read_int ms 0, read_int ds 0 with
    | Some y, Some m, Some d =>
      if (String.length ys =? 4)%nat
         && (1 <=? String.length ms)%nat && (String.length ms <=? 2)%nat
         && (1 <=? String.length ds)%nat && (String.length ds <=? 2)%nat
         && (1 <=? y) && (1 <=? m) && (m <=? 12) && (1 <=? d) && (d <=? days_in_month y m)
      then Return (mkDateTime y m d 0 0 0)
      else Raise (bad_date s)
    | _, _, _ => Raise (bad_date s)
    end
  | _ => Raise (bad_date s)
  end.

(** The ISO week is the one of the Thursday of the week of the day. *)
Definition week_of (t : DateTime) : Z :=
  let n := days_from_civil (dt_year t) (dt_month t) (dt_day t) in
  let thursday := n - (n + 3) mod 7 + 3 in
  let '(y, _, _) := Milli.civil_from_days thursday in
  (thursday - days_from_civil y 1 1) / 7 + 1.

(** *** Sorting by numbers *)

Definition millis_of (v : JSON Z) : Z :=
  match v with
  | JInt n => 1000 * n
  | JBool b => 1000 * Z.b2z b
  | JFloat x => x
  | _ => 0
  end.

Definition sorted_numbers (A : Type) (l : list (JSON Z * A)) : list A :=
  (sort_desc ((fun kx => (millis_of kx.1, kx.2)) <$> l)).*2.

(** The ints that round to a finite double: those below
    [2 ^ 1024 - 2 ^ 970] in absolute value. *)
Definition fits (n : Z) : bool := Z.abs n <? 2 ^ 1024 - 2 ^ 970.

#[export] Instance builtins : @Builtins Milli.runtime :=
  @Build_Builtins Milli.runtime
    Z.add strip strptime week_of fits sorted_numbers
    (fun A _ => Raise (mkExc TypeError "'<' not supported between instances")).

(** The window as [__init__] leaves it before its first [refresh], on a
    given clock and disk; every [emit] succeeds. *)
Definition desk (w : @State Milli.runtime) : @Ui Milli.runtime :=
  mkUi w true (fun _ => None) 0 [] [] "Today's Playtime: 0" "This Week's Playtime: 0" [] [].

(** Two games played on 2024-01-01, and one the day before. *)
Definition two_games : JSON Z :=
  JDict [("2023-12-31",
          JDict [("Other", JDict [("total", JInt 30);
                                  ("last_open", JStr "2023-12-31 20:00:00");
                                  ("last_close", JStr "2023-12-31 20:00:30")])]);
         ("2024-01-01",
          JDict [("Game", JDict [("total", JInt 60);
                                 ("last_open", JStr "2024-01-01 10:00:00");
                                 ("last_close", JStr "2024-01-01 10:01:00")]);
                 ("Other", JDict [("total", JInt 3661);
                                  ("last_open", JStr "2024-01-01 12:00:00");
                                  ("last_close", JStr "2024-01-01 13:01:01")])])].

Definition two_games_desk : @Ui Milli.runtime :=
  desk (Milli.world 1000 (Content (Milli.dumps two_games))).

(** A record of today that is a number instead of an object. *)
Definition spoiled_day : JSON Z :=
  JDict [("2024-01-01",
          JDict [("Game", JDict [("total", JInt 60)]); ("Other", JInt 5)])].

Definition spoiled_desk : @Ui Milli.runtime :=
  desk (Milli.world 1000 (Content (Milli.dumps spoiled_day))).

(** A total of half a second, and one of [10 ^ 400] seconds. *)
Definition large_total : JSON Z :=
  JDict [("2024-01-01",
          JDict [("Game", JDict [("total", JFloat 500)]);
                 ("Other", JDict [("total", JInt (10 ^ 400))])])].

Definition large_desk : @Ui Milli.runtime :=
  desk (Milli.world 1000 (Content (Milli.dumps large_total))).

End MilliUi.

(** ** src/steam/game_scanner.py *)

(** What the scanner takes from the file system and from [os.path], [str]
    and [re]. *)
Class FileSystem := {
  (** [os.path.join(a, *parts)] *)
  path_join : string -> list string -> string;
  (** [os.path.isdir(p)] *)
  isdir : string -> bool;
  (** [os.listdir(p)] *)
  listdir : string -> Outcome (list string);
  (** the lines of [open(p, "r", encoding="utf-8", errors="ignore")] *)
  read_lines : string -> Outcome (list string);
  (** what [os.walk(p)] yields: each [root_dir] with its [file_list] *)
  walk : string -> list (string * list string);
  (** [s.lower()] *)
  str_lower : string -> string;
  (** [ACF_NAME_RE.search(line)]: [group(1)] of the match, if there is one *)
  acf_name_search : string -> option string;
  (** [ACF_INSTALL_RE.search(line)], likewise *)
  acf_install_search : string -> option string
}.

Definition EXE_BLACKLIST : list string :=
  ["unitycrashhandler.exe"; "unitycrashhandler64.exe"; "uninstall.exe"; "crashreporter.exe"].

(** [s.endswith(suffix)] *)
Definition endswith (suffix s : string) : bool :=
  let n := String.length s in
  let m := String.length suffix in
  (m <=? n)%nat && String.eqb (String.substring (n - m) m s) suffix.

(** [s.replace(old, "")] for a non-empty [old]: the occurrences of [old]
    are taken from the left and do not overlap; [skip] characters of the
    one being removed are still to pass. *)
Fixpoint remove_all_from (old s : string) (skip : nat) : string :=
  match s with
  | EmptyString => EmptyString
  | String c s' =>
    match skip with
    | S k => remove_all_from old s' k
    | O =>
      if String.prefix old s then remove_all_from old s' (String.length old - 1)
      else String c (remove_all_from old s' 0)
    end
  end.

Definition remove_all (old s : string) : string := remove_all_from old s 0.

(** [not x] for [x] that is [None] or a string *)
Definition falsy (x : option string) : bool :=
  match x with
  | None => true
  | Some s => bool_decide (s = "")
  end.

Section GameScanner.
Context `{FS : FileSystem}.

(** The loop of [parse_acf] over the lines of the file. *)
Fixpoint parse_lines (lines : list string) (game_name install_dir : option string)
    : option string * option string :=
  match lines with
  | [] => (game_name, install_dir)
  | line :: lines' =>
    let game_name1 :=
      if falsy game_name
      then match acf_name_search line with
           | Some m => Some m
           | None => game_name
           end
      else game_name in
    let install_dir1 :=
      if falsy install_dir
      then match acf_install_search line with
           | Some m => Some m
           | None => install_dir
           end
      else install_dir in
    parse_lines lines' game_name1 install_dir1
  end.

Definition parse_acf (path : string) : Outcome (option string * option string) :=
  match read_lines path with
  | Raise e => Raise e
  | Return lines => Return (parse_lines lines None None)
  end.

(** The body of the innermost loop of [scan_steam_games]. *)
Definition scan_file (game_name app_id root_dir file : string) (games : gmap string Game)
    : gmap string Game :=
  if negb (endswith ".exe" (str_lower file)) then games
  else if bool_decide (str_lower file ∈ EXE_BLACKLIST) then games
  else <[str_lower file := mkGame game_name app_id (path_join root_dir [file])]> games.

Definition scan_files (game_name app_id root_dir : string) (file_list : list string)
    (games : gmap string Game) : gmap string Game :=
  foldl (fun acc file => scan_file game_name app_id root_dir file acc) games file_list.

Definition scan_tree (game_name app_id : string) (tree : list (string * list string))
    (games : gmap string Game) : gmap string Game :=
  foldl (fun acc entry => scan_files game_name app_id entry.1 entry.2 acc) games tree.

(** The body of the loop over [os.listdir(steamapps_dir)]. *)
Definition scan_manifest (steamapps_dir file_name : string) (games : gmap string Game)
    : Outcome (gmap string Game) :=
  if negb (String.prefix "appmanifest_" file_name) || negb (endswith ".acf" file_name)
  then Return games
  else
    let app_id := remove_all ".acf" (remove_all "appmanifest_" file_name) in
    let acf_file_path := path_join steamapps_dir [file_name] in
    match parse_acf acf_file_path with
    | Raise e => Raise e
    | Return (game_name, install_dir) =>
      if falsy game_name || falsy install_dir then Return games
      else
        let game_root_dir := path_join steamapps_dir ["common"; default "" install_dir] in
        if negb (isdir game_root_dir) then Return games
        else Return (scan_tree (default "" game_name) app_id (walk game_root_dir) games)
    end.

Fixpoint scan_manifests (steamapps_dir : string) (file_names : list string)
    (games : gmap string Game) : Outcome (gmap string Game) :=
  match file_names with
  | [] => Return games
  | file_name :: file_names' =>
    match scan_manifest steamapps_dir file_name games with
    | Raise e => Raise e
    | Return games1 => scan_manifests steamapps_dir file_names' games1
    end
  end.

Definition scan_steam_games (steam_path : string) : Outcome (gmap string Game) :=
  let steamapps_dir := path_join steam_path ["steamapps"] in
  if negb (isdir steamapps_dir) then Return ∅
  else
    match listdir steamapps_dir with
    | Raise e => Raise e
    | Return file_names => scan_manifests steamapps_dir file_names ∅
    end.

(** *** What the properties of the scanner are stated with *)

(** A manifest of the listing that the scan does not skip: the name of
    the game, its id and its directory. *)
Definition manifest (steamapps_dir file_name : string) : option (string * string * string) :=
  if negb (String.prefix "appmanifest_" file_name) || negb (endswith ".acf" file_name)
  then None
  else
    match parse_acf (path_join steamapps_dir [file_name]) with
    | Return (Some game_name, Some install_dir) =>
      if bool_decide (game_name = "") || bool_decide (install_dir = "") then None
      else if isdir (path_join steamapps_dir ["common"; install_dir])
           then Some (game_name,
                      remove_all ".acf" (remove_all "appmanifest_" file_name),
                      path_join steamapps_dir ["common"; install_dir])
           else None
    | _ => None
    end.

(** A file that the scan takes for an executable of a game. *)
Definition is_game_exe (file : string) : bool :=
  endswith ".exe" (str_lower file) && negb (bool_decide (str_lower file ∈ EXE_BLACKLIST)).

(** Where an entry of the catalog comes from: a file of the tree of a
    manifest of the listing. *)
Definition scanned_from (steamapps_dir : string) (file_names : list string)
    (k : string) (g : Game) : Prop :=
  exists file_name game_root_dir root_dir file_list file,
    file_name ∈ file_names /\
    manifest steamapps_dir file_name = Some (name g, appid g, game_root_dir) /\
    (root_dir, file_list) ∈ walk game_root_dir /\
    file ∈ file_list /\
    is_game_exe file = true /\
    k = str_lower file /\
    exe_path g = path_join root_dir [file].

(** The entry of [k] is of the game [game_name], [app_id]. *)
Definition owned (game_name app_id k : string) (games : gmap string Game) : Prop :=
  exists g, games !! k = Some g /\ name g = game_name /\ appid g = app_id.

End GameScanner.

(** ** A small Steam library *)

(** An instance of [FileSystem]: paths joined by a slash, ASCII text, and
    a library of one game. *)
Module MilliFs.

Definition join (a : string) (parts : list string) : string :=
  foldl (fun acc p => acc +:+ "/" +:+ p) a parts.

Fixpoint drop_chars (n : nat) (s : string) : string :=
  match n, s with
  | S k, String _ s' => drop_chars k s'
  | _, _ => s
  end.

Fixpoint until_newline (s : string) : string :=
  match s with
  | EmptyString => EmptyString
  | String c s' => if bool_decide (c = "010"%char) then EmptyString else String c (until_newline s')
  end.

(** The text before the last double quote of [s], if it has one. *)
Fixpoint before_last_quote (s : string) : option string :=
  match s with
  | EmptyString => None
  | String c s' =>
    match before_last_quote s' with
    | Some r => Some (String c r)
    | None => if bool_decide (c = Milli.dquote) then Some EmptyString else None
    end
  end.

(** After the quoted key: white space, a quote, and the longest text that
    a quote follows on the line. *)
Definition match_value (rest : string) : option string :=
  let r := MilliUi.lstrip rest in
  if (String.length r <? String.length rest)%nat then
    match r with
    | String c body =>
      if bool_decide (c = Milli.dquote) then
        match before_last_quote (until_newline body) with
        | Some EmptyString => None
        | found => found
        end
      else None
    | EmptyString => None
    end
  else None.

(** The leftmost match of the quoted [key], white space and a quoted
    value. *)
Fixpoint search_key (key line : string) : option string :=
  match line with
  | EmptyString => None
  | String _ rest =>
    if String.prefix key line then
      match match_value (drop_chars (String.length key) line) with
      | Some m => Some m
      | None => search_key key rest
      end
    else search_key key rest
  end.

Definition quoted (key : string) : string :=
  String Milli.dquote key +:+ String Milli.dquote "".

Definition tab : string := String "009"%char "".

Definition manifest_lines : list string :=
  [quoted "AppState" +:+ newline;
   "{" +:+ newline;
   tab +:+ quoted "appid" +:+ tab +:+ tab +:+ quoted "42" +:+ newline;
   tab +:+ quoted "name" +:+ tab +:+ tab +:+ quoted "Game" +:+ newline;
   tab +:+ quoted "installdir" +:+ tab +:+ tab +:+ quoted "GameDir" +:+ newline;
   "}" +:+ newline].

Definition missing (p : string) : Exc := mkExc FileNotFoundError ("No such file or directory: " +:+ p).

#[export] Instance fs : FileSystem := {|
  path_join := join;
  isdir := fun p =>
    bool_decide (p ∈ ["/steam/steamapps"; "/steam/steamapps/common/GameDir"]);
  listdir := fun p =>
    if bool_decide (p = "/steam/steamapps")
    then Return ["appmanifest_42.acf"; "libraryfolders.vdf"; "common"]
    else Raise (missing p);
  read_lines := fun p =>
    if bool_decide (p = "/steam/steamapps/appmanifest_42.acf") then Return manifest_lines
    else Raise (missing p);
  walk := fun p =>
    if bool_decide (p = "/steam/steamapps/common/GameDir")
    then [("/steam/steamapps/common/GameDir", ["readme.txt"; "UnityCrashHandler64.exe"]);
          ("/steam/steamapps/common/GameDir/bin", ["Game.EXE"])]
    else [];
  str_lower := Milli.lower;
  acf_name_search := search_key (quoted "name");
  acf_install_search := search_key (quoted "installdir")
|}.

(** The catalog that the scan of this library gives, a watcher on it, and
    the state after its construction. *)
Definition library : gmap string Game :=
  {[ "game.exe" := mkGame "Game" "42" "/steam/steamapps/common/GameDir/bin/Game.EXE" ]}.

Definition library_watcher : Watcher := mkWatcher library None "/x/data/playtime.json".

Definition library_constructed : @State Milli.runtime :=
  snd (__init__ (RT:=Milli.runtime) library_watcher (Milli.world 1000 (Content "{}"))).

(** A library of three games, of which the first two ship a launcher of
    one name. *)
Definition lines_of (app_id game_name install_dir : string) : list string :=
  [quoted "AppState" +:+ newline;
   "{" +:+ newline;
   tab +:+ quoted "appid" +:+ tab +:+ tab +:+ quoted app_id +:+ newline;
   tab +:+ quoted "name" +:+ tab +:+ tab +:+ quoted game_name +:+ newline;
   tab +:+ quoted "installdir" +:+ tab +:+ tab +:+ quoted install_dir +:+ newline;
   "}" +:+ newline].

Definition shelf : FileSystem := {|
  path_join := join;
  isdir := fun p =>
    bool_decide (p ∈ ["/steam/steamapps"; "/steam/steamapps/common/One";
                      "/steam/steamapps/common/Two"; "/steam/steamapps/common/Three"]);
  listdir := fun p =>
    if bool_decide (p = "/steam/steamapps")
    then Return ["appmanifest_1.acf"; "appmanifest_2.acf"; "appmanifest_3.acf"; "common"]
    else Raise (missing p);
  read_lines := fun p =>
    if bool_decide (p = "/steam/steamapps/appmanifest_1.acf") then Return (lines_of "1" "One" "One")
    else if bool_decide (p = "/steam/steamapps/appmanifest_2.acf")
    then Return (lines_of "2" "Two" "Two")
    else if bool_decide (p = "/steam/steamapps/appmanifest_3.acf")
    then Return (lines_of "3" "Three" "Three")
    else Raise (missing p);
  walk := fun p =>
    if bool_decide (p = "/steam/steamapps/common/One")
    then [("/steam/steamapps/common/One", ["Launcher.exe"; "One.exe"])]
    else if bool_decide (p = "/steam/steamapps/common/Two")
    then [("/steam/steamapps/common/Two", ["launcher.EXE"])]
    else if bool_decide (p = "/steam/steamapps/common/Three")
    then [("/steam/steamapps/common/Three", ["Three.exe"])]
    else [];
  str_lower := Milli.lower;
  acf_name_search := search_key (quoted "name");
  acf_install_search := search_key (quoted "installdir")
|}.

Definition shelf_catalog : gmap string Game :=
  {[ "launcher.exe" := mkGame "Two" "2" "/steam/steamapps/common/Two/launcher.EXE";
     "one.exe" := mkGame "One" "1" "/steam/steamapps/common/One/One.exe";
     "three.exe" := mkGame "Three" "3" "/steam/steamapps/common/Three/Three.exe" ]}.

End MilliFs.

(** ** Properties *)

(** *** Dictionaries *)

Section Dicts.
Context {V : Type}.
Implicit Types (d : list (string * V)) (k : string) (v : V).

Lemma dict_get_set d k k' v :
  dict_get k' (dict_set k v d) = if decide (k = k') then Some v else dict_get k' d.
Proof.
  induction d as [|[k0 v0] d IH]; simpl.
  - destruct (decide (k = k')); reflexivity.
  - destruct (decide (k0 = k)) as [->|Hne]; simpl.
    + destruct (decide (k = k')); reflexivity.
    + destruct (decide (k0 = k')) as [->|Hne'].
      * destruct (decide (k = k')); [congruence | reflexivity].
      * exact IH.
Qed.

Lemma dict_get_set_eq d k v : dict_get k (dict_set k v d) = Some v.
Proof. rewrite dict_get_set. destruct (decide (k = k)); congruence. Qed.

Lemma dict_get_set_ne d k k' v : k <> k' -> dict_get k' (dict_set k v d) = dict_get k' d.
Proof. intros. rewrite dict_get_set. destruct (decide (k = k')); congruence. Qed.

Lemma dict_get_app d1 d2 k :
  dict_get k (d1 ++ d2) = match dict_get k d1 with Some v => Some v | None => dict_get k d2 end.
Proof.
  induction d1 as [|[k0 v0] d1 IH]; simpl; [reflexivity|].
  destruct (decide (k0 = k)); [reflexivity | exact IH].
Qed.

Lemma dict_get_setdefault d k k' v :
  dict_get k' (dict_setdefault k v d) =
  match dict_get k' d with
  | Some x => Some x
  | None => if decide (k = k') then Some v else None
  end.
Proof.
  unfold dict_setdefault. destruct (dict_get k d) as [x|] eqn:Hk.
  - destruct (dict_get k' d) eqn:Hk'; [reflexivity|].
    destruct (decide (k = k')); congruence.
  - rewrite dict_get_app. simpl. destruct (dict_get k' d); reflexivity.
Qed.

Lemma dict_get_None_keys d k : dict_get k d = None <-> k ∉ dict_keys d.
Proof.
  unfold dict_keys. induction d as [|[k0 v0] d IH]; simpl.
  - split; [intros _; apply not_elem_of_nil | reflexivity].
  - rewrite not_elem_of_cons. destruct (decide (k0 = k)) as [->|Hne].
    + intuition congruence.
    + rewrite IH. intuition congruence.
Qed.

Lemma dict_get_Some_keys d k v : dict_get k d = Some v -> k ∈ dict_keys d.
Proof.
  intros H. destruct (decide (k ∈ dict_keys d)) as [|Hn]; [assumption|].
  apply dict_get_None_keys in Hn. congruence.
Qed.

Lemma dict_keys_set_new d k v :
  dict_get k d = None -> dict_keys (dict_set k v d) = dict_keys d ++ [k].
Proof.
  unfold dict_keys. induction d as [|[k0 v0] d IH]; simpl; [reflexivity|].
  destruct (decide (k0 = k)); [discriminate|]. intros H. simpl. f_equal. auto.
Qed.

Lemma dict_get_del_ne d k k' : k <> k' -> dict_get k' (dict_del k d) = dict_get k' d.
Proof.
  intros Hne. induction d as [|[k0 v0] d IH]; simpl; [reflexivity|].
  destruct (decide (k0 = k)) as [->|Hne0]; simpl.
  - destruct (decide (k = k')); congruence.
  - destruct (decide (k0 = k')); [reflexivity | exact IH].
Qed.

Lemma dict_keys_del_sub d k k' : k' ∈ dict_keys (dict_del k d) -> k' ∈ dict_keys d.
Proof.
  unfold dict_keys. induction d as [|[k0 v0] d IH]; simpl; [auto|].
  destruct (decide (k0 = k)); simpl.
  - intros. apply elem_of_cons. auto.
  - rewrite !elem_of_cons. intros [->|H]; auto.
Qed.

Lemma dict_del_NoDup d k : NoDup (dict_keys d) -> NoDup (dict_keys (dict_del k d)).
Proof.
  unfold dict_keys. induction d as [|[k0 v0] d IH]; simpl; [auto|].
  rewrite NoDup_cons. intros [Hn Hd].
  destruct (decide (k0 = k)); simpl; [assumption|].
  apply NoDup_cons. split; [|auto].
  intros Hin. apply Hn. apply (dict_keys_del_sub _ k). exact Hin.
Qed.

Lemma dict_get_del_eq d k : NoDup (dict_keys d) -> dict_get k (dict_del k d) = None.
Proof.
  unfold dict_keys. induction d as [|[k0 v0] d IH]; simpl; [reflexivity|].
  rewrite NoDup_cons. intros [Hn Hd].
  destruct (decide (k0 = k)) as [->|Hne]; simpl.
  - apply dict_get_None_keys. exact Hn.
  - destruct (decide (k0 = k)); [congruence | auto].
Qed.

Lemma dict_get_del_None d k k' : dict_get k' d = None -> dict_get k' (dict_del k d) = None.
Proof.
  rewrite !dict_get_None_keys. intros H Hin. apply H. eapply dict_keys_del_sub, Hin.
Qed.

End Dicts.

(** *** The methods, one by one *)

Section Methods.
Context `{RT : Runtime}.
Implicit Types (self : Watcher) (s : State) (exe : string).

Lemma _log_eq self msg s : _log self msg s = (Return tt, logged self msg s).
Proof.
  unfold _log, logged, bind, datetime_now, time_time, print, modify, ret, bind.
  cbn. destruct (log_fn self) as [f|]; [destruct (f msg)|]; reflexivity.
Qed.

Lemma logged_running self msg s : running (logged self msg s) = running s.
Proof. unfold logged. destruct (log_fn self) as [f|]; [destruct (f msg)|]; reflexivity. Qed.

Lemma logged_clock self msg s : clock (logged self msg s) = clock s.
Proof. unfold logged. destruct (log_fn self) as [f|]; [destruct (f msg)|]; reflexivity. Qed.

Lemma logged_clock_reads self msg s : clock_reads (logged self msg s) = S (clock_reads s).
Proof. unfold logged. destruct (log_fn self) as [f|]; [destruct (f msg)|]; reflexivity. Qed.

Lemma logged_data_file self msg s : data_file (logged self msg s) = data_file s.
Proof. unfold logged. destruct (log_fn self) as [f|]; [destruct (f msg)|]; reflexivity. Qed.

Lemma logged_data_dir self msg s : data_dir (logged self msg s) = data_dir s.
Proof. unfold logged. destruct (log_fn self) as [f|]; [destruct (f msg)|]; reflexivity. Qed.

Lemma logged_writes self msg s : writes (logged self msg s) = writes s.
Proof. unfold logged. destruct (log_fn self) as [f|]; [destruct (f msg)|]; reflexivity. Qed.

Lemma logged_write_outcomes self msg s :
  write_outcomes (logged self msg s) = write_outcomes s.
Proof. unfold logged. destruct (log_fn self) as [f|]; [destruct (f msg)|]; reflexivity. Qed.

(** What [_log] adds to the console: the stamped message, and nothing
    else that counts as an event. *)
Lemma logged_console self msg s :
  exists t rest,
    console (logged self msg s) = console s ++ Printed t msg :: rest /\
    Forall (fun l => is_event l = false) rest /\
    (forall exe, nstart exe rest = 0%nat /\ nstop exe rest = 0%nat).
Proof.
  unfold logged. eexists.
  destruct (log_fn self) as [f|]; [destruct (f msg) as [e|]|].
  - exists [CallbackFailed e]. cbn. rewrite <- app_assoc. repeat split; auto.
  - exists []. repeat split; auto.
  - exists []. repeat split; auto.
Qed.

Lemma silent_refl s : silent s s.
Proof.
  repeat split; auto. exists []. split; [symmetry; apply app_nil_r | constructor].
Qed.

Lemma silent_trans s1 s2 s3 : silent s1 s2 -> silent s2 s3 -> silent s1 s3.
Proof.
  intros (Hr & Hc & Hn & new & Hnew & Hq) (Hr' & Hc' & Hn' & new' & Hnew' & Hq').
  repeat split; try congruence; [lia|].
  exists (new ++ new'). split.
  - rewrite Hnew', Hnew. symmetry. apply app_assoc.
  - apply Forall_app; auto.
Qed.

Lemma silent_logged self msg s :
  is_event (Printed (fromtimestamp (clock s (clock_reads s))) msg) = false ->
  silent s (logged self msg s).
Proof.
  intros Hmsg. unfold silent.
  rewrite logged_running, logged_clock, logged_clock_reads.
  repeat split; auto.
  destruct (logged_console self msg s) as (t & rest & Hc & Hrest & _).
  exists (Printed t msg :: rest). split; [exact Hc|].
  constructor; [destruct msg; (discriminate || reflexivity) | exact Hrest].
Qed.

Lemma silent_tick_clock s : silent s (tick_clock s).
Proof.
  repeat split; cbn; auto. exists []. split; [symmetry; apply app_nil_r | constructor].
Qed.

Lemma silent_written f s : silent s (written f s).
Proof.
  repeat split; cbn; auto. exists []. split; [symmetry; apply app_nil_r | constructor].
Qed.

Lemma _load_run self s : exists v s', _load self s = (Return v, s') /\ silent s s'.
Proof.
  unfold _load, try_except, bind, read_text, lift.
  destruct (data_file s) as [|e0|text]; cbv beta iota.
  - rewrite _log_eq. do 2 eexists. split; [reflexivity|]. apply silent_logged. reflexivity.
  - rewrite _log_eq. do 2 eexists. split; [reflexivity|]. apply silent_logged. reflexivity.
  - destruct (json_loads text) as [v|e0]; cbv beta iota.
    + do 2 eexists. split; [reflexivity | apply silent_refl].
    + rewrite _log_eq. do 2 eexists. split; [reflexivity|]. apply silent_logged. reflexivity.
Qed.

Lemma _save_run self data s : exists s', _save self data s = (Return tt, s') /\ silent s s'.
Proof.
  unfold _save, try_except, write_text.
  destruct (data_dir s); cbv beta iota;
    [| destruct (write_outcomes s (writes s)); cbv beta iota |];
    try rewrite _log_eq; eexists; (split; [reflexivity|]).
  - apply silent_logged. reflexivity.
  - apply silent_written.
  - eapply silent_trans; [apply silent_written | apply silent_logged; reflexivity].
  - eapply silent_trans; [apply silent_written | apply silent_logged; reflexivity].
  - apply silent_logged. reflexivity.
Qed.

(** [_record] for a filename of the catalog: the stop event, then steps
    that are silent. *)
Lemma _record_run self exe g start_ts duration s :
  games self !! exe = Some g ->
  exists r s',
    _record self exe start_ts duration s = (r, s') /\
    silent (logged self (MsgShutdown exe (name g) duration) (tick_clock s)) s'.
Proof.
  intros Hg. unfold _record, lookup_game. rewrite Hg.
  unfold bind at 1. unfold ret at 1.
  unfold bind at 1. unfold datetime_now at 1. unfold bind at 1, time_time at 1, ret at 1.
  unfold bind at 1. rewrite _log_eq.
  set (s1 := logged self _ _).
  unfold bind at 1.
  destruct (_load_run self s1) as (data & s2 & -> & Hs2).
  unfold bind at 1. unfold datetime_now at 1. unfold bind at 1, time_time at 1, ret at 1.
  unfold bind at 1, lift at 1.
  destruct (merge_session _ _ _ _ _ _) as [data'|e].
  - destruct (_save_run self data' (tick_clock s2)) as (s3 & -> & Hs3).
    do 2 eexists. split; [reflexivity|].
    eapply silent_trans; [exact Hs2|]. eapply silent_trans; [apply silent_tick_clock | exact Hs3].
  - do 2 eexists. split; [reflexivity|].
    eapply silent_trans; [exact Hs2 | apply silent_tick_clock].
Qed.

End Methods.

(** *** Counting events *)

Section Counting.
Context `{RT : Runtime}.
Implicit Types (exe : string) (l : ConsoleLine) (ls : list ConsoleLine).

Lemma nstart_app exe ls1 ls2 : nstart exe (ls1 ++ ls2) = (nstart exe ls1 + nstart exe ls2)%nat.
Proof. unfold nstart. rewrite List.filter_app. apply length_app. Qed.

Lemma nstop_app exe ls1 ls2 : nstop exe (ls1 ++ ls2) = (nstop exe ls1 + nstop exe ls2)%nat.
Proof. unfold nstop. rewrite List.filter_app. apply length_app. Qed.

Lemma nstart_cons exe l ls :
  nstart exe (l :: ls) = ((if is_start exe l then 1 else 0) + nstart exe ls)%nat.
Proof. unfold nstart. simpl. destruct (is_start exe l); reflexivity. Qed.

Lemma nstop_cons exe l ls :
  nstop exe (l :: ls) = ((if is_stop exe l then 1 else 0) + nstop exe ls)%nat.
Proof. unfold nstop. simpl. destruct (is_stop exe l); reflexivity. Qed.

Lemma is_start_startup exe l : is_start exe l = true -> is_startup l = true.
Proof. destruct l as [t []|]; simpl; congruence. Qed.

Lemma is_stop_shutdown exe l : is_stop exe l = true -> is_shutdown l = true.
Proof. destruct l as [t []|]; simpl; congruence. Qed.

Lemma is_event_split l : is_event l = is_startup l || is_shutdown l.
Proof. destruct l as [t []|]; reflexivity. Qed.

Lemma nstart_none exe ls : Forall (fun l => is_startup l = false) ls -> nstart exe ls = 0%nat.
Proof.
  induction 1 as [|l ls Hl _ IH]; [reflexivity|].
  rewrite nstart_cons, IH. destruct (is_start exe l) eqn:E; [|reflexivity].
  apply is_start_startup in E. congruence.
Qed.

Lemma nstop_none exe ls : Forall (fun l => is_shutdown l = false) ls -> nstop exe ls = 0%nat.
Proof.
  induction 1 as [|l ls Hl _ IH]; [reflexivity|].
  rewrite nstop_cons, IH. destruct (is_stop exe l) eqn:E; [|reflexivity].
  apply is_stop_shutdown in E. congruence.
Qed.

Lemma quiet_no_startup ls :
  Forall (fun l => is_event l = false) ls -> Forall (fun l => is_startup l = false) ls.
Proof.
  intros H. eapply Forall_impl; [exact H|].
  intros l Hl. cbv beta in *. rewrite is_event_split in Hl.
  apply orb_false_elim in Hl. apply Hl.
Qed.

Lemma quiet_no_shutdown ls :
  Forall (fun l => is_event l = false) ls -> Forall (fun l => is_shutdown l = false) ls.
Proof.
  intros H. eapply Forall_impl; [exact H|].
  intros l Hl. cbv beta in *. rewrite is_event_split in Hl.
  apply orb_false_elim in Hl. apply Hl.
Qed.

Lemma silent_nstart exe s s' : silent s s' -> nstart exe (console s') = nstart exe (console s).
Proof.
  intros (_ & _ & _ & new & -> & Hq). rewrite nstart_app, (nstart_none exe new); [lia|].
  apply quiet_no_startup, Hq.
Qed.

Lemma silent_nstop exe s s' : silent s s' -> nstop exe (console s') = nstop exe (console s).
Proof.
  intros (_ & _ & _ & new & -> & Hq). rewrite nstop_app, (nstop_none exe new); [lia|].
  apply quiet_no_shutdown, Hq.
Qed.

Lemma nstop_zero_not_in exe l ls : nstop exe ls = 0%nat -> l ∈ ls -> is_stop exe l = false.
Proof.
  induction ls as [|l0 ls IH]; [intros _ H; inversion H|].
  rewrite nstop_cons, elem_of_cons. intros Hn [->|Hin].
  - destruct (is_stop exe l0); [lia | reflexivity].
  - apply IH; [lia | exact Hin].
Qed.

(** When a list holds one stop event for [exe], any stop event for [exe]
    in it is that one. *)
Lemma the_stop_event exe l l0 ls1 ls2 :
  nstop exe ls1 = 0%nat -> nstop exe ls2 = 0%nat ->
  l ∈ ls1 ++ l0 :: ls2 -> is_stop exe l = true -> l = l0.
Proof.
  intros H1 H2 Hin Hl. apply elem_of_app in Hin. destruct Hin as [Hin|Hin].
  - rewrite (nstop_zero_not_in exe l ls1 H1 Hin) in Hl. discriminate.
  - apply elem_of_cons in Hin. destruct Hin as [->|Hin]; [reflexivity|].
    rewrite (nstop_zero_not_in exe l ls2 H2 Hin) in Hl. discriminate.
Qed.

Lemma shutdown_not_in l ls : Forall (fun l => is_shutdown l = false) ls -> l ∈ ls -> is_shutdown l = false.
Proof. intros H Hin. rewrite Forall_forall in H. apply H, Hin. Qed.

End Counting.

(** *** The scan of [tick] *)

Section Scan.
Context `{RT : Runtime}.
Implicit Types (self : Watcher) (s : State) (exe : string) (nr : gset string).

(** One process: nothing happens, or a warning is logged, or a new session
    starts. *)
Lemma scan_proc_run self p nr s :
  exists nr' s',
    scan_proc self p nr s = (Return nr', s') /\
    match filename_of p with
    | Some f =>
      match games self !! f with
      | Some g =>
        nr' = {[f]} ∪ nr /\
        match dict_get f (running s) with
        | Some _ => s' = s
        | None =>
          exists pid,
            s' = logged self (MsgStartup f (name g) pid (exe_path g))
                   (set_running (dict_set f (clock s (clock_reads s)) (running s))
                      (tick_clock s))
        end
      | None => nr' = nr /\ s' = s
      end
    | None => nr' = nr /\ silent s s'
    end.
Proof.
  unfold scan_proc. unfold bind at 1. unfold try_except, inspect.
  destruct p as [[proc_exe|] pid|e]; simpl filename_of.
  - destruct (decide (proc_exe = "")) as [->|Hne]; unfold ret at 1.
    + do 2 eexists. split; [reflexivity|]. split; [reflexivity | apply silent_refl].
    + destruct (games self !! path_name_lower proc_exe) as [g|].
      * unfold bind at 1, get at 1.
        destruct (dict_get (path_name_lower proc_exe) (running s)).
        -- do 2 eexists. split; [reflexivity|]. auto.
        -- unfold bind at 1, time_time at 1. unfold bind at 1, modify at 1.
           unfold bind at 1. rewrite _log_eq. unfold ret.
           do 2 eexists. split; [reflexivity|]. split; [reflexivity|].
           exists pid. reflexivity.
      * do 2 eexists. split; [reflexivity|]. auto.
  - unfold ret. do 2 eexists. split; [reflexivity|]. split; [reflexivity | apply silent_refl].
  - unfold raise. destruct (is_skipped e).
    + unfold ret. do 2 eexists. split; [reflexivity|]. split; [reflexivity | apply silent_refl].
    + unfold bind at 1. rewrite _log_eq. unfold ret.
      do 2 eexists. split; [reflexivity|]. split; [reflexivity|].
      apply silent_logged. reflexivity.
Qed.

Lemma silent_scan_effect self exe nr s s' :
  silent s s' -> scan_effect self exe False nr nr s s'.
Proof.
  intros Hs. pose proof (silent_nstart exe _ _ Hs) as Hn.
  destruct Hs as (Hr & Hc & Hk & new & Hnew & Hq).
  unfold scan_effect. rewrite Hr.
  split; [exact Hc|]. split; [exact Hk|].
  split; [exists new; split; [exact Hnew | apply quiet_no_shutdown, Hq]|].
  split; [tauto|].
  destruct (dict_get exe (running s)) eqn:E.
  - split; [reflexivity | exact Hn].
  - split; [tauto | intros _; split; [reflexivity | exact Hn]].
Qed.

(** Whether a filename was seen only matters up to equivalence. *)
Lemma scan_effect_iff self exe (P Q : Prop) nr nr' s s' :
  (P <-> Q) -> scan_effect self exe P nr nr' s s' -> scan_effect self exe Q nr nr' s s'.
Proof.
  intros HPQ (H1 & H2 & H3 & H4 & H5).
  split; [exact H1|]. split; [exact H2|]. split; [exact H3|].
  split; [rewrite H4; tauto|].
  destruct (dict_get exe (running s)); [exact H5|].
  destruct H5 as [Ha Hb]. split; intros H; [apply Ha | apply Hb]; tauto.
Qed.

Lemma started_scan_effect self exe f g pid nr s :
  games self !! f = Some g ->
  dict_get f (running s) = None ->
  scan_effect self exe (f = exe) nr ({[f]} ∪ nr) s
    (logged self (MsgStartup f (name g) pid (exe_path g))
       (set_running (dict_set f (clock s (clock_reads s)) (running s)) (tick_clock s))).
Proof.
  intros Hg Hf.
  destruct (logged_console self (MsgStartup f (name g) pid (exe_path g))
              (set_running (dict_set f (clock s (clock_reads s)) (running s))
                 (tick_clock s))) as (t & rest & Hcon & Hrest & Hcount).
  unfold scan_effect.
  rewrite logged_clock, logged_clock_reads, logged_running, Hcon.
  cbn [running clock clock_reads console set_running tick_clock].
  split; [reflexivity|]. split; [lia|].
  split.
  { eexists. split; [reflexivity|]. constructor; [reflexivity|].
    apply quiet_no_shutdown, Hrest. }
  split.
  { rewrite elem_of_union, elem_of_singleton. split.
    - intros [->|H]; [right; split; [reflexivity | rewrite Hg; eauto] | auto].
    - intros [H|[-> _]]; auto. }
  rewrite nstart_app, nstart_cons. destruct (Hcount exe) as [-> _]. simpl is_start.
  rewrite dict_get_set.
  destruct (decide (f = exe)) as [->|Hne].
  - rewrite Hf. rewrite bool_decide_eq_true_2 by reflexivity. split.
    + intros _. split; [|lia]. exists (clock_reads s). split; [lia | reflexivity].
    + intros H. exfalso. apply H. split; [reflexivity | rewrite Hg; eauto].
  - rewrite bool_decide_eq_false_2 by assumption.
    destruct (dict_get exe (running s)); [split; [reflexivity | lia]|].
    split; [intros [? _]; congruence | intros _; split; [reflexivity | lia]].
Qed.

Lemma known_scan_effect self exe f g ts nr s :
  games self !! f = Some g ->
  dict_get f (running s) = Some ts ->
  scan_effect self exe (f = exe) nr ({[f]} ∪ nr) s s.
Proof.
  intros Hg Hf. unfold scan_effect.
  split; [reflexivity|]. split; [lia|].
  split; [exists []; split; [symmetry; apply app_nil_r | constructor]|].
  split.
  { rewrite elem_of_union, elem_of_singleton. split.
    - intros [->|H]; [right; split; [reflexivity | rewrite Hg; eauto] | auto].
    - intros [H|[-> _]]; auto. }
  destruct (dict_get exe (running s)) eqn:He; [auto|].
  split; [intros [-> _]; congruence | auto].
Qed.

Lemma scan_proc_effect self exe p nr s nr' s' :
  scan_proc self p nr s = (Return nr', s') ->
  scan_effect self exe (filename_of p = Some exe) nr nr' s s'.
Proof.
  intros Hrun. destruct (scan_proc_run self p nr s) as (nr1 & s1 & Heq & Hcase).
  rewrite Hrun in Heq. injection Heq as <- <-.
  destruct (filename_of p) as [f|] eqn:Hf.
  - destruct (games self !! f) as [g|] eqn:Hg.
    + destruct Hcase as [-> Hcase].
      apply (scan_effect_iff self exe (f = exe)); [split; congruence|].
      destruct (dict_get f (running s)) as [ts|] eqn:Hrun_f.
      * subst s'. eapply known_scan_effect; eassumption.
      * destruct Hcase as [pid ->]. apply started_scan_effect; assumption.
    + destruct Hcase as [-> ->].
      pose proof (silent_scan_effect self exe nr s s (silent_refl s)) as (H1 & H2 & H3 & H4 & H5).
      assert (Hno : ~ (Some f = Some exe /\ is_Some (games self !! exe))).
      { intros [[= ->] [g Hg']]. congruence. }
      split; [exact H1|]. split; [exact H2|]. split; [exact H3|].
      split; [tauto|].
      destruct (dict_get exe (running s)); [exact H5|].
      split; [tauto | intros _; apply H5; tauto].
  - destruct Hcase as [-> Hs].
    apply (scan_effect_iff self exe False); [split; [tauto | discriminate]|].
    apply silent_scan_effect, Hs.
Qed.

Lemma scan_effect_seq self exe (P Q : Prop) nr nr1 nr2 s s1 s2 :
  P \/ ~ P ->
  scan_effect self exe P nr nr1 s s1 ->
  scan_effect self exe Q nr1 nr2 s1 s2 ->
  scan_effect self exe (P \/ Q) nr nr2 s s2.
Proof.
  intros HP (Hc & Hk & (new & Hnew & Hq) & Hin & Hd) (Hc' & Hk' & (new' & Hnew' & Hq') & Hin' & Hd').
  split; [congruence|]. split; [lia|].
  split.
  { exists (new ++ new'). split; [rewrite Hnew', Hnew; symmetry; apply app_assoc|].
    apply Forall_app; auto. }
  split; [rewrite Hin', Hin; tauto|].
  destruct (dict_get exe (running s)) as [ts|].
  - destruct Hd as [Hd Hn]. rewrite Hd in Hd'. destruct Hd' as [Hd' Hn'].
    split; congruence.
  - destruct Hd as [Ha Hb].
    assert (HG : is_Some (games self !! exe) \/ ~ is_Some (games self !! exe)).
    { destruct (games self !! exe); [left; eauto | right; intros [? ?]; discriminate]. }
    assert (HPG : (P /\ is_Some (games self !! exe)) \/ ~ (P /\ is_Some (games self !! exe)))
      by tauto.
    destruct HPG as [HPG|HPG].
    + destruct (Ha HPG) as [(i & Hi & Hrun) Hn]. rewrite Hrun in Hd'.
      destruct Hd' as [Hrun' Hn']. split; [|tauto].
      intros _. split; [|congruence]. exists i. split; [lia | exact Hrun'].
    + destruct (Hb HPG) as [Hrun Hn]. rewrite Hrun in Hd'. destruct Hd' as [Ha' Hb'].
      split.
      * intros HQ. destruct Ha' as [(i & Hi & Hrun') Hn']; [tauto|].
        split; [|congruence]. exists i. split; [lia | congruence].
      * intros HQ. destruct Hb' as [Hrun' Hn']; [tauto|]. split; congruence.
Qed.

Lemma scan_loop_run self procs nr s :
  exists nr' s',
    scan_loop self procs nr s = (Return nr', s') /\
    forall exe, scan_effect self exe (observed exe procs) nr nr' s s'.
Proof.
  revert nr s. induction procs as [|p procs IH]; intros nr s; simpl scan_loop.
  - do 2 eexists. split; [reflexivity|]. intros exe.
    apply (scan_effect_iff self exe False).
    + unfold observed. rewrite Exists_nil. tauto.
    + apply silent_scan_effect, silent_refl.
  - unfold bind.
    destruct (scan_proc_run self p nr s) as (nr1 & s1 & Hp & _). rewrite Hp.
    destruct (IH nr1 s1) as (nr2 & s2 & Hl & Heff). rewrite Hl.
    do 2 eexists. split; [reflexivity|]. intros exe.
    apply (scan_effect_iff self exe (filename_of p = Some exe \/ observed exe procs)).
    + unfold observed. rewrite Exists_cons. tauto.
    + eapply scan_effect_seq; [| apply scan_proc_effect, Hp | apply Heff].
      destruct (decide (filename_of p = Some exe)); tauto.
Qed.

(** The scan keeps the keys of [self.running] distinct and in the
    catalog. *)
Lemma scan_loop_keys self procs nr s nr' s' :
  scan_loop self procs nr s = (Return nr', s') ->
  NoDup (dict_keys (running s)) -> in_catalog self s ->
  NoDup (dict_keys (running s')) /\ in_catalog self s'.
Proof.
  revert nr s. induction procs as [|p procs IH]; intros nr s; simpl scan_loop.
  - intros [= <- <-]. auto.
  - unfold bind.
    destruct (scan_proc_run self p nr s) as (nr1 & s1 & Hp & Hcase). rewrite Hp.
    intros Hl Hnd Hcat. apply (IH _ _ Hl).
    + destruct (filename_of p) as [f|].
      * destruct (games self !! f) as [g|] eqn:Hg; [|destruct Hcase as [_ ->]; exact Hnd].
        destruct Hcase as [_ Hcase].
        destruct (dict_get f (running s)) eqn:Hf; [subst s1; exact Hnd|].
        destruct Hcase as [pid ->]. rewrite logged_running.
        cbn [running set_running tick_clock].
        rewrite dict_keys_set_new by exact Hf.
        apply NoDup_app. split; [exact Hnd|]. split; [|apply NoDup_singleton].
        intros k Hk Hk'. apply list_elem_of_singleton in Hk'. subst k.
        apply dict_get_None_keys in Hf. contradiction.
      * destruct Hcase as [_ (Hr & _)]. rewrite Hr. exact Hnd.
    + unfold in_catalog in *. destruct (filename_of p) as [f|].
      * destruct (games self !! f) as [g|] eqn:Hg; [|destruct Hcase as [_ ->]; exact Hcat].
        destruct Hcase as [_ Hcase].
        destruct (dict_get f (running s)) eqn:Hf; [subst s1; exact Hcat|].
        destruct Hcase as [pid ->]. rewrite logged_running.
        cbn [running set_running tick_clock].
        rewrite dict_keys_set_new by exact Hf.
        intros exe Hexe. apply elem_of_app in Hexe. destruct Hexe as [Hexe|Hexe]; [auto|].
        apply list_elem_of_singleton in Hexe. subst exe. rewrite Hg. eauto.
      * destruct Hcase as [_ (Hr & _)]. rewrite Hr. exact Hcat.
Qed.

End Scan.

(** *** The second loop of [tick] *)

Section Stop.
Context `{RT : Runtime}.
Implicit Types (self : Watcher) (s : State) (exe : string) (nr : gset string).

(** One key of [self.running]: it is left alone, or popped and recorded. *)
Lemma stop_proc_run self exe nr s :
  in_catalog self s ->
  exists r s',
    stop_proc self exe nr s = (r, s') /\
    (s' = s \/
     ((exe ∉ nr) /\
      exists start_ts g,
        dict_get exe (running s) = Some start_ts /\
        games self !! exe = Some g /\
        silent
          (logged self
             (MsgShutdown exe (name g) (py_int (fsub (clock s (clock_reads s)) start_ts)))
             (tick_clock (tick_clock (set_running (dict_del exe (running s)) s))))
          s')).
Proof.
  intros Hcat. unfold stop_proc.
  destruct (decide (exe ∈ nr)) as [Hin|Hout].
  { do 2 eexists. split; [reflexivity | left; reflexivity]. }
  unfold bind at 1, running_pop.
  destruct (dict_get exe (running s)) as [start_ts|] eqn:Hrun.
  2:{ do 2 eexists. split; [reflexivity | left; reflexivity]. }
  destruct (Hcat exe) as [g Hg]; [eapply dict_get_Some_keys, Hrun|].
  unfold bind at 1, time_time at 1.
  cbn [running clock clock_reads set_running tick_clock].
  destruct (_record_run self exe g start_ts
              (py_int (fsub (clock s (clock_reads s)) start_ts))
              (tick_clock (set_running (dict_del exe (running s)) s)) Hg)
    as (r & s' & Hrec & Hsil).
  rewrite Hrec. do 2 eexists. split; [reflexivity|]. right.
  split; [exact Hout|]. exists start_ts, g. auto.
Qed.

Lemma stop_frame_refl self s : stop_frame self s s.
Proof.
  split; [reflexivity|]. split; [lia|].
  split; [exists []; split; [symmetry; apply app_nil_r | constructor]|]. auto.
Qed.

Lemma stop_frame_trans self s1 s2 s3 :
  stop_frame self s1 s2 -> stop_frame self s2 s3 -> stop_frame self s1 s3.
Proof.
  intros (Hc & Hk & (new & Hnew & Hq) & Hnd & Hcat) (Hc' & Hk' & (new' & Hnew' & Hq') & Hnd' & Hcat').
  split; [congruence|]. split; [lia|].
  split; [|auto].
  exists (new ++ new'). split; [rewrite Hnew', Hnew; symmetry; apply app_assoc|].
  apply Forall_app; auto.
Qed.

Lemma stop_proc_frame self exe nr s r s' :
  in_catalog self s -> stop_proc self exe nr s = (r, s') -> stop_frame self s s'.
Proof.
  intros Hcat Hrun. destruct (stop_proc_run self exe nr s Hcat) as (r1 & s1 & Heq & Hcase).
  rewrite Hrun in Heq. injection Heq as <- <-.
  destruct Hcase as [->|(Hout & start_ts & g & Hget & Hg & Hsil)]; [apply stop_frame_refl|].
  destruct (logged_console self
              (MsgShutdown exe (name g) (py_int (fsub (clock s (clock_reads s)) start_ts)))
              (tick_clock (tick_clock (set_running (dict_del exe (running s)) s))))
    as (t & rest & Hcon & Hrest & _).
  destruct Hsil as (Hr & Hc & Hk & new & Hnew & Hq).
  rewrite logged_running in Hr. rewrite logged_clock in Hc.
  rewrite logged_clock_reads in Hk. rewrite Hcon in Hnew.
  cbn [running clock clock_reads console set_running tick_clock] in *.
  split; [exact Hc|]. split; [lia|].
  split.
  { eexists. split; [rewrite Hnew, <- app_assoc; reflexivity|].
    apply Forall_app. split; [|apply quiet_no_startup, Hq].
    constructor; [reflexivity | apply quiet_no_startup, Hrest]. }
  split.
  - rewrite Hr. apply dict_del_NoDup.
  - unfold in_catalog. rewrite Hr. intros Hc' k Hk'. apply Hc'.
    eapply dict_keys_del_sub, Hk'.
Qed.

Lemma stop_proc_effect self exe0 exe nr s r s' :
  NoDup (dict_keys (running s)) -> in_catalog self s ->
  stop_proc self exe0 nr s = (r, s') ->
  stop_effect self exe [exe0] nr s s'.
Proof.
  intros Hnd Hcat Hrun.
  destruct (stop_proc_run self exe0 nr s Hcat) as (r1 & s1 & Heq & Hcase).
  rewrite Hrun in Heq. injection Heq as <- <-.
  destruct Hcase as [->|(Hout & start_ts & g & Hget & Hg & Hsil)]; [left; auto|].
  destruct (logged_console self
              (MsgShutdown exe0 (name g) (py_int (fsub (clock s (clock_reads s)) start_ts)))
              (tick_clock (tick_clock (set_running (dict_del exe0 (running s)) s))))
    as (t & rest & Hcon & Hrest & Hcount).
  pose proof (silent_nstop exe _ _ Hsil) as Hn.
  destruct Hsil as (Hr & Hc & Hk & new & Hnew & Hq).
  rewrite logged_running in Hr. rewrite logged_clock in Hc.
  rewrite logged_clock_reads in Hk. rewrite Hcon in Hnew, Hn.
  cbn [running clock clock_reads console set_running tick_clock] in *.
  destruct (decide (exe0 = exe)) as [->|Hne].
  - right. split; [apply list_elem_of_singleton; reflexivity|]. split; [exact Hout|].
    exists g, start_ts, (clock_reads s), t, [], (rest ++ new).
    split; [exact Hg|]. split; [exact Hget|].
    split; [rewrite Hr; apply dict_get_del_eq, Hnd|].
    split; [lia|].
    split; [rewrite Hnew, <- app_assoc; reflexivity|].
    split; [reflexivity|].
    rewrite nstop_app. destruct (Hcount exe) as [_ ->].
    rewrite (nstop_none exe new); [reflexivity | apply quiet_no_shutdown, Hq].
  - left. rewrite Hr. split; [apply dict_get_del_ne, Hne|].
    rewrite Hn, nstop_app, nstop_cons. destruct (Hcount exe) as [_ ->]. simpl is_stop.
    rewrite bool_decide_eq_false_2 by exact Hne. lia.
Qed.

Lemma stop_effect_seq self exe exes1 exes2 nr s s1 s2 :
  stop_frame self s s1 -> stop_frame self s1 s2 ->
  stop_effect self exe exes1 nr s s1 ->
  stop_effect self exe exes2 nr s1 s2 ->
  stop_effect self exe (exes1 ++ exes2) nr s s2.
Proof.
  intros (Hc & Hk & (newA & HnewA & _) & _) (Hc' & Hk' & (newB & HnewB & _) & _) H1 H2.
  destruct H1 as [[Hd Hn]|(Hin & Hout & g & ts & i & t & new1 & new2 & Hg & Hd & Hd1 & Hi & Hcon & Hn1 & Hn2)].
  - destruct H2 as [[Hd' Hn']|(Hin & Hout & g & ts & i & t & new1 & new2 & Hg & Hd' & Hd2 & Hi & Hcon & Hn1 & Hn2)].
    + left. split; congruence.
    + right. split; [apply elem_of_app; auto|]. split; [exact Hout|].
      exists g, ts, i, t, (newA ++ new1), new2.
      split; [exact Hg|]. split; [congruence|]. split; [exact Hd2|]. split; [lia|].
      split; [rewrite Hcon, HnewA, Hc, <- !app_assoc; reflexivity|].
      split; [|exact Hn2].
      rewrite HnewA, nstop_app in Hn. rewrite nstop_app. lia.
  - destruct H2 as [[Hd' Hn']|(_ & _ & g' & ts' & _ & _ & _ & _ & _ & Hd' & _)]; [|congruence].
    right. split; [apply elem_of_app; auto|]. split; [exact Hout|].
    exists g, ts, i, t, new1, (new2 ++ newB).
    split; [exact Hg|]. split; [exact Hd|]. split; [congruence|]. split; [lia|].
    split; [rewrite HnewB, Hcon, <- !app_assoc; reflexivity|].
    split; [exact Hn1|].
    rewrite HnewB, nstop_app in Hn'. rewrite nstop_app. lia.
Qed.

Lemma stop_effect_mono self exe exes1 exes2 nr s s' :
  (forall k, k ∈ exes1 -> k ∈ exes2) ->
  stop_effect self exe exes1 nr s s' -> stop_effect self exe exes2 nr s s'.
Proof.
  intros Hsub [H|(Hin & H)]; [left; exact H | right; split; [auto | exact H]].
Qed.

Lemma stop_loop_run self nr exes s :
  NoDup (dict_keys (running s)) -> in_catalog self s ->
  exists r s',
    stop_loop self exes nr s = (r, s') /\
    stop_frame self s s' /\
    forall exe, stop_effect self exe exes nr s s'.
Proof.
  revert s. induction exes as [|exe0 exes IH]; intros s Hnd Hcat; simpl stop_loop.
  - do 2 eexists. split; [reflexivity|]. split; [apply stop_frame_refl|].
    intros exe. left. auto.
  - unfold bind.
    destruct (stop_proc self exe0 nr s) as [r1 s1] eqn:Hp.
    pose proof (stop_proc_frame self exe0 nr s r1 s1 Hcat Hp) as Hf1.
    assert (Heff1 : forall exe, stop_effect self exe ([exe0] ++ exes) nr s s1).
    { intros exe. apply (stop_effect_mono self exe [exe0]).
      - intros k Hk. apply elem_of_app. auto.
      - eapply stop_proc_effect; eassumption. }
    destruct r1 as [[]|e].
    + destruct Hf1 as (Hc & Hk & Hn & Hnd1 & Hcat1).
      destruct (IH s1 (Hnd1 Hnd) (Hcat1 Hcat)) as (r2 & s2 & Hl & Hf2 & Heff2).
      rewrite Hl. do 2 eexists. split; [reflexivity|].
      assert (Hf1 : stop_frame self s s1) by (repeat split; assumption).
      split; [eapply stop_frame_trans; eassumption|].
      intros exe. apply (stop_effect_seq self exe [exe0] exes nr s s1 s2); auto.
      eapply stop_proc_effect; eassumption.
    + do 2 eexists. split; [reflexivity|]. split; [exact Hf1|]. exact Heff1.
Qed.

End Stop.

(** *** [tick] as a whole, and runs *)

Section Tick.
Context `{RT : Runtime}.
Implicit Types (self : Watcher) (s : State) (exe : string) (nr : gset string).

(** A tick is a scan followed by the second loop over the keys the scan
    left. *)
Lemma tick_phases self procs s :
  NoDup (dict_keys (running s)) -> in_catalog self s ->
  exists r s' nr s1,
    tick self procs s = (r, s') /\
    (forall exe, scan_effect self exe (observed exe procs) ∅ nr s s1) /\
    NoDup (dict_keys (running s1)) /\ in_catalog self s1 /\
    stop_frame self s1 s' /\
    (forall exe, stop_effect self exe (dict_keys (running s1)) nr s1 s').
Proof.
  intros Hnd Hcat. unfold tick. unfold bind at 1.
  destruct (scan_loop_run self procs ∅ s) as (nr & s1 & Hscan & Heff). rewrite Hscan.
  destruct (scan_loop_keys self procs ∅ s nr s1 Hscan Hnd Hcat) as [Hnd1 Hcat1].
  unfold bind at 1, get at 1.
  destruct (stop_loop_run self nr (dict_keys (running s1)) s1 Hnd1 Hcat1)
    as (r & s' & Hstop & Hframe & Heff').
  rewrite Hstop. exists r, s', nr, s1. auto 10.
Qed.

Lemma observed_dec exe procs : observed exe procs \/ ~ observed exe procs.
Proof.
  unfold observed. induction procs as [|p procs IH].
  - right. rewrite Exists_nil. tauto.
  - rewrite Exists_cons. destruct (decide (filename_of p = Some exe)); tauto.
Qed.

Lemma tick_consistent self procs s r s' :
  consistent self s -> tick self procs s = (r, s') -> consistent self s'.
Proof.
  intros (Hnd & Hcat & Hbal) Hrun.
  destruct (tick_phases self procs s Hnd Hcat)
    as (r0 & s0 & nr & s1 & Heq & Hscan & Hnd1 & Hcat1 & Hframe & Hstop).
  rewrite Hrun in Heq. injection Heq as <- <-.
  destruct Hframe as (Hc & Hk & (new & Hnew & Hq) & Hnd' & Hcat').
  split; [auto|]. split; [auto|].
  intros exe. specialize (Hbal exe).
  destruct (Hscan exe) as (_ & _ & (new0 & Hnew0 & Hq0) & _ & Hd).
  assert (Hstop0 : nstop exe (console s1) = nstop exe (console s)).
  { rewrite Hnew0, nstop_app, (nstop_none exe new0 Hq0). lia. }
  assert (Hstart1 : nstart exe (console s') = nstart exe (console s1)).
  { rewrite Hnew, nstart_app, (nstart_none exe new Hq). lia. }
  assert (Hb1 : nstart exe (console s1) =
                (nstop exe (console s1) + if dict_get exe (running s1) is Some _ then 1 else 0)%nat).
  { destruct (dict_get exe (running s)) as [ts|].
    - destruct Hd as [-> ->]. lia.
    - destruct Hd as [Ha Hb].
      assert (HG : (observed exe procs /\ is_Some (games self !! exe))
                   \/ ~ (observed exe procs /\ is_Some (games self !! exe))).
      { destruct (observed_dec exe procs); [|tauto].
        destruct (games self !! exe); [left; eauto | right; intros [_ [? ?]]; discriminate]. }
      destruct HG as [HG|HG].
      + destruct (Ha HG) as [(i & _ & ->) ->]. lia.
      + destruct (Hb HG) as [-> ->]. lia. }
  destruct (Hstop exe) as [[Hd' Hn']|(_ & _ & g & ts & i & t & new1 & new2 & _ & Hd1 & Hd' & _ & Hcon & Hn1 & Hn2)].
  - rewrite Hd', Hn', Hstart1. exact Hb1.
  - rewrite Hd', Hstart1, Hb1, Hd1, Hcon, !nstop_app, nstop_cons, Hn1, Hn2.
    simpl is_stop. rewrite bool_decide_eq_true_2 by reflexivity. lia.
Qed.

(** A tick that sees a filename of the catalog: a session that is open
    stays as it is, and one that is not is opened, once. *)
Lemma tick_observed self procs exe s r s' :
  consistent self s -> is_Some (games self !! exe) -> observed exe procs ->
  tick self procs s = (r, s') ->
  match dict_get exe (running s) with
  | Some start_ts =>
    dict_get exe (running s') = Some start_ts /\
    nstart exe (console s') = nstart exe (console s)
  | None =>
    (exists i, (clock_reads s <= i < clock_reads s')%nat /\
               dict_get exe (running s') = Some (clock s i)) /\
    nstart exe (console s') = S (nstart exe (console s))
  end.
Proof.
  intros (Hnd & Hcat & Hbal) Hg Hobs Hrun.
  destruct (tick_phases self procs s Hnd Hcat)
    as (r0 & s0 & nr & s1 & Heq & Hscan & Hnd1 & Hcat1 & Hframe & Hstop).
  rewrite Hrun in Heq. injection Heq as <- <-.
  destruct Hframe as (Hc & Hk & (new & Hnew & Hq) & _).
  destruct (Hscan exe) as (Hc0 & Hk0 & _ & Hin & Hd).
  assert (Hnr : exe ∈ nr) by (apply Hin; auto).
  assert (Hstart1 : nstart exe (console s') = nstart exe (console s1)).
  { rewrite Hnew, nstart_app, (nstart_none exe new Hq). lia. }
  assert (Hkeep : dict_get exe (running s') = dict_get exe (running s1)).
  { destruct (Hstop exe) as [[Hd' _]|(_ & Hout & _)]; [exact Hd' | contradiction]. }
  rewrite Hkeep, Hstart1.
  destruct (dict_get exe (running s)) as [ts|]; [exact Hd|].
  destruct Hd as [Ha _]. destruct Ha as [(i & Hi & Hrun') Hn]; [auto|].
  split; [|exact Hn]. exists i. split; [lia | exact Hrun'].
Qed.

(** [__init__], case by case. *)
Lemma init_eq self s :
  __init__ self s =
  let s0 := set_running [] s in
  match data_dir s with
  | DirBlocked e => (Raise e, s0)
  | d =>
    let s1 := match d with DirAbsent => set_data_dir DirPresent s0 | _ => s0 end in
    match data_file s with
    | Missing =>
      match write_outcomes s (writes s) with
      | WriteOk => (Return tt, announced self (written (Content "{}") s1))
      | OpenFails e => (Raise e, written Missing s1)
      | WriteFails e n => (Raise e, written (Content (String.substring 0 n "{}")) s1)
      end
    | _ => (Return tt, announced self s1)
    end
  end.
Proof.
  unfold __init__, announced.
  unfold bind, modify, mkdir_exist_ok, file_exists, get, write_text, ret.
  destruct (data_dir s) eqn:Hd, (data_file s) eqn:Hf, (write_outcomes s (writes s)) eqn:Hw;
    do 4 (cbn [data_dir data_file writes write_outcomes set_running set_data_dir written];
          rewrite ?Hd, ?Hf, ?Hw, ?_log_eq);
    reflexivity.
Qed.

Lemma announced_silent self s : silent s (announced self s).
Proof.
  unfold announced.
  apply (silent_trans _ (logged self MsgInitialized s)); [apply silent_logged; reflexivity|].
  eapply silent_trans; [|apply silent_logged; reflexivity].
  apply silent_logged; reflexivity.
Qed.

Lemma set_data_dir_silent d s : silent s (set_data_dir d s).
Proof.
  repeat split; cbn; auto. exists []. split; [symmetry; apply app_nil_r | constructor].
Qed.

(** Construction leaves [self.running] empty and prints no event. *)
Lemma init_silent self s r s' :
  __init__ self s = (r, s') -> silent (set_running [] s) s'.
Proof.
  rewrite init_eq. cbv zeta.
  assert (H1 : silent (set_running [] s) (set_data_dir DirPresent (set_running [] s)))
    by apply set_data_dir_silent.
  destruct (data_dir s);
    [| | intros [= <- <-]; apply silent_refl];
    (destruct (data_file s);
     [destruct (write_outcomes s (writes s))| |]);
    intros [= <- <-];
    repeat first
      [ apply silent_refl
      | exact H1
      | eapply silent_trans; [|apply announced_silent]
      | eapply silent_trans; [|apply silent_written] ].
Qed.

Lemma init_consistent self s0 r s :
  (forall exe, nstart exe (console s0) = nstop exe (console s0)) ->
  __init__ self s0 = (r, s) -> consistent self s.
Proof.
  intros Hcon0 Hrun. pose proof (init_silent self s0 r s Hrun) as Hs.
  assert (Hr : running s = []) by (destruct Hs as [-> _]; reflexivity).
  unfold consistent, in_catalog, balanced. rewrite Hr.
  split; [constructor|]. split; [intros exe Hin; inversion Hin|].
  intros exe. simpl.
  rewrite (silent_nstart exe _ _ Hs), (silent_nstop exe _ _ Hs). cbn [console set_running].
  rewrite Hcon0. lia.
Qed.

Lemma run_consistent self scans s s' :
  run self scans s s' -> consistent self s -> consistent self s'.
Proof.
  induction 1 as [s|scans s s1 s' Hr Hc _ IH|procs scans s r s1 s' Ht _ IH]; intros Hcons.
  - exact Hcons.
  - apply IH. unfold consistent, in_catalog, balanced in *. rewrite Hr, Hc. exact Hcons.
  - apply IH. eapply tick_consistent; eassumption.
Qed.

Lemma reachable_consistent self s : reachable self s -> consistent self s.
Proof.
  intros (s0 & s1 & scans & Hcon & Hinit & Hrun).
  eapply run_consistent; [exact Hrun|].
  eapply init_consistent; [|exact Hinit]. intros exe. rewrite Hcon. reflexivity.
Qed.

End Tick.

(** *** The playtime store *)

Section Store.
Context `{RT : Runtime}.
Implicit Types (self : Watcher) (s : State) (doc : JSON Float).

Lemma _load_eq self s : _load self s = (Return (loaded s), after_load self s).
Proof.
  unfold _load, try_except, bind, read_text, lift, loaded, after_load, load_error.
  destruct (data_file s) as [|e|text]; cbv beta iota; rewrite ?_log_eq; try reflexivity.
  destruct (json_loads text); cbv beta iota; rewrite ?_log_eq; reflexivity.
Qed.

Lemma _save_eq self data s :
  _save self data s =
  (Return tt,
   match data_dir s with
   | DirPresent =>
     match write_outcomes s (writes s) with
     | WriteOk => written (Content (json_dumps data)) s
     | OpenFails e => logged self (MsgSaveError e) (written (data_file s) s)
     | WriteFails e n =>
       logged self (MsgSaveError e)
         (written (Content (String.substring 0 n (json_dumps data))) s)
     end
   | _ => logged self (MsgSaveError (mkExc FileNotFoundError "No such file or directory")) s
   end).
Proof.
  unfold _save, try_except, write_text.
  destruct (data_dir s); [| destruct (write_outcomes s (writes s)) |];
    cbv beta iota; rewrite ?_log_eq; reflexivity.
Qed.

Lemma after_load_data_file self s : data_file (after_load self s) = data_file s.
Proof. unfold after_load. destruct (load_error s); [apply logged_data_file | reflexivity]. Qed.

Lemma after_load_clock self s : clock (after_load self s) = clock s.
Proof. unfold after_load. destruct (load_error s); [apply logged_clock | reflexivity]. Qed.

Lemma after_load_data_dir self s : data_dir (after_load self s) = data_dir s.
Proof. unfold after_load. destruct (load_error s); [apply logged_data_dir | reflexivity]. Qed.

Lemma after_load_writes self s : writes (after_load self s) = writes s.
Proof. unfold after_load. destruct (load_error s); [apply logged_writes | reflexivity]. Qed.

Lemma after_load_write_outcomes self s :
  write_outcomes (after_load self s) = write_outcomes s.
Proof.
  unfold after_load. destruct (load_error s); [apply logged_write_outcomes | reflexivity].
Qed.

Lemma after_load_clock_reads self s :
  clock_reads (after_load self s) =
  (clock_reads s + if load_error s is Some _ then 1 else 0)%nat.
Proof.
  unfold after_load. destruct (load_error s); [rewrite logged_clock_reads|]; lia.
Qed.

(** [_record] for a filename of the catalog: the stop event is logged, the
    document is loaded and merged under the date read then, and saved. *)
Lemma _record_eq self exe g start_ts duration s :
  games self !! exe = Some g ->
  _record self exe start_ts duration s =
  let s1 := after_load self (logged self (MsgShutdown exe (name g) duration) (tick_clock s)) in
  match merge_session (loaded s) (today_of s) (name g)
          (strftime_full (fromtimestamp start_ts)) (closed_at s) duration with
  | Return data' => _save self data' (tick_clock s1)
  | Raise e => (Raise e, tick_clock s1)
  end.
Proof.
  intros Hg. unfold _record, lookup_game. rewrite Hg.
  unfold bind at 1. unfold ret at 1.
  unfold bind at 1. unfold datetime_now at 1. unfold bind at 1, time_time at 1, ret at 1.
  unfold bind at 1. rewrite _log_eq.
  unfold bind at 1. rewrite _load_eq.
  unfold bind at 1. unfold datetime_now at 1. unfold bind at 1, time_time at 1, ret at 1.
  unfold bind at 1, lift at 1.
  set (s0 := logged self _ (tick_clock s)).
  assert (Hl : loaded s0 = loaded s).
  { unfold loaded, s0. rewrite logged_data_file. reflexivity. }
  assert (He : load_error s0 = load_error s).
  { unfold load_error, s0. rewrite logged_data_file. reflexivity. }
  assert (Ht : strftime_date (fromtimestamp (clock (after_load self s0)
                                              (clock_reads (after_load self s0)))) = today_of s).
  { unfold today_of, merge_reading. rewrite after_load_clock, after_load_clock_reads, He.
    unfold s0. rewrite logged_clock, logged_clock_reads.
    cbn [clock clock_reads tick_clock]. do 3 f_equal.
    destruct (load_error s); lia. }
  rewrite Hl, Ht. reflexivity.
Qed.



(** The merge, on the document: where the record ends up. *)
Lemma merge_session_shape doc date game start_str end_str duration doc' :
  merge_session doc date game start_str end_str duration = Return doc' ->
  exists top day r r',
    doc = JDict top /\
    (dict_get date top = Some (JDict day) \/ (dict_get date top = None /\ day = [])) /\
    dict_get game (dict_setdefault game new_record day) = Some r /\
    update_record r start_str end_str duration = Return r' /\
    doc' = JDict (dict_set date
                    (JDict (dict_set game r' (dict_setdefault game new_record day)))
                    (dict_setdefault date (JDict []) top)).
Proof.
  unfold merge_session. destruct doc as [| | | | | |top]; try discriminate.
  rewrite dict_get_setdefault.
  destruct (dict_get date top) as [[| | | | | |day]|] eqn:Hd; try discriminate.
  - destruct (dict_get game (dict_setdefault game new_record day)) as [r|] eqn:Hr;
      [|discriminate].
    destruct (update_record r start_str end_str duration) as [r'|e] eqn:Hu; [|discriminate].
    intros [= <-]. exists top, day, r, r'. auto 10.
  - destruct (decide (date = date)) as [_|?]; [|congruence].
    destruct (dict_get game (dict_setdefault game new_record [])) as [r|] eqn:Hr;
      [|discriminate].
    destruct (update_record r start_str end_str duration) as [r'|e] eqn:Hu; [|discriminate].
    intros [= <-]. exists top, [], r, r'. auto 10.
Qed.

(** The merge touches one record: every other record and every other
    date is as it was, and nothing goes away. *)
Lemma merge_session_frame doc date game start_str end_str duration doc' :
  merge_session doc date game start_str end_str duration = Return doc' ->
  (forall date', date' <> date -> day_get date' doc' = day_get date' doc) /\
  (forall game', game' <> game -> doc_get date game' doc' = doc_get date game' doc) /\
  (forall date', is_Some (day_get date' doc) -> is_Some (day_get date' doc')) /\
  (forall date' game',
      is_Some (doc_get date' game' doc) -> is_Some (doc_get date' game' doc')).
Proof.
  intros Hm.
  destruct (merge_session_shape _ _ _ _ _ _ _ Hm) as (top & day & r & r' & -> & Hday & Hr & Hu & ->).
  assert (Hother : forall date', date' <> date ->
            dict_get date' (dict_set date
              (JDict (dict_set game r' (dict_setdefault game new_record day)))
              (dict_setdefault date (JDict []) top)) = dict_get date' top).
  { intros date' Hne. rewrite dict_get_set_ne by congruence.
    rewrite dict_get_setdefault. destruct (dict_get date' top); [reflexivity|].
    destruct (decide (date = date')); congruence. }
  assert (Hgame : forall game', game' <> game ->
            dict_get game' (dict_set game r' (dict_setdefault game new_record day)) =
            dict_get game' day).
  { intros game' Hne. rewrite dict_get_set_ne by congruence.
    rewrite dict_get_setdefault. destruct (dict_get game' day); [reflexivity|].
    destruct (decide (game = game')); congruence. }
  assert (Hsame : forall game', game' <> game ->
            doc_get date game' (JDict (dict_set date
              (JDict (dict_set game r' (dict_setdefault game new_record day)))
              (dict_setdefault date (JDict []) top))) = doc_get date game' (JDict top)).
  { intros game' Hne. cbn [doc_get]. rewrite dict_get_set_eq, (Hgame game' Hne).
    destruct Hday as [->|[-> ->]]; reflexivity. }
  split; [intros date' Hne; cbn [day_get]; auto|].
  split; [exact Hsame|].
  split.
  - intros date'. cbn [day_get]. destruct (decide (date' = date)) as [->|Hne].
    + rewrite dict_get_set_eq. eauto.
    + rewrite (Hother date' Hne). auto.
  - intros date' game'. destruct (decide (date' = date)) as [->|Hne].
    + destruct (decide (game' = game)) as [->|Hne'].
      * intros _. cbn [doc_get]. rewrite dict_get_set_eq, dict_get_set_eq. eauto.
      * rewrite (Hsame game' Hne'). auto.
    + cbn [doc_get]. rewrite (Hother date' Hne). auto.
Qed.



End Store.

(** ** The properties of the specification *)

(** C8: the duration formatter is a pure function that agrees, on every
    input, with rules 1 to 5 of the specification: ["0s"] for anything that
    is not a non-negative integer, and otherwise hours, minutes and seconds
    with the seconds left out when they are zero and there are hours or
    minutes; in particular on the six inputs the specification lists. *)
Theorem format_playtime_rules :
  (forall x, format_playtime x = format_spec x) /\
  format_playtime ArgOther = "0s" /\
  (forall p, format_playtime (ArgInt (Z.neg p)) = "0s") /\
  format_playtime (ArgInt 0) = "0s" /\
  format_playtime (ArgInt 45) = "45s" /\
  format_playtime (ArgInt 120) = "2m" /\
  format_playtime (ArgInt 3661) = "1h1m1s" /\
  format_playtime (ArgInt 7200) = "2h0m" /\
  format_playtime (ArgInt (-5)) = "0s".
Proof.
  split; [|repeat split; reflexivity].
  intros x. unfold format_playtime, format_spec.
  destruct (as_int x) as [n|]; [|reflexivity].
  destruct (n <? 0) eqn:Hneg; [reflexivity|].
  assert (Hmod : (n mod 3600) mod 60 = n mod 60).
  { apply Z.mod_mod_divide. exists 60. reflexivity. }
  cbv zeta. rewrite Hmod.
  destruct (0 <? n / 3600); [|destruct (0 <? n mod 3600 / 60)];
    destruct (n mod 60 =? 0); reflexivity.
Qed.

(** C4: whatever the state of the data file, [_load] returns and does not
    raise; when the file is missing, unreadable, empty or holds text that
    [json.loads] rejects, it returns the empty document after logging one
    warning, and changes nothing else. (That [json.loads] rejects the empty
    text is a fact about the codec, taken as a hypothesis.) *)
Theorem load_never_raises `{RT : Runtime} (self : Watcher) (s : State) :
  (exists e, json_loads "" = Raise e) ->
  (exists doc s', _load self s = (Return doc, s')) /\
  (data_file s = Missing \/
   (exists e, data_file s = Unreadable e) \/
   data_file s = Content "" \/
   (exists text e, data_file s = Content text /\ json_loads text = Raise e) ->
   exists e s',
     _load self s = (Return (JDict []), s') /\
     s' = logged self (MsgLoadWarning e) s /\
     (exists t rest, console s' = console s ++ Printed t (MsgLoadWarning e) :: rest) /\
     data_file s' = data_file s /\ running s' = running s).
Proof.
  intros [e0 Hempty]. rewrite _load_eq. split; [eauto|]. intros Hcase.
  assert (Herr : exists e, load_error s = Some e /\ loaded s = JDict []).
  { unfold load_error, loaded.
    destruct Hcase as [H|[[e H]|[H|(text & e & H & Hbad)]]]; rewrite H;
      rewrite ?Hempty, ?Hbad; eauto. }
  destruct Herr as (e & He & Hdoc). exists e, (logged self (MsgLoadWarning e) s).
  unfold after_load. rewrite He, Hdoc. split; [reflexivity|]. split; [reflexivity|].
  rewrite logged_data_file, logged_running.
  destruct (logged_console self (MsgLoadWarning e) s) as (t & rest & Hc & _). eauto 6.
Qed.

Lemma load_never_raises_witness :
  exists e s',
    _load Milli.watcher (Milli.world 1000 (Content "")) = (Return (JDict []), s') /\
    exists t rest, console s' = Printed t (MsgLoadWarning e) :: rest.
Proof.
  destruct (proj2 (load_never_raises Milli.watcher (Milli.world 1000 (Content ""))
                     (ex_intro _ (Milli.bad "Expecting value") eq_refl))
                  (or_intror (or_intror (or_introl eq_refl))))
    as (e & s' & Hrun & _ & Hcon & _).
  exists e, s'. split; [exact Hrun | exact Hcon].
Defined.

(** C5, as the specification has it, fails: a write that fails once the
    file is open leaves it truncated. Here the disk is full, the file held
    one hour of play, and after [_save] it holds nothing. *)
Lemma save_failure_truncates :
  let s := Milli.failing Milli.disk_full (Content (Milli.dumps Milli.one_hour)) in
  is_Some (write_error (Milli.dumps Milli.one_hour) s) /\
  fst (_save (RT:=Milli.runtime) Milli.watcher Milli.one_hour s) = Return tt /\
  data_file (snd (_save (RT:=Milli.runtime) Milli.watcher Milli.one_hour s)) = Content "" /\
  data_file (snd (_save (RT:=Milli.runtime) Milli.watcher Milli.one_hour s)) <> data_file s.
Proof.
  cbv zeta. split; [eexists; reflexivity|]. split; [reflexivity|].
  split; [reflexivity|]. vm_compute. discriminate.
Qed.

(** C5, amended: for every document and every failing write, [_save]
    returns without raising, after logging one error with the exception; the
    file is left as the failed write left it, which is the prior content
    whenever the failure came before the file was open (the directory is
    not there, or the opening fails). *)
Theorem save_failure_is_logged `{RT : Runtime} (self : Watcher) (data : JSON Float)
    (s : State) (e : Exc) (left_on_disk : FileState) :
  write_error (json_dumps data) s = Some (e, left_on_disk) ->
  exists s',
    _save self data s = (Return tt, s') /\
    (exists t rest, console s' = console s ++ Printed t (MsgSaveError e) :: rest) /\
    data_file s' = left_on_disk /\
    (data_dir s <> DirPresent \/ (exists e', write_outcomes s (writes s) = OpenFails e') ->
     data_file s' = data_file s).
Proof.
  intros Herr. rewrite _save_eq. eexists. split; [reflexivity|].
  unfold write_error in Herr.
  destruct (data_dir s) eqn:Hd; [| destruct (write_outcomes s (writes s)) eqn:Hw |];
    try discriminate; injection Herr as <- <-;
    rewrite logged_data_file;
    (split; [match goal with
             | |- context [logged self ?m ?s0] =>
               destruct (logged_console self m s0) as (t & rest & -> & _); eauto
             end|]);
    cbn [data_file written]; split; try reflexivity.
  - intros [H|[e' H]]; [congruence | discriminate].
Qed.

Lemma save_failure_is_logged_witness :
  exists s',
    _save (RT:=Milli.runtime) Milli.watcher Milli.one_hour
      (Milli.failing Milli.read_only (Content "{}")) = (Return tt, s') /\
    data_file s' = Content "{}".
Proof.
  destruct (save_failure_is_logged (RT:=Milli.runtime) Milli.watcher Milli.one_hour
              (Milli.failing Milli.read_only (Content "{}"))
              (mkExc OSError "Permission denied") (Content "{}") eq_refl)
    as (s' & Hrun & _ & Hfile & _).
  exists s'. split; assumption.
Defined.

(** C7: initialisation of the store. When the data file does not exist and
    the directory can be made, [__init__] makes the directory and writes the
    empty document; when the file exists, with whatever content, its
    content is left as it is; and after an initialisation a second one
    returns too, writes nothing and leaves the file and the directory as
    they are. *)
Theorem init_keeps_existing_file `{RT : Runtime} (self : Watcher) (s : State) :
  (data_file s = Missing ->
   data_dir s = DirAbsent \/ data_dir s = DirPresent ->
   write_outcomes s (writes s) = WriteOk ->
   exists s',
     __init__ self s = (Return tt, s') /\
     data_dir s' = DirPresent /\ data_file s' = Content "{}") /\
  (data_file s <> Missing ->
   forall r s', __init__ self s = (r, s') -> data_file s' = data_file s) /\
  (forall s1,
      __init__ self s = (Return tt, s1) ->
      exists s2,
        __init__ self s1 = (Return tt, s2) /\
        data_file s2 = data_file s1 /\ data_dir s2 = data_dir s1 /\
        writes s2 = writes s1).
Proof.
  assert (Hann : forall s0, data_file (announced self s0) = data_file s0 /\
                            data_dir (announced self s0) = data_dir s0 /\
                            writes (announced self s0) = writes s0).
  { intros s0. unfold announced.
    rewrite !logged_data_file, !logged_data_dir, !logged_writes. auto. }
  assert (Hfile : forall s0, data_file (announced self s0) = data_file s0) by apply Hann.
  assert (Hdir : forall s0, data_dir (announced self s0) = data_dir s0) by apply Hann.
  assert (Hwrites : forall s0, writes (announced self s0) = writes s0) by apply Hann.
  split; [|split].
  - intros Hf Hd Hw. rewrite init_eq. cbv zeta. rewrite Hf, Hw.
    destruct Hd as [Hd | Hd]; rewrite Hd; eexists; (split; [reflexivity|]);
      rewrite Hfile, Hdir; cbn [data_dir data_file written set_data_dir set_running];
      rewrite ?Hd; auto.
  - intros Hf r s'. rewrite init_eq. cbv zeta.
    destruct (data_dir s), (data_file s) eqn:Hfs; try (exfalso; first [exact (Hf Hfs) | apply Hf; reflexivity]);
      intros [= <- <-];
      rewrite ?Hfile; cbn [data_file set_data_dir set_running]; rewrite ?Hfs; reflexivity.
  - intros s1. rewrite init_eq. cbv zeta. intros Hfirst.
    assert (H1 : data_dir s1 = DirPresent /\ data_file s1 <> Missing).
    { destruct (data_dir s) eqn:Hd; [| |discriminate];
        (destruct (data_file s) eqn:Hf;
         [destruct (write_outcomes s (writes s)); try discriminate| |]);
        injection Hfirst as <-; rewrite Hfile, Hdir;
        cbn [data_dir data_file written set_data_dir set_running];
        rewrite ?Hd, ?Hf; split; congruence. }
    destruct H1 as [Hd1 Hf1]. rewrite init_eq. cbv zeta. rewrite Hd1.
    destruct (data_file s1) eqn:Hf; [congruence| |]; eexists; (split; [reflexivity|]);
      rewrite Hfile, Hdir, Hwrites; cbn [data_dir data_file writes set_running]; auto.
Qed.

Lemma init_keeps_existing_file_witness :
  data_file (snd (__init__ Milli.watcher
                    (Milli.world 1000 (Content (Milli.dumps Milli.one_hour))))) =
  Content (Milli.dumps Milli.one_hour).
Proof.
  refine (proj1 (proj2 (init_keeps_existing_file Milli.watcher
                          (Milli.world 1000 (Content (Milli.dumps Milli.one_hour))))) _ _ _ _).
  - discriminate.
  - apply surjective_pairing.
Defined.

(** C1: in a run of ticks of a constructed watcher that all see a filename
    of the catalog, with the world doing what it will between them: when the
    filename is in [self.running] at the start, it stays there with the
    start time it had and no start event is printed for it; when it is not,
    the run prints one start event for it, no more, and puts it in
    [self.running] (no tick, no event). The keys of [self.running] stay
    distinct, so the filename is there once. *)
Theorem one_start_per_presence `{RT : Runtime} (self : Watcher) (exe : string)
    (scans : list (list Proc)) (s s' : State) :
  reachable self s ->
  is_Some (games self !! exe) ->
  Forall (observed exe) scans ->
  run self scans s s' ->
  NoDup (dict_keys (running s')) /\
  match dict_get exe (running s) with
  | Some start_ts =>
    dict_get exe (running s') = Some start_ts /\
    nstart exe (console s') = nstart exe (console s)
  | None =>
    match scans with
    | [] =>
      dict_get exe (running s') = None /\
      nstart exe (console s') = nstart exe (console s)
    | _ :: _ =>
      is_Some (dict_get exe (running s')) /\
      nstart exe (console s') = S (nstart exe (console s))
    end
  end.
Proof.
  intros Hreach Hg Hobs Hrun. apply reachable_consistent in Hreach.
  split; [apply (run_consistent self scans s s' Hrun Hreach)|].
  induction Hrun as [s|scans s s1 s' Hr Hc Hrun IH|procs scans s r s1 s' Ht Hrun IH].
  - destruct (dict_get exe (running s)); auto.
  - rewrite <- Hr, <- Hc. apply IH; [|exact Hobs].
    unfold consistent, in_catalog, balanced in *. rewrite Hr, Hc. exact Hreach.
  - apply Forall_cons in Hobs. destruct Hobs as [Hseen Hobs].
    pose proof (tick_observed self procs exe s r s1 Hreach Hg Hseen Ht) as Hstep.
    specialize (IH (tick_consistent _ _ _ _ _ Hreach Ht) Hobs).
    destruct (dict_get exe (running s)) as [start_ts|].
    + destruct Hstep as [Hd Hn]. rewrite Hd in IH. rewrite <- Hn. exact IH.
    + destruct Hstep as [(i & _ & Hd) Hn]. rewrite Hd in IH.
      destruct IH as [Hd' Hn']. rewrite Hd'. split; [eauto | congruence].
Qed.

Lemma constructed_reachable : reachable Milli.watcher Milli.constructed.
Proof.
  exists (Milli.world 1000 (Content "{}")), Milli.constructed, [].
  split; [reflexivity|]. split; [|constructor].
  rewrite (surjective_pairing (__init__ _ _)). reflexivity.
Defined.

Lemma one_start_per_presence_witness :
  NoDup (dict_keys (running Milli.still_playing)) /\
  is_Some (dict_get "game.exe" (running Milli.still_playing)) /\
  nstart "game.exe" (console Milli.still_playing) =
  S (nstart "game.exe" (console Milli.constructed)).
Proof.
  refine (one_start_per_presence Milli.watcher "game.exe"
            [[Milli.game_proc]; [Milli.game_proc; Milli.game_proc]]
            Milli.constructed Milli.still_playing constructed_reachable _ _ _).
  - eexists. reflexivity.
  - repeat constructor; reflexivity.
  - eapply run_tick; [apply surjective_pairing|].
    eapply run_tick; [apply surjective_pairing|]. apply run_done.
Defined.

(** *** The session that the second loop closes *)

Section Closing.
Context `{RT : Runtime}.
Implicit Types (self : Watcher) (s : State) (exe : string) (nr : gset string).

(** On a filename that is running and was not seen, the body of the second
    loop pops the filename, reads the clock and calls [_record]. *)
Lemma stop_proc_closes self exe nr s start_ts :
  exe ∉ nr -> dict_get exe (running s) = Some start_ts ->
  stop_proc self exe nr s =
  _record self exe start_ts (py_int (fsub (clock s (clock_reads s)) start_ts))
    (tick_clock (set_running (dict_del exe (running s)) s)).
Proof.
  intros Hout Hget. unfold stop_proc. destruct (decide (exe ∈ nr)); [contradiction|].
  unfold bind at 1, running_pop. rewrite Hget.
  unfold bind at 1, time_time at 1. reflexivity.
Qed.

(** The second loop and one filename that is running and was not seen:
    either the loop raises before it comes to the filename, or it comes to
    it in a state [s0], hands the session to [_record], which prints the
    stop event, and goes on with the keys that are left, [rest], from the
    state that [_record] leaves. *)
Lemma stop_loop_closes self nr exes s r s' exe start_ts :
  NoDup exes -> NoDup (dict_keys (running s)) -> in_catalog self s ->
  exe ∈ exes -> exe ∉ nr -> dict_get exe (running s) = Some start_ts ->
  stop_loop self exes nr s = (r, s') ->
  (exists e, r = Raise e /\ nstop exe (console s') = nstop exe (console s))
  \/
  exists g s0 rr sb t new1 new2 rest,
    games self !! exe = Some g /\
    clock s0 = clock s /\ (clock_reads s <= clock_reads s0 < clock_reads s')%nat /\
    dict_get exe (running s0) = Some start_ts /\
    console s0 = console s ++ new1 /\
    _record self exe start_ts (py_int (fsub (clock s (clock_reads s0)) start_ts))
      (tick_clock (set_running (dict_del exe (running s0)) s0)) = (rr, sb) /\
    console s' =
      console s ++ new1 ++
      Printed t (MsgShutdown exe (name g) (py_int (fsub (clock s (clock_reads s0)) start_ts)))
      :: new2 /\
    nstop exe new1 = 0%nat /\ nstop exe new2 = 0%nat /\
    dict_get exe (running s') = None /\
    match rr with
    | Return _ => stop_loop self rest nr sb = (r, s')
    | Raise e => r = Raise e /\ s' = sb
    end.
Proof.
  revert s. induction exes as [|exe0 exes IH]; intros s Hnd0 Hnd Hcat Hin Hout Hget Hloop.
  { inversion Hin. }
  apply NoDup_cons in Hnd0. destruct Hnd0 as [Hnot Hnd0].
  simpl stop_loop in Hloop. unfold bind in Hloop.
  destruct (stop_proc self exe0 nr s) as [r1 s1] eqn:Hp.
  pose proof (stop_proc_frame self exe0 nr s r1 s1 Hcat Hp) as Hf.
  destruct Hf as (Hc1 & Hk1 & (newA & HnewA & _) & Hnd1 & Hcat1).
  destruct (decide (exe0 = exe)) as [->|Hne].
  - (* the loop is at the filename *)
    right. rewrite (stop_proc_closes self exe nr s start_ts Hout Hget) in Hp.
    destruct (Hcat exe) as [g Hg]; [eapply dict_get_Some_keys, Hget|].
    set (dur := py_int (fsub (clock s (clock_reads s)) start_ts)) in *.
    set (sa := tick_clock (set_running (dict_del exe (running s)) s)) in *.
    destruct (_record_run self exe g start_ts dur sa Hg) as (rr & sb & Hrec & Hsil).
    rewrite Hp in Hrec. injection Hrec as <- <-.
    destruct (logged_console self (MsgShutdown exe (name g) dur) (tick_clock sa))
      as (t & more & Hcon & Hmore & Hcount).
    destruct Hsil as (Hr & Hc & Hk & new & Hnew & Hq).
    rewrite logged_running in Hr. rewrite logged_clock_reads in Hk.
    rewrite Hcon in Hnew. cbn [running clock_reads console set_running tick_clock sa] in *.
    assert (Hgone : dict_get exe (running s1) = None).
    { rewrite Hr. apply dict_get_del_eq, Hnd. }
    assert (Hz : nstop exe (more ++ new) = 0%nat).
    { rewrite nstop_app. destruct (Hcount exe) as [_ ->].
      rewrite (nstop_none exe new); [reflexivity | apply quiet_no_shutdown, Hq]. }
    destruct r1 as [[]|e].
    + destruct (stop_loop_run self nr exes s1 (Hnd1 Hnd) (Hcat1 Hcat))
        as (r2 & s2 & Hl2 & Hframe & Heff).
      rewrite Hloop in Hl2. injection Hl2 as <- <-.
      destruct Hframe as (_ & Hk2 & (newB & HnewB & _) & _).
      assert (Hrest : dict_get exe (running s') = None /\ nstop exe newB = 0%nat).
      { destruct (Heff exe) as [[Hd Hn]|(_ & _ & g' & ts' & _ & _ & _ & _ & _ & Hd & _)];
          [|congruence].
        split; [congruence|]. rewrite HnewB, nstop_app in Hn. lia. }
      destruct Hrest as [Hgone' HzB].
      exists g, s, (Return tt), s1, t, [], ((more ++ new) ++ newB), exes.
      split; [exact Hg|]. split; [reflexivity|]. split; [lia|]. split; [exact Hget|].
      split; [symmetry; apply app_nil_r|]. split; [exact Hp|].
      split; [rewrite HnewB, Hnew; cbn [app]; rewrite <- !app_assoc; reflexivity|].
      split; [reflexivity|]. split; [rewrite nstop_app; lia|].
      split; [exact Hgone' | exact Hloop].
    + injection Hloop as <- <-.
      exists g, s, (Raise e), s1, t, [], (more ++ new), exes.
      split; [exact Hg|]. split; [reflexivity|]. split; [lia|]. split; [exact Hget|].
      split; [symmetry; apply app_nil_r|]. split; [exact Hp|].
      split; [rewrite Hnew; cbn [app]; rewrite <- !app_assoc; reflexivity|].
      split; [reflexivity|]. split; [exact Hz|]. split; [exact Hgone | auto].
  - (* the loop is at another filename *)
    assert (Hin' : exe ∈ exes).
    { apply elem_of_cons in Hin. destruct Hin as [->|Hin]; [congruence | exact Hin]. }
    assert (Hsame : dict_get exe (running s1) = Some start_ts /\
                    nstop exe (console s1) = nstop exe (console s)).
    { destruct (stop_proc_effect self exe0 exe nr s r1 s1 Hnd Hcat Hp)
        as [[Hd Hn]|(Hin1 & _)].
      - split; congruence.
      - apply list_elem_of_singleton in Hin1. congruence. }
    destruct Hsame as [Hget1 Hn1].
    assert (HzA : nstop exe newA = 0%nat).
    { rewrite HnewA, nstop_app in Hn1. lia. }
    destruct r1 as [[]|e].
    + destruct (IH s1 Hnd0 (Hnd1 Hnd) (Hcat1 Hcat) Hin' Hout Hget1 Hloop)
        as [(e & -> & Hn)|(g & s0 & rr & sb & t & new1 & new2 & rest & Hg & Hc0 & Hk0 & Hd0
                            & Hcon0 & Hrec & Hcon' & Hz1 & Hz2 & Hgone & Htail)].
      * left. exists e. split; [reflexivity | congruence].
      * right. rewrite Hc1 in Hrec, Hcon'.
        exists g, s0, rr, sb, t, (newA ++ new1), new2, rest.
        split; [exact Hg|]. split; [congruence|]. split; [lia|]. split; [exact Hd0|].
        split; [rewrite Hcon0, HnewA; symmetry; apply app_assoc|]. split; [exact Hrec|].
        split; [rewrite Hcon', HnewA, <- !app_assoc; reflexivity|].
        split; [rewrite nstop_app; lia|]. split; [exact Hz2|].
        split; [exact Hgone | exact Htail].
    + injection Hloop as <- <-. left. exists e. split; [reflexivity | exact Hn1].
Qed.

End Closing.

(** C2: every stop event that a tick of a constructed watcher prints is for
    a filename that was in [self.running], with some start time, and had one
    more start event than stop events on the console; the tick prints no
    other start or stop event for it; afterwards the filename is not in
    [self.running]; and the duration in the event is [int(now - start)]
    for a clock reading [now] of this tick. It is the duration that is
    recorded: the reading is taken in a state [s0] of the tick in which the
    filename is still running, [_record] is called with the start time and
    this duration once the filename is popped, the event is what this call
    prints, and the tick ends with the second loop over the keys that are
    left, from the state that [_record] leaves, or with the exception of
    [_record]. And the events are printed: a tick that returns has printed
    a stop event for every filename that was running and that the scan did
    not see. *)
Theorem stop_events_are_paired `{RT : Runtime} (self : Watcher) (procs : list Proc)
    (s : State) (r : Outcome unit) (s' : State) :
  reachable self s ->
  tick self procs s = (r, s') ->
  exists new,
    console s' = console s ++ new /\
    (forall t exe game_name duration,
      Printed t (MsgShutdown exe game_name duration) ∈ new ->
      exists g start_ts i,
        games self !! exe = Some g /\ game_name = name g /\
        dict_get exe (running s) = Some start_ts /\
        nstart exe (console s) = S (nstop exe (console s)) /\
        nstart exe new = 0%nat /\ nstop exe new = 1%nat /\
        dict_get exe (running s') = None /\
        (clock_reads s <= i < clock_reads s')%nat /\
        duration = py_int (fsub (clock s i) start_ts) /\
        exists s0 rr sb new1 new2 rest nr,
          new = new1 ++ Printed t (MsgShutdown exe game_name duration) :: new2 /\
          console s0 = console s ++ new1 /\
          clock s0 = clock s /\ clock_reads s0 = i /\
          dict_get exe (running s0) = Some start_ts /\
          _record self exe start_ts duration
            (tick_clock (set_running (dict_del exe (running s0)) s0)) = (rr, sb) /\
          match rr with
          | Return _ => stop_loop self rest nr sb = (r, s')
          | Raise e => r = Raise e /\ s' = sb
          end) /\
    (r = Return tt ->
     forall exe start_ts,
       dict_get exe (running s) = Some start_ts -> ~ observed exe procs ->
       exists t game_name duration, Printed t (MsgShutdown exe game_name duration) ∈ new).
Proof.
  intros Hreach Hrun.
  destruct (reachable_consistent self s Hreach) as (Hnd & Hcat & Hbal).
  destruct (scan_loop_run self procs ∅ s) as (nr & s1 & Hscanrun & Hscan).
  destruct (scan_loop_keys self procs ∅ s nr s1 Hscanrun Hnd Hcat) as [Hnd1 Hcat1].
  assert (Hloop : stop_loop self (dict_keys (running s1)) nr s1 = (r, s')).
  { revert Hrun. unfold tick. unfold bind at 1. rewrite Hscanrun.
    unfold bind at 1, get at 1. intros H. exact H. }
  destruct (stop_loop_run self nr (dict_keys (running s1)) s1 Hnd1 Hcat1)
    as (r2 & s2 & Hl2 & Hframe & Hstop).
  rewrite Hloop in Hl2. injection Hl2 as <- <-.
  destruct Hframe as (Hc & Hk & (new & Hnew & Hq) & _).
  destruct (Hscan "") as (Hc0 & Hk0 & (new0 & Hnew0 & Hq0) & _).
  exists (new0 ++ new). split; [rewrite Hnew, Hnew0; symmetry; apply app_assoc|].
  split.
  - intros t exe game_name duration Hline.
    set (line := Printed t (MsgShutdown exe game_name duration)) in *.
    assert (Hstopline : is_stop exe line = true) by (apply bool_decide_eq_true_2; reflexivity).
    apply elem_of_app in Hline. destruct Hline as [Hline|Hline].
    { apply (shutdown_not_in _ _ Hq0) in Hline. discriminate. }
    destruct (Hstop exe) as [[_ Hn']|(Hkey & Hout & _ & ts & _ & _ & _ & _ & _ & Hd1 & _)].
    { rewrite Hnew, nstop_app in Hn'.
      assert (Hz : nstop exe new = 0%nat) by lia.
      rewrite (nstop_zero_not_in exe line new Hz Hline) in Hstopline. discriminate. }
    destruct (stop_loop_closes self nr _ s1 r s' exe ts Hnd1 Hnd1 Hcat1 Hkey Hout Hd1 Hloop)
      as [(e & _ & Hn')|(g & s0 & rr & sb & t' & new1 & new2 & rest & Hg & Hcx & Hkx & Hdx
                          & Hconx & Hrec & Hcon' & Hz1 & Hz2 & Hgone & Htail)].
    { rewrite Hnew, nstop_app in Hn'.
      assert (Hz : nstop exe new = 0%nat) by lia.
      rewrite (nstop_zero_not_in exe line new Hz Hline) in Hstopline. discriminate. }
    assert (Hnew12 : new = new1 ++ Printed t' (MsgShutdown exe (name g)
                                    (py_int (fsub (clock s1 (clock_reads s0)) ts))) :: new2).
    { rewrite Hnew in Hcon'. eapply app_inv_head, Hcon'. }
    rewrite Hnew12 in Hline.
    pose proof (the_stop_event exe _ _ _ _ Hz1 Hz2 Hline Hstopline) as Hsame.
    unfold line in *. clear line. injection Hsame as -> -> ->.
    destruct (Hscan exe) as (_ & _ & _ & Hin & Hd).
    assert (Hd0 : dict_get exe (running s) = Some ts).
    { destruct (dict_get exe (running s)) as [ts0|] eqn:E.
      - destruct Hd as [Hd _]. congruence.
      - exfalso. destruct Hd as [_ Hb].
        destruct (observed_dec exe procs) as [Ho|Ho].
        + apply Hout, Hin. right. split; [exact Ho | rewrite Hg; eauto].
        + destruct Hb as [Hb _]; [tauto | congruence]. }
    exists g, ts, (clock_reads s0).
    split; [exact Hg|]. split; [reflexivity|]. split; [exact Hd0|].
    split; [rewrite (Hbal exe), Hd0; lia|].
    split.
    { rewrite nstart_app, (nstart_none exe new Hq).
      rewrite Hd0 in Hd. destruct Hd as [_ Hn]. rewrite Hnew0, nstart_app in Hn. lia. }
    split.
    { rewrite nstop_app, (nstop_none exe new0 Hq0), Hnew12, nstop_app, nstop_cons, Hz1, Hz2.
      simpl is_stop. rewrite bool_decide_eq_true_2 by reflexivity. reflexivity. }
    split; [exact Hgone|]. split; [lia|]. split; [rewrite Hc0; reflexivity|].
    exists s0, rr, sb, (new0 ++ new1), new2, rest, nr.
    split; [rewrite Hnew12, <- app_assoc; reflexivity|].
    split; [rewrite Hconx, Hnew0; symmetry; apply app_assoc|].
    split; [congruence|]. split; [reflexivity|]. split; [exact Hdx|].
    split; [exact Hrec | exact Htail].
  - intros -> exe start_ts Hget Hunseen.
    destruct (Hscan exe) as (_ & _ & _ & Hin & Hd). rewrite Hget in Hd. destruct Hd as [Hd1 _].
    assert (Hout : exe ∉ nr).
    { intros Hnr. apply Hin in Hnr. destruct Hnr as [Hnr|[Ho _]]; [|contradiction].
      apply not_elem_of_empty in Hnr. exact Hnr. }
    destruct (stop_loop_closes self nr _ s1 _ s' exe start_ts Hnd1 Hnd1 Hcat1
                (dict_get_Some_keys _ _ _ Hd1) Hout Hd1 Hloop)
      as [(e & He & _)|(g & s0 & rr & sb & t' & new1 & new2 & rest & _ & _ & _ & _
                        & _ & _ & Hcon' & _)]; [discriminate|].
    do 3 eexists. apply elem_of_app. right.
    rewrite Hnew in Hcon'. apply app_inv_head in Hcon'. rewrite Hcon'.
    apply elem_of_app. right. left.
Qed.

Lemma still_playing_reachable : reachable Milli.watcher Milli.still_playing.
Proof.
  exists (Milli.world 1000 (Content "{}")), Milli.constructed,
    [[Milli.game_proc]; [Milli.game_proc; Milli.game_proc]].
  split; [reflexivity|]. split.
  - rewrite (surjective_pairing (__init__ _ _)). reflexivity.
  - eapply run_tick; [apply surjective_pairing|].
    eapply run_tick; [apply surjective_pairing|]. apply run_done.
Defined.

Lemma stop_events_are_paired_witness :
  exists new t game_name duration start_ts i,
    console Milli.stopped = console Milli.still_playing ++ new /\
    Printed t (MsgShutdown "game.exe" game_name duration) ∈ new /\
    game_name = "Game" /\
    dict_get "game.exe" (running Milli.still_playing) = Some start_ts /\
    dict_get "game.exe" (running Milli.stopped) = None /\
    nstop "game.exe" new = 1%nat /\
    duration = py_int (fsub (clock Milli.still_playing i) start_ts).
Proof.
  assert (Hret : fst (tick Milli.watcher [ProcInfo None None] Milli.still_playing) = Return tt).
  { vm_compute. reflexivity. }
  destruct (stop_events_are_paired Milli.watcher [ProcInfo None None]
              Milli.still_playing (Return tt) Milli.stopped still_playing_reachable)
    as (new & Hnew & Hback & Hfwd).
  { rewrite <- Hret. apply surjective_pairing. }
  destruct (Hfwd eq_refl "game.exe" 1704153593000) as (t & game_name & duration & Hline).
  { vm_compute. reflexivity. }
  { intros Ho. apply Exists_cons in Ho. destruct Ho as [Ho|Ho]; [discriminate|].
    apply Exists_nil in Ho. exact Ho. }
  destruct (Hback t "game.exe" game_name duration Hline)
    as (g & start_ts & i & Hg & Hname & Hd & _ & _ & Hn & Hgone & _ & Hdur & _).
  exists new, t, game_name, duration, start_ts, i.
  split; [exact Hnew|]. split; [exact Hline|]. split.
  { rewrite Hname. vm_compute in Hg. injection Hg as <-. reflexivity. }
  split; [exact Hd|]. split; [exact Hgone|]. split; [exact Hn | exact Hdur].
Defined.

(** C10: in every state of a watcher that was constructed and then run, the
    keys of [self.running] are keys of the catalog, so that [self.games[exe]]
    succeeds for each of them. *)
Theorem running_within_catalog `{RT : Runtime} (self : Watcher) (s : State) :
  reachable self s ->
  forall exe,
    exe ∈ dict_keys (running s) ->
    exists g, games self !! exe = Some g /\ forall s0, lookup_game self exe s0 = (Return g, s0).
Proof.
  intros Hreach exe Hin.
  destruct (reachable_consistent self s Hreach) as (_ & Hcat & _).
  destruct (Hcat exe Hin) as [g Hg]. exists g. split; [exact Hg|].
  intros s0. unfold lookup_game. rewrite Hg. reflexivity.
Qed.

Lemma running_within_catalog_witness :
  exists g,
    games Milli.watcher !! "game.exe" = Some g /\
    forall s0, lookup_game (RT:=Milli.runtime) Milli.watcher "game.exe" s0 = (Return g, s0).
Proof.
  refine (running_within_catalog Milli.watcher Milli.still_playing
            still_playing_reachable "game.exe" _).
  vm_compute. constructor.
Defined.







(** C9: [_record] for a filename of the catalog either raises and leaves
    the data file as it was, or hands to [_save] the loaded document merged,
    in which every record of another (date, game) pair is the one loaded,
    every other date is as loaded, and every date and every game that the
    loaded document had is still there. *)
Theorem merge_is_frame_preserving `{RT : Runtime} (self : Watcher) (exe : string)
    (g : Game) (start_ts : Float) (duration : Z) (s : State) :
  games self !! exe = Some g ->
  (exists e s',
      _record self exe start_ts duration s = (Raise e, s') /\
      data_file s' = data_file s /\ writes s' = writes s) \/
  (exists doc' s1,
      _record self exe start_ts duration s = _save self doc' s1 /\
      data_file s1 = data_file s /\
      merge_session (loaded s) (today_of s) (name g)
        (strftime_full (fromtimestamp start_ts)) (closed_at s) duration = Return doc' /\
      (forall date game,
          date <> today_of s \/ game <> name g ->
          doc_get date game doc' = doc_get date game (loaded s)) /\
      (forall date, date <> today_of s -> day_get date doc' = day_get date (loaded s)) /\
      (forall date, is_Some (day_get date (loaded s)) -> is_Some (day_get date doc')) /\
      (forall date game,
          is_Some (doc_get date game (loaded s)) -> is_Some (doc_get date game doc'))).
Proof.
  intros Hg. rewrite (_record_eq self exe g start_ts duration s Hg). cbv zeta.
  set (s1 := tick_clock (after_load self _)).
  assert (Hfile : data_file s1 = data_file s).
  { unfold s1. cbn [data_file tick_clock]. rewrite after_load_data_file, logged_data_file.
    reflexivity. }
  assert (Hwrites : writes s1 = writes s).
  { unfold s1. cbn [writes tick_clock]. rewrite after_load_writes, logged_writes.
    reflexivity. }
  destruct (merge_session (loaded s) (today_of s) (name g)
              (strftime_full (fromtimestamp start_ts)) (closed_at s) duration)
    as [doc'|e] eqn:Hm.
  - right. exists doc', s1. split; [reflexivity|]. split; [exact Hfile|].
    split; [reflexivity|].
    destruct (merge_session_frame _ _ _ _ _ _ _ Hm) as (Hdates & Hgames & Hkeep & Hkeep').
    split; [|auto].
    intros date game Hne. destruct (decide (date = today_of s)) as [->|Hd].
    + apply Hgames. destruct Hne; congruence.
    + specialize (Hdates date Hd). unfold doc_get, day_get in *.
      destruct doc', (loaded s); try discriminate; try rewrite Hdates; try reflexivity.
      all: try (rewrite <- Hdates; reflexivity).
  - left. exists e, s1. auto.
Qed.

Lemma merge_is_frame_preserving_witness :
  exists doc' : JSON Z,
    merge_session (RT:=Milli.runtime) (loaded Milli.before_midnight) "2024-01-02" "Game"
      "2024-01-01 22:59:50" "2024-01-01 23:59:50" 3606 = Return doc' /\
    doc_get (RT:=Milli.runtime) "2024-01-01" "Game" doc' =
    doc_get (RT:=Milli.runtime) "2024-01-01" "Game" Milli.one_hour.
Proof.
  destruct (merge_is_frame_preserving (RT:=Milli.runtime) Milli.watcher "game.exe"
              (mkGame "Game" "1" "/x/game.exe") (Milli.t0 - 3600000) 3606
              Milli.before_midnight eq_refl)
    as [(e & s' & Hrun & _)|(doc' & s1 & _ & _ & Hm & Hpairs & _)].
  - apply (f_equal fst) in Hrun. vm_compute in Hrun. discriminate.
  - exists doc'. split; [exact Hm|].
    apply (Hpairs "2024-01-01" "Game"). left. intros H.
    apply (f_equal (String.eqb "2024-01-01")) in H. vm_compute in H. discriminate.
Defined.


(** ** More of the code *)

(** *** More on [tick] *)

Section MoreTick.
Context `{RT : Runtime}.
Implicit Types (self : Watcher) (s : State) (exe : string) (nr : gset string).

Lemma scan_proc_passed_over self p nr s :
  passed_over self p = true -> scan_proc self p nr s = (Return nr, s).
Proof.
  unfold passed_over, scan_proc, filename_of. unfold bind at 1. unfold try_except, inspect.
  destruct p as [[proc_exe|] pid|e].
  - destruct (decide (proc_exe = "")); [reflexivity|]. unfold ret at 1.
    destruct (games self !! path_name_lower proc_exe); [discriminate | reflexivity].
  - reflexivity.
  - intros H. unfold raise. rewrite H. reflexivity.
Qed.

(** The scan passes over a process as if it were not there. *)
Lemma scan_loop_filter self procs nr s :
  scan_loop self procs nr s =
  scan_loop self (List.filter (fun p => negb (passed_over self p)) procs) nr s.
Proof.
  revert nr s. induction procs as [|p procs IH]; intros nr s; [reflexivity|].
  simpl. destruct (passed_over self p) eqn:Hp; simpl.
  - unfold bind. rewrite (scan_proc_passed_over self p nr s Hp). apply IH.
  - unfold bind. destruct (scan_proc self p nr s) as [[nr'|e] s']; [apply IH | reflexivity].
Qed.

Lemma same_disk_refl s : same_disk s s.
Proof. repeat split. Qed.

Lemma same_disk_trans s1 s2 s3 : same_disk s1 s2 -> same_disk s2 s3 -> same_disk s1 s3.
Proof.
  intros (H1 & H2 & H3 & H4) (H1' & H2' & H3' & H4'). repeat split; congruence.
Qed.

Lemma same_disk_logged self msg s : same_disk s (logged self msg s).
Proof.
  unfold same_disk.
  rewrite logged_data_file, logged_data_dir, logged_writes, logged_write_outcomes. auto.
Qed.

(** The scan does not touch the disk. *)
Lemma scan_proc_disk self p nr s nr' s' :
  scan_proc self p nr s = (Return nr', s') -> same_disk s s'.
Proof.
  intros Hrun. destruct (scan_proc_run self p nr s) as (nr1 & s1 & Heq & Hcase).
  rewrite Hrun in Heq. injection Heq as <- <-.
  revert Hrun. unfold scan_proc. unfold bind at 1. unfold try_except, inspect.
  destruct p as [[proc_exe|] pid|e].
  - destruct (decide (proc_exe = "")); unfold ret at 1; [intros [= <- <-]; apply same_disk_refl|].
    destruct (games self !! path_name_lower proc_exe) as [g|];
      [|intros [= <- <-]; apply same_disk_refl].
    unfold bind at 1, get at 1.
    destruct (dict_get (path_name_lower proc_exe) (running s));
      [intros [= <- <-]; apply same_disk_refl|].
    unfold bind at 1, time_time at 1. unfold bind at 1, modify at 1.
    unfold bind at 1. rewrite _log_eq. unfold ret. intros [= <- <-].
    eapply same_disk_trans; [|apply same_disk_logged]. repeat split.
  - unfold ret. intros [= <- <-]. apply same_disk_refl.
  - unfold raise. destruct (is_skipped e).
    + unfold ret. intros [= <- <-]. apply same_disk_refl.
    + unfold bind at 1. rewrite _log_eq. unfold ret. intros [= <- <-].
      apply same_disk_logged.
Qed.

Lemma scan_loop_disk self procs nr s nr' s' :
  scan_loop self procs nr s = (Return nr', s') -> same_disk s s'.
Proof.
  revert nr s. induction procs as [|p procs IH]; intros nr s; simpl scan_loop.
  - intros [= <- <-]. apply same_disk_refl.
  - unfold bind. destruct (scan_proc self p nr s) as [[nr1|e] s1] eqn:Hp; [|discriminate].
    intros Hl. eapply same_disk_trans; [eapply scan_proc_disk, Hp | eapply IH, Hl].
Qed.

(** The second loop leaves alone the keys that the scan saw. *)
Lemma stop_loop_all_seen self exes nr s :
  (forall exe, exe ∈ exes -> exe ∈ nr) -> stop_loop self exes nr s = (Return tt, s).
Proof.
  induction exes as [|exe exes IH]; intros Hall; simpl stop_loop; [reflexivity|].
  unfold bind, stop_proc. destruct (decide (exe ∈ nr)) as [_|Hout].
  - unfold ret at 1. apply IH. intros k Hk. apply Hall. apply elem_of_cons. auto.
  - exfalso. apply Hout, Hall. apply elem_of_cons. auto.
Qed.

(** [tick] is the second loop run on what the scan leaves. *)
Lemma tick_unfold self procs s nr s1 :
  scan_loop self procs ∅ s = (Return nr, s1) ->
  tick self procs s = stop_loop self (dict_keys (running s1)) nr s1.
Proof. intros H. unfold tick. unfold bind at 1. rewrite H. reflexivity. Qed.

(** After the scan, a key of [self.running] that is not among the
    filenames seen was a key before and was not seen. *)
Lemma scan_keys_seen self procs nr s1 s k :
  in_catalog self s ->
  (forall exe, scan_effect self exe (observed exe procs) ∅ nr s s1) ->
  (forall exe, exe ∈ dict_keys (running s) -> observed exe procs) ->
  k ∈ dict_keys (running s1) -> k ∈ nr.
Proof.
  intros Hcat Hscan Hall Hk.
  destruct (Hscan k) as (_ & _ & _ & Hin & Hd). apply Hin. right.
  destruct (dict_get k (running s)) as [ts|] eqn:Hget.
  - apply dict_get_Some_keys in Hget. split; [apply Hall, Hget | apply Hcat, Hget].
  - destruct Hd as [_ Hb].
    destruct (observed_dec k procs) as [Ho|Ho].
    + destruct (games self !! k) eqn:Hg; [split; eauto|].
      destruct Hb as [Hnone _]; [intros [_ [? ?]]; discriminate|].
      apply dict_get_None_keys in Hnone. contradiction.
    + destruct Hb as [Hnone _]; [tauto|].
      apply dict_get_None_keys in Hnone. contradiction.
Qed.

(** When the second loop returns, the keys it went through that were not
    seen are gone. *)
Lemma stop_loop_done self nr exes s s' :
  NoDup (dict_keys (running s)) -> in_catalog self s ->
  stop_loop self exes nr s = (Return tt, s') ->
  forall exe, exe ∈ exes -> exe ∉ nr -> dict_get exe (running s') = None.
Proof.
  revert s. induction exes as [|exe0 exes IH]; intros s Hnd Hcat Hrun exe Hin Hout.
  - inversion Hin.
  - simpl stop_loop in Hrun. unfold bind in Hrun.
    destruct (stop_proc self exe0 nr s) as [[[]|e] s1] eqn:Hp; [|discriminate].
    destruct (stop_proc_frame self exe0 nr s _ s1 Hcat Hp) as (_ & _ & _ & Hnd1 & Hcat1).
    destruct (decide (exe ∈ exes)) as [Hin'|Hnot].
    { apply (IH s1 (Hnd1 Hnd) (Hcat1 Hcat) Hrun exe Hin' Hout). }
    apply elem_of_cons in Hin. destruct Hin as [->|Hin]; [|contradiction].
    assert (Hgone : dict_get exe0 (running s1) = None).
    { revert Hp. unfold stop_proc. destruct (decide (exe0 ∈ nr)); [contradiction|].
      unfold bind at 1, running_pop.
      destruct (dict_get exe0 (running s)) as [start_ts|] eqn:Hget; [|discriminate].
      destruct (Hcat exe0) as [g Hg]; [eapply dict_get_Some_keys, Hget|].
      unfold bind at 1, time_time at 1.
      cbn [running clock clock_reads set_running tick_clock].
      destruct (_record_run self exe0 g start_ts
                  (py_int (fsub (clock s (clock_reads s)) start_ts))
                  (tick_clock (set_running (dict_del exe0 (running s)) s)) Hg)
        as (r & s2 & Hrec & (Hr & _)).
      rewrite Hrec. intros [= _ <-]. rewrite Hr, logged_running.
      cbn [running set_running tick_clock]. apply dict_get_del_eq, Hnd. }
    destruct (stop_loop_run self nr exes s1 (Hnd1 Hnd) (Hcat1 Hcat)) as (r2 & s2 & Hl & _ & Heff).
    rewrite Hrun in Hl. injection Hl as <- <-.
    destruct (Heff exe0) as [[Hd _]|(_ & _ & g & ts & i & t & n1 & n2 & _ & _ & Hd & _)];
      congruence.
Qed.

(** A scan that sees only filenames already in [self.running] leaves it
    as it is. *)
Lemma scan_loop_known self procs nr s nr' s' :
  (forall f, observed f procs -> is_Some (games self !! f) ->
             is_Some (dict_get f (running s))) ->
  scan_loop self procs nr s = (Return nr', s') ->
  silent s s'.
Proof.
  revert nr s. induction procs as [|p procs IH]; intros nr s Hknown; simpl scan_loop.
  - intros [= <- <-]. apply silent_refl.
  - unfold bind. destruct (scan_proc_run self p nr s) as (nr1 & s1 & Hp & Hcase).
    rewrite Hp. intros Hl.
    assert (Hs1 : silent s s1).
    { destruct (filename_of p) as [f|] eqn:Hf; [|apply Hcase].
      destruct (games self !! f) as [g|] eqn:Hg;
        [|destruct Hcase as [_ ->]; apply silent_refl].
      destruct Hcase as [_ Hcase].
      destruct (Hknown f) as [ts Hts]; [left; exact Hf | rewrite Hg; eauto|].
      rewrite Hts in Hcase. subst s1. apply silent_refl. }
    eapply silent_trans; [exact Hs1|]. eapply IH; [|exact Hl].
    intros f Ho HG. destruct Hs1 as (-> & _). apply Hknown; [right; exact Ho | exact HG].
Qed.

(** After a tick that returns normally the keys of [self.running] are the
    filenames of the catalog that the scan saw. *)
Lemma tick_running_keys self procs s s' :
  NoDup (dict_keys (running s)) -> in_catalog self s ->
  tick self procs s = (Return tt, s') ->
  forall exe,
    is_Some (dict_get exe (running s')) <->
    observed exe procs /\ is_Some (games self !! exe).
Proof.
  intros Hnd Hcat Hrun exe.
  destruct (scan_loop_run self procs ∅ s) as (nr & s1 & Hscan & Heff).
  destruct (scan_loop_keys self procs ∅ s nr s1 Hscan Hnd Hcat) as [Hnd1 Hcat1].
  rewrite (tick_unfold self procs s nr s1 Hscan) in Hrun.
  destruct (stop_loop_run self nr (dict_keys (running s1)) s1 Hnd1 Hcat1)
    as (r & s2 & Hstop & _ & Heff').
  rewrite Hrun in Hstop. injection Hstop as <- <-.
  destruct (Heff exe) as (_ & _ & _ & Hin & Hd).
  assert (Hnr : exe ∈ nr <-> observed exe procs /\ is_Some (games self !! exe)).
  { rewrite Hin. split; [intros [H|H]; [inversion H | exact H] | auto]. }
  split.
  - intros [ts Hts]. apply Hnr.
    destruct (decide (exe ∈ nr)) as [H|Hout]; [exact H | exfalso].
    destruct (Heff' exe) as [[Hsame _]|(_ & _ & g & ts' & i & t & n1 & n2 & _ & _ & Hnone & _)];
      [|congruence].
    rewrite Hts in Hsame. symmetry in Hsame. apply dict_get_Some_keys in Hsame.
    rewrite (stop_loop_done self nr _ s1 s' Hnd1 Hcat1 Hrun exe Hsame Hout) in Hts.
    discriminate.
  - intros Hseen. assert (Hexe : exe ∈ nr) by (apply Hnr, Hseen).
    assert (Hs1 : is_Some (dict_get exe (running s1))).
    { destruct (dict_get exe (running s)); [destruct Hd as [-> _]; eauto|].
      destruct Hd as [Ha _]. destruct (Ha Hseen) as [(i & _ & ->) _]. eauto. }
    destruct (Heff' exe) as [[-> _]|(_ & Hout & _)]; [exact Hs1 | contradiction].
Qed.

End MoreTick.

(** X1: the processes that the scan passes over (inspection raising
    [NoSuchProcess], [AccessDenied] or [ZombieProcess]; no executable path
    or an empty one; a filename that is not in the catalog) do not count:
    [tick] does on a scan what it does on the scan without them. *)
Theorem tick_passes_over `{RT : Runtime} (self : Watcher) (procs : list Proc) (s : State) :
  tick self procs s =
  tick self (List.filter (fun p => negb (passed_over self p)) procs) s.
Proof.
  unfold tick. unfold bind at 1 3. rewrite <- scan_loop_filter. reflexivity.
Qed.

Lemma playing_reachable : reachable Milli.watcher Milli.playing.
Proof.
  exists (Milli.world 1000 (Content "{}")), Milli.constructed, [[Milli.game_proc]].
  split; [reflexivity|]. split.
  - rewrite (surjective_pairing (__init__ _ _)). reflexivity.
  - eapply run_tick; [apply surjective_pairing | apply run_done].
Defined.

(** X2: a tick of a constructed watcher during which every running game is
    seen returns normally, leaves the disk alone and prints no stop event;
    the sessions that were open stay open with their start times. *)
Theorem tick_without_stop `{RT : Runtime} (self : Watcher) (procs : list Proc) (s : State) :
  reachable self s ->
  (forall exe, exe ∈ dict_keys (running s) -> observed exe procs) ->
  exists s',
    tick self procs s = (Return tt, s') /\
    same_disk s s' /\
    (forall exe, nstop exe (console s') = nstop exe (console s)) /\
    (forall exe start_ts,
        dict_get exe (running s) = Some start_ts ->
        dict_get exe (running s') = Some start_ts).
Proof.
  intros Hreach Hall.
  destruct (reachable_consistent self s Hreach) as (Hnd & Hcat & _).
  destruct (scan_loop_run self procs ∅ s) as (nr & s1 & Hscan & Heff).
  exists s1. rewrite (tick_unfold self procs s nr s1 Hscan).
  split.
  { apply stop_loop_all_seen. intros k Hk. eapply scan_keys_seen; eauto. }
  split; [eapply scan_loop_disk, Hscan|].
  split.
  - intros exe. destruct (Heff exe) as (_ & _ & (new & -> & Hq) & _).
    rewrite nstop_app, (nstop_none exe new Hq). lia.
  - intros exe start_ts Hget. destruct (Heff exe) as (_ & _ & _ & _ & Hd).
    rewrite Hget in Hd. apply Hd.
Qed.

Lemma tick_without_stop_witness :
  data_file Milli.still_playing = data_file Milli.playing /\
  dict_get "game.exe" (running Milli.still_playing) = Some 1704153593000.
Proof.
  destruct (tick_without_stop Milli.watcher [Milli.game_proc; Milli.game_proc]
              Milli.playing playing_reachable)
    as (s' & Hrun & (Hfile & _) & _ & Hkeep).
  - intros exe Hin. vm_compute in Hin. apply list_elem_of_singleton in Hin. subst exe.
    left. reflexivity.
  - apply (f_equal snd) in Hrun. cbn [snd] in Hrun. subst s'.
    split; [exact Hfile|]. apply Hkeep. reflexivity.
Defined.

(** X3: after a tick of a constructed watcher that returns normally, the
    keys of [self.running] are the filenames of the catalog that the scan
    saw, no more and no fewer. *)
Theorem running_is_what_was_seen `{RT : Runtime} (self : Watcher) (procs : list Proc)
    (s s' : State) :
  reachable self s ->
  tick self procs s = (Return tt, s') ->
  forall exe,
    is_Some (dict_get exe (running s')) <->
    observed exe procs /\ is_Some (games self !! exe).
Proof.
  intros Hreach Hrun.
  destruct (reachable_consistent self s Hreach) as (Hnd & Hcat & _).
  apply (tick_running_keys self procs s s' Hnd Hcat Hrun).
Qed.

Lemma running_is_what_was_seen_witness :
  is_Some (dict_get "game.exe" (running Milli.playing)) <->
  observed (RT:=Milli.runtime) "game.exe" [Milli.game_proc] /\
  is_Some (games Milli.watcher !! "game.exe").
Proof.
  refine (running_is_what_was_seen Milli.watcher [Milli.game_proc]
            Milli.constructed Milli.playing constructed_reachable _ "game.exe").
  rewrite (surjective_pairing (tick _ _ _)). reflexivity.
Defined.

(** X4: after a tick of a constructed watcher that returned normally, a
    tick on the same scan returns normally too and does nothing but log the
    warnings of the scan again: [self.running] and the disk are as they
    were, and no start or stop event is printed. *)
Theorem tick_again `{RT : Runtime} (self : Watcher) (procs : list Proc) (s s1 : State) :
  reachable self s ->
  tick self procs s = (Return tt, s1) ->
  exists s2,
    tick self procs s1 = (Return tt, s2) /\
    silent s1 s2 /\ same_disk s1 s2.
Proof.
  intros Hreach Hrun.
  assert (Hreach1 : reachable self s1).
  { destruct Hreach as (s0 & si & scans & Hc & Hi & Hr).
    exists s0, si, (scans ++ [procs]). split; [exact Hc|]. split; [exact Hi|].
    clear Hi Hc. induction Hr as [s|scans s sa s' Hra Hca _ IH|p scans s r sa s' Ht _ IH].
    - eapply run_tick; [exact Hrun | apply run_done].
    - eapply run_world; eauto.
    - simpl. eapply run_tick; eauto. }
  destruct (reachable_consistent self s Hreach) as (Hnd & Hcat & _).
  pose proof (tick_running_keys self procs s s1 Hnd Hcat Hrun) as Hkeys.
  destruct (scan_loop_run self procs ∅ s1) as (nr & s2 & Hscan & Heff).
  assert (Hsil : silent s1 s2).
  { eapply scan_loop_known; [|exact Hscan]. intros f Ho HG. apply Hkeys. auto. }
  exists s2. rewrite (tick_unfold self procs s1 nr s2 Hscan).
  split; [|split; [exact Hsil | eapply scan_loop_disk, Hscan]].
  apply stop_loop_all_seen. intros k Hk.
  destruct Hsil as (Hr & _). rewrite Hr in Hk.
  destruct (Heff k) as (_ & _ & _ & Hin & _). apply Hin. right. apply Hkeys.
  destruct (dict_get k (running s1)) eqn:Hget; [eauto|].
  apply dict_get_None_keys in Hget. contradiction.
Qed.

Lemma tick_again_witness :
  running (snd (tick Milli.watcher [Milli.game_proc] Milli.playing)) = running Milli.playing /\
  data_file (snd (tick Milli.watcher [Milli.game_proc] Milli.playing)) =
  data_file Milli.playing.
Proof.
  destruct (tick_again Milli.watcher [Milli.game_proc] Milli.constructed Milli.playing
              constructed_reachable)
    as (s2 & Hrun & (Hr & _) & (Hf & _)).
  - rewrite (surjective_pairing (tick _ _ _)) at 1. reflexivity.
  - apply (f_equal snd) in Hrun. cbn [snd] in Hrun. subst s2. split; assumption.
Defined.

(** *** More on the store *)

Section MoreStore.
Context `{RT : Runtime}.
Implicit Types (self : Watcher) (s : State) (doc : JSON Float).

Lemma dict_keys_set_old {V} (d : list (string * V)) k v :
  is_Some (dict_get k d) -> dict_keys (dict_set k v d) = dict_keys d.
Proof.
  unfold dict_keys. induction d as [|[k0 v0] d IH]; simpl; [intros [? ?]; discriminate|].
  destruct (decide (k0 = k)) as [->|Hne]; simpl; [reflexivity|].
  intros H. f_equal. auto.
Qed.

Lemma dict_keys_setdefault {V} (d : list (string * V)) k v :
  dict_keys (dict_setdefault k v d) =
  dict_keys d ++ (if dict_get k d is Some _ then [] else [k]).
Proof.
  unfold dict_setdefault, dict_keys. destruct (dict_get k d).
  - symmetry. apply app_nil_r.
  - rewrite fmap_app. reflexivity.
Qed.

Lemma update_record_addable r start_str end_str duration :
  (exists r', update_record r start_str end_str duration = Return r') <-> addable r = true.
Proof.
  unfold update_record, addable, record_field.
  destruct r as [| | | | | |kvs]; try (split; [intros [? ?]|]; discriminate).
  destruct (dict_get "total" kvs) as [[| | | | | |]|]; simpl;
    split; try discriminate; try (intros [? ?]; discriminate); eauto.
Qed.

Lemma update_record_error r start_str end_str duration e :
  update_record r start_str end_str duration = Raise e ->
  exc_class e = TypeError \/ exc_class e = KeyError.
Proof.
  unfold update_record. destruct r as [| | | | | |kvs]; try (intros [= <-]; auto).
  destruct (dict_get "total" kvs) as [[| | | | | |]|]; simpl;
    try discriminate; intros [= <-]; auto.
Qed.

Lemma new_record_addable : addable new_record = true.
Proof. reflexivity. Qed.

Lemma update_new_record start_str end_str duration :
  update_record new_record start_str end_str duration =
  Return (JDict [("total", JInt duration); ("last_open", JStr start_str);
                 ("last_close", JStr end_str)]).
Proof. reflexivity. Qed.

(** The first session of an empty document. *)
Lemma merge_into_empty date game start_str end_str duration :
  merge_session (JDict []) date game start_str end_str duration =
  Return (JDict [(date,
                  JDict [(game,
                          JDict [("total", JInt duration); ("last_open", JStr start_str);
                                 ("last_close", JStr end_str)])])]).
Proof.
  unfold merge_session. cbn [dict_setdefault dict_get app].
  destruct (decide (date = date)) as [_|?]; [|congruence].
  cbn [dict_setdefault dict_get app].
  destruct (decide (game = game)) as [_|?]; [|congruence].
  rewrite update_new_record. cbn [dict_set].
  destruct (decide (date = date)) as [_|?]; [|congruence].
  destruct (decide (game = game)) as [_|?]; [|congruence].
  reflexivity.
Qed.

(** A merge that raises: the document was not mergeable, and the
    exception is one of three classes. *)
Lemma merge_session_refused doc date game start_str end_str duration e :
  merge_session doc date game start_str end_str duration = Raise e ->
  mergeable date game doc = false /\
  (exc_class e = AttributeError \/ exc_class e = TypeError \/ exc_class e = KeyError).
Proof.
  unfold merge_session, mergeable.
  destruct doc as [| | | | | |top]; try (intros [= <-]; auto).
  rewrite dict_get_setdefault.
  destruct (dict_get date top) as [[| | | | | |day]|] eqn:Hd; try (intros [= <-]; auto).
  - rewrite dict_get_setdefault.
    destruct (dict_get game day) as [r|] eqn:Hr.
    + pose proof (update_record_addable r start_str end_str duration) as Hadd.
      pose proof (update_record_error r start_str end_str duration) as Herr.
      destruct (update_record r start_str end_str duration) as [r'|e0]; [discriminate|].
      intros [= <-]. split; [|destruct (Herr e0 eq_refl); auto].
      destruct (addable r); [|reflexivity].
      destruct Hadd as [_ Hadd]. destruct (Hadd eq_refl) as [? ?]. discriminate.
    + destruct (decide (game = game)) as [_|?]; [|congruence]. discriminate.
  - destruct (decide (date = date)) as [_|?]; [|congruence].
    cbn [dict_setdefault dict_get app].
    destruct (decide (game = game)) as [_|?]; [|congruence]. discriminate.
Qed.

Lemma loaded_data_file s s' : data_file s' = data_file s -> loaded s' = loaded s.
Proof. intros H. unfold loaded. rewrite H. reflexivity. Qed.

End MoreStore.

(** X5: the merge of [_record] (lines 178 to 191) succeeds exactly on a
    document that is an object in which the date is absent or an object, in
    which the game is absent or an object whose ["total"] is a number;
    otherwise it raises [AttributeError], [TypeError] or [KeyError]. *)
Theorem merge_succeeds_exactly_when `{RT : Runtime} (doc : JSON Float)
    (date game start_str end_str : string) (duration : Z) :
  ((exists doc', merge_session doc date game start_str end_str duration = Return doc') <->
   mergeable date game doc = true) /\
  (forall e,
      merge_session doc date game start_str end_str duration = Raise e ->
      exc_class e = AttributeError \/ exc_class e = TypeError \/ exc_class e = KeyError).
Proof.
  unfold merge_session, mergeable.
  destruct doc as [| | | | | |top];
    try (split; [split; [intros [? ?]|]; discriminate | intros e [= <-]; auto]).
  rewrite dict_get_setdefault.
  destruct (dict_get date top) as [[| | | | | |day]|] eqn:Hd;
    try (split; [split; [intros [? ?]|]; discriminate | intros e [= <-]; auto]).
  - rewrite dict_get_setdefault.
    destruct (dict_get game day) as [r|] eqn:Hr.
    + pose proof (update_record_addable r start_str end_str duration) as Hadd.
      pose proof (update_record_error r start_str end_str duration) as Herr.
      destruct (update_record r start_str end_str duration) as [r'|e0].
      * split; [|discriminate]. split; [intros _; apply Hadd; eauto | eauto].
      * split.
        -- split; [intros [? ?]; discriminate|].
           intros H. apply Hadd in H. destruct H as [? ?]. discriminate.
        -- intros e [= <-]. destruct (Herr e0 eq_refl); auto.
    + destruct (decide (game = game)) as [_|?]; [|congruence].
      split; [split; eauto | discriminate].
  - destruct (decide (date = date)) as [_|?]; [|congruence].
    cbn [dict_setdefault dict_get app].
    destruct (decide (game = game)) as [_|?]; [|congruence].
    split; [split; eauto | discriminate].
Qed.

(** X6: what [_save] wrote, [_load] reads back: when the write succeeds and
    the codec reads the text of a document back as that document, [_load]
    after [_save] returns it, and neither logs anything. *)
Theorem save_then_load `{RT : Runtime} (self : Watcher) (data : JSON Float) (s : State) :
  data_dir s = DirPresent ->
  write_outcomes s (writes s) = WriteOk ->
  json_loads (json_dumps data) = Return data ->
  exists s1,
    _save self data s = (Return tt, s1) /\
    _load self s1 = (Return data, s1) /\
    console s1 = console s /\ running s1 = running s.
Proof.
  intros Hdir Hw Hround. rewrite _save_eq, Hdir, Hw. eexists. split; [reflexivity|].
  rewrite _load_eq. unfold loaded, after_load, load_error. cbn [data_file written].
  rewrite Hround. auto.
Qed.

Lemma save_then_load_witness :
  exists s1,
    _save (RT:=Milli.runtime) Milli.watcher Milli.one_hour (Milli.world 1000 Missing) =
    (Return tt, s1) /\
    _load Milli.watcher s1 = (Return Milli.one_hour, s1).
Proof.
  destruct (save_then_load (RT:=Milli.runtime) Milli.watcher Milli.one_hour
              (Milli.world 1000 Missing) eq_refl eq_refl)
    as (s1 & Hsave & Hload & _).
  - vm_compute. reflexivity.
  - exists s1. split; assumption.
Defined.

(** X7: when the data file cannot be loaded (missing, unreadable, rejected
    by the codec), [_record] logs the warning, merges the session into the
    empty document and saves that: after a successful write the file holds
    the new session and nothing of what it held. *)
Theorem failed_load_starts_afresh `{RT : Runtime} (self : Watcher) (exe : string) (g : Game)
    (start_ts : Float) (duration : Z) (s : State) (e : Exc) :
  games self !! exe = Some g ->
  load_error s = Some e ->
  data_dir s = DirPresent ->
  write_outcomes s (writes s) = WriteOk ->
  exists s',
    _record self exe start_ts duration s = (Return tt, s') /\
    (exists t, Printed t (MsgLoadWarning e) ∈ console s') /\
    data_file s' =
    Content (json_dumps
               (JDict [(today_of s,
                        JDict [(name g,
                                JDict [("total", JInt duration);
                                       ("last_open",
                                        JStr (strftime_full (fromtimestamp start_ts)));
                                       ("last_close", JStr (closed_at s))])])])).
Proof.
  intros Hg Herr Hdir Hw. rewrite (_record_eq self exe g start_ts duration s Hg). cbv zeta.
  assert (Hdoc : loaded s = JDict []).
  { revert Herr. unfold load_error, loaded. destruct (data_file s); try reflexivity.
    destruct (json_loads text); [discriminate | reflexivity]. }
  rewrite Hdoc, merge_into_empty.
  rewrite _save_eq. cbn [data_dir writes write_outcomes tick_clock].
  rewrite after_load_data_dir, after_load_writes, after_load_write_outcomes.
  rewrite logged_data_dir, logged_writes, logged_write_outcomes.
  cbn [data_dir writes write_outcomes tick_clock]. rewrite Hdir, Hw.
  eexists. split; [reflexivity|]. split; [|reflexivity].
  cbn [console written tick_clock]. unfold after_load.
  assert (He : load_error (logged self (MsgShutdown exe (name g) duration) (tick_clock s))
               = Some e).
  { unfold load_error in *. rewrite logged_data_file. exact Herr. }
  rewrite He.
  destruct (logged_console self (MsgLoadWarning e)
              (logged self (MsgShutdown exe (name g) duration) (tick_clock s)))
    as (t & rest & -> & _).
  exists t. apply elem_of_app. right. left.
Qed.

Lemma failed_load_starts_afresh_witness :
  data_file (snd (_record (RT:=Milli.runtime) Milli.watcher "game.exe" (Milli.t0 - 60000) 60
                    (Milli.world 1000 (Content "{ not json")))) =
  Content (Milli.dumps
             (JDict [("2024-01-01",
                      JDict [("Game",
                              JDict [("total", JInt 60);
                                     ("last_open", JStr "2024-01-01 23:58:50");
                                     ("last_close", JStr "2024-01-01 23:59:50")])])])).
Proof.
  destruct (failed_load_starts_afresh (RT:=Milli.runtime) Milli.watcher "game.exe"
              (mkGame "Game" "1" "/x/game.exe") (Milli.t0 - 60000) 60
              (Milli.world 1000 (Content "{ not json")) (Milli.bad "Expecting value")
              eq_refl eq_refl eq_refl eq_refl)
    as (s' & Hrun & _ & Hfile).
  apply (f_equal snd) in Hrun. cbn [snd] in Hrun. rewrite Hrun, Hfile. reflexivity.
Defined.

(** X8: merging a session into an existing record changes its ["total"],
    ["last_open"] and ["last_close"] and leaves every other field of the
    record as it was. *)
Theorem merge_keeps_other_fields `{RT : Runtime} (doc doc' r : JSON Float)
    (date game start_str end_str : string) (duration : Z) :
  merge_session doc date game start_str end_str duration = Return doc' ->
  doc_get date game doc = Some r ->
  exists r',
    doc_get date game doc' = Some r' /\
    forall field,
      field <> "total" -> field <> "last_open" -> field <> "last_close" ->
      record_field field r' = record_field field r.
Proof.
  intros Hm Hget.
  destruct (merge_session_shape _ _ _ _ _ _ _ Hm)
    as (top & day & r0 & r' & -> & Hday & Hr & Hu & ->).
  cbn [doc_get] in Hget.
  destruct Hday as [Hday|[Hday ->]]; rewrite Hday in Hget; [|discriminate].
  rewrite dict_get_setdefault, Hget in Hr. injection Hr as <-.
  exists r'. cbn [doc_get]. rewrite dict_get_set_eq, dict_get_set_eq.
  split; [reflexivity|]. intros field H1 H2 H3.
  revert Hu. unfold update_record. destruct r as [| | | | | |kvs]; try discriminate.
  destruct (dict_get "total" kvs) as [total|]; [|discriminate].
  destruct (add_duration total duration) as [total'|e]; [|discriminate].
  intros [= <-]. cbn [record_field]. rewrite !dict_get_set_ne by congruence. reflexivity.
Qed.

Lemma merge_keeps_other_fields_witness :
  exists r' : JSON Z,
    doc_get (RT:=Milli.runtime) "2024-01-01" "Game"
      (JDict [("2024-01-01",
               JDict [("Game", JDict [("note", JStr "co-op"); ("total", JInt 7);
                                      ("last_open", JNull); ("last_close", JNull)])])])
    = Some (JDict [("note", JStr "co-op"); ("total", JInt 7);
                   ("last_open", JNull); ("last_close", JNull)]) /\
    record_field (RT:=Milli.runtime) "note" r' = Some (JStr "co-op") /\
    record_total (RT:=Milli.runtime) r' = Some 10.
Proof.
  destruct (merge_keeps_other_fields (RT:=Milli.runtime)
              (JDict [("2024-01-01",
                       JDict [("Game", JDict [("note", JStr "co-op"); ("total", JInt 7);
                                              ("last_open", JNull); ("last_close", JNull)])])])
              (JDict [("2024-01-01",
                       JDict [("Game", JDict [("note", JStr "co-op"); ("total", JInt 10);
                                              ("last_open", JStr "a"); ("last_close", JStr "b")])])])
              (JDict [("note", JStr "co-op"); ("total", JInt 7);
                      ("last_open", JNull); ("last_close", JNull)])
              "2024-01-01" "Game" "a" "b" 3 eq_refl eq_refl)
    as (r' & Hget & Hkeep).
  exists r'. split; [reflexivity|]. split.
  - rewrite (Hkeep "note") by discriminate. reflexivity.
  - injection Hget as <-. reflexivity.
Defined.

(** X9: the merge keeps the order of the document: the dates that were
    there keep their places and a new date goes last, and likewise the
    games under the date. *)
Theorem merge_keeps_order `{RT : Runtime} (top : list (string * JSON Float))
    (doc' : JSON Float) (date game start_str end_str : string) (duration : Z) :
  merge_session (JDict top) date game start_str end_str duration = Return doc' ->
  exists top' day day',
    doc' = JDict top' /\
    dict_keys top' = dict_keys top ++ (if dict_get date top is Some _ then [] else [date]) /\
    day_get date (JDict top) = (if dict_get date top is Some _ then Some (JDict day) else None) /\
    (dict_get date top = None -> day = []) /\
    dict_get date top' = Some (JDict day') /\
    dict_keys day' = dict_keys day ++ (if dict_get game day is Some _ then [] else [game]).
Proof.
  intros Hm.
  destruct (merge_session_shape _ _ _ _ _ _ _ Hm)
    as (top0 & day & r0 & r' & Heq & Hday & Hr & Hu & ->).
  injection Heq as <-.
  exists (dict_set date (JDict (dict_set game r' (dict_setdefault game new_record day)))
            (dict_setdefault date (JDict []) top)),
    day, (dict_set game r' (dict_setdefault game new_record day)).
  split; [reflexivity|].
  split.
  { rewrite dict_keys_set_old, dict_keys_setdefault; [reflexivity|].
    rewrite dict_get_setdefault. destruct (dict_get date top); [eauto|].
    destruct (decide (date = date)); [eauto | congruence]. }
  split; [destruct Hday as [H|[H _]]; cbn [day_get]; rewrite H; reflexivity|].
  split; [destruct Hday as [H|[_ H]]; [rewrite H; discriminate | auto]|].
  split; [apply dict_get_set_eq|].
  rewrite dict_keys_set_old, dict_keys_setdefault; [reflexivity | rewrite Hr; eauto].
Qed.

Lemma merge_keeps_order_witness :
  exists top' : list (string * JSON Z),
    merge_session (RT:=Milli.runtime) Milli.one_hour "2024-01-02" "Game" "a" "b" 5 =
    Return (JDict top') /\
    dict_keys top' = ["2024-01-01"; "2024-01-02"].
Proof.
  destruct (merge_keeps_order (RT:=Milli.runtime)
              [("2024-01-01",
                JDict [("Game", JDict [("total", JInt 3600);
                                       ("last_open", JStr "2024-01-01 10:00:00");
                                       ("last_close", JStr "2024-01-01 11:00:00")])])]
              (JDict [("2024-01-01",
                       JDict [("Game", JDict [("total", JInt 3600);
                                              ("last_open", JStr "2024-01-01 10:00:00");
                                              ("last_close", JStr "2024-01-01 11:00:00")])]);
                      ("2024-01-02",
                       JDict [("Game", JDict [("total", JInt 5); ("last_open", JStr "a");
                                              ("last_close", JStr "b")])])])
              "2024-01-02" "Game" "a" "b" 5 eq_refl)
    as (top' & day & day' & Hdoc & Hkeys & _).
  injection Hdoc as Hdoc. exists top'. split; [rewrite <- Hdoc; reflexivity | exact Hkeys].
Defined.

(** X10: [__init__] returns normally exactly when the data directory is
    there or can be made and, the data file missing, the write of the empty
    document succeeds; otherwise it raises, nothing having been logged. *)
Theorem init_raises_exactly_when `{RT : Runtime} (self : Watcher) (s : State)
    (r : Outcome unit) (s' : State) :
  __init__ self s = (r, s') ->
  (r = Return tt <->
   (forall e, data_dir s <> DirBlocked e) /\
   (data_file s = Missing -> write_outcomes s (writes s) = WriteOk)) /\
  (r <> Return tt -> console s' = console s).
Proof.
  rewrite init_eq.
  destruct (data_dir s) eqn:Hd; destruct (data_file s) eqn:Hf;
    try destruct (write_outcomes s (writes s)) eqn:Hw;
    cbv beta iota zeta; intros [= <- <-];
    (split;
     [split;
      [intros H; first [discriminate H | split; [discriminate | intros; congruence]]
      |intros [H1 H2];
       first [reflexivity | exfalso; eapply H1; reflexivity
             | specialize (H2 eq_refl); discriminate]]
     |intros H; first [exfalso; apply H; reflexivity | reflexivity]]).
Qed.

Lemma init_raises_exactly_when_witness :
  fst (__init__ Milli.watcher (Milli.failing Milli.read_only Missing)) <> Return tt /\
  console (snd (__init__ Milli.watcher (Milli.failing Milli.read_only Missing))) = [].
Proof.
  destruct (init_raises_exactly_when Milli.watcher (Milli.failing Milli.read_only Missing)
              _ _ (surjective_pairing _)) as [Hiff Hquiet].
  assert (Hfail : fst (__init__ Milli.watcher (Milli.failing Milli.read_only Missing))
                  <> Return tt).
  { intros H. apply Hiff in H. destruct H as [_ H]. specialize (H eq_refl). discriminate. }
  split; [exact Hfail | exact (Hquiet Hfail)].
Defined.

Section MoreStop.
Context `{RT : Runtime}.
Implicit Types (self : Watcher) (s : State) (exe : string) (nr : gset string).

Lemma dict_keys_get {V} (d : list (string * V)) k : k ∈ dict_keys d -> is_Some (dict_get k d).
Proof.
  intros Hk. destruct (dict_get k d) eqn:Hd; [eauto|].
  apply dict_get_None_keys in Hd. contradiction.
Qed.

(** The second loop raises on one filename only when the merge of its
    session does: the filename has left [self.running] by then, and
    nothing was written. *)
Lemma stop_proc_raise self exe nr s e s' :
  NoDup (dict_keys (running s)) -> in_catalog self s ->
  is_Some (dict_get exe (running s)) ->
  stop_proc self exe nr s = (Raise e, s') ->
  exists g date,
    games self !! exe = Some g /\
    running s' = dict_del exe (running s) /\
    same_disk s s' /\
    mergeable date (name g) (loaded s') = false /\
    (exc_class e = AttributeError \/ exc_class e = TypeError \/ exc_class e = KeyError).
Proof.
  intros Hnd Hcat [start_ts Hget]. unfold stop_proc.
  destruct (decide (exe ∈ nr)); [discriminate|].
  unfold bind at 1, running_pop. rewrite Hget.
  destruct (Hcat exe) as [g Hg]; [eapply dict_get_Some_keys, Hget|].
  unfold bind at 1, time_time at 1.
  cbn [running clock clock_reads set_running tick_clock].
  rewrite (_record_eq self exe g _ _ _ Hg). cbv zeta.
  set (sb := tick_clock (set_running (dict_del exe (running s)) s)).
  destruct (merge_session (loaded sb) (today_of sb) (name g)
              (strftime_full (fromtimestamp start_ts)) (closed_at sb)
              (py_int (fsub (clock s (clock_reads s)) start_ts))) as [doc'|e0] eqn:Hm.
  { rewrite _save_eq. discriminate. }
  intros [= <- <-]. apply merge_session_refused in Hm. destruct Hm as [Hm Hcls].
  set (msg := MsgShutdown exe (name g) (py_int (fsub (clock s (clock_reads s)) start_ts))).
  assert (Hdisk : same_disk s (tick_clock (after_load self (logged self msg (tick_clock sb))))).
  { unfold same_disk. cbn [data_file data_dir writes write_outcomes tick_clock].
    rewrite after_load_data_file, after_load_data_dir, after_load_writes,
      after_load_write_outcomes, logged_data_file, logged_data_dir, logged_writes,
      logged_write_outcomes. repeat split. }
  exists g, (today_of sb). split; [exact Hg|]. split.
  { cbn [running tick_clock]. unfold after_load.
    destruct (load_error _); rewrite ?logged_running; reflexivity. }
  split; [exact Hdisk|]. split; [|exact Hcls].
  rewrite (loaded_data_file sb); [exact Hm|]. apply Hdisk.
Qed.

Lemma stop_loop_raise self nr exes s e s' :
  NoDup exes -> (forall k, k ∈ exes -> is_Some (dict_get k (running s))) ->
  NoDup (dict_keys (running s)) -> in_catalog self s ->
  stop_loop self exes nr s = (Raise e, s') ->
  exists exe g date,
    exe ∈ exes /\ games self !! exe = Some g /\
    dict_get exe (running s') = None /\
    mergeable date (name g) (loaded s') = false /\
    (exc_class e = AttributeError \/ exc_class e = TypeError \/ exc_class e = KeyError).
Proof.
  revert s. induction exes as [|exe0 exes IH]; intros s Hnd0 Hkeys Hnd Hcat; simpl stop_loop.
  { discriminate. }
  apply NoDup_cons in Hnd0. destruct Hnd0 as [Hnot Hnd0].
  unfold bind. destruct (stop_proc self exe0 nr s) as [[[]|e1] s1] eqn:Hp.
  - intros Hl.
    destruct (stop_proc_frame self exe0 nr s _ s1 Hcat Hp) as (_ & _ & _ & Hnd1 & Hcat1).
    destruct (IH s1 Hnd0) as (exe & g & date & Hin & Hrest); [|auto|auto|exact Hl|].
    + intros k Hk.
      destruct (stop_proc_run self exe0 nr s Hcat) as (r2 & s2 & Heq & Hcase).
      rewrite Hp in Heq. injection Heq as <- <-.
      destruct Hcase as [->|(_ & ts & g & _ & _ & Hsil)];
        [apply Hkeys; right; exact Hk|].
      destruct Hsil as [-> _]. rewrite logged_running.
      cbn [running set_running tick_clock].
      rewrite dict_get_del_ne; [apply Hkeys; right; exact Hk|].
      intros ->. contradiction.
    + exists exe, g, date. split; [right; exact Hin | exact Hrest].
  - intros [= <- <-].
    destruct (stop_proc_raise self exe0 nr s e1 s1 Hnd Hcat) as (g & date & Hg & Hr & _ & Hm & Hc);
      [apply Hkeys; left | exact Hp|].
    exists exe0, g, date. split; [left|]. split; [exact Hg|]. split; [|auto].
    rewrite Hr. apply dict_get_del_eq, Hnd.
Qed.

End MoreStop.

(** X11: [tick] raises only when the stored document refuses the merge of
    a session that has ended: by then the game has left [self.running] and
    its stop event is printed, so its session is recorded nowhere. The
    exception is an [AttributeError], a [TypeError] or a [KeyError]. *)
Theorem refused_merge_loses_session `{RT : Runtime} (self : Watcher) (procs : list Proc)
    (s s' : State) (e : Exc) :
  reachable self s ->
  tick self procs s = (Raise e, s') ->
  (exc_class e = AttributeError \/ exc_class e = TypeError \/ exc_class e = KeyError) /\
  exists exe g date,
    games self !! exe = Some g /\
    is_Some (dict_get exe (running s)) /\ ~ observed exe procs /\
    mergeable date (name g) (loaded s') = false /\
    dict_get exe (running s') = None /\
    nstop exe (console s') = S (nstop exe (console s)).
Proof.
  intros Hreach Hrun. destruct (reachable_consistent self s Hreach) as (Hnd & Hcat & Hbal).
  destruct (tick_phases self procs s Hnd Hcat)
    as (r0 & s0 & nr & s1 & Heq & Hscan & Hnd1 & Hcat1 & Hframe & Hstop).
  rewrite Hrun in Heq. injection Heq as <- <-.
  destruct (scan_loop_run self procs ∅ s) as (nr' & s1' & Hsl & _).
  pose proof (tick_unfold self procs s nr' s1' Hsl) as Hu. rewrite Hrun in Hu.
  assert (Hphase : exists nr2 s2, (forall exe, scan_effect self exe (observed exe procs) ∅ nr2 s s2)
            /\ NoDup (dict_keys (running s2)) /\ in_catalog self s2
            /\ stop_loop self (dict_keys (running s2)) nr2 s2 = (Raise e, s')
            /\ (forall exe, stop_effect self exe (dict_keys (running s2)) nr2 s2 s')).
  { destruct (scan_loop_run self procs ∅ s) as (nr2 & s2 & Hsl2 & Heff2).
    rewrite Hsl in Hsl2. injection Hsl2 as <- <-.
    destruct (scan_loop_keys self procs ∅ s nr' s1' Hsl Hnd Hcat) as [Hnd2 Hcat2].
    exists nr', s1'. split; [exact Heff2|]. split; [exact Hnd2|]. split; [exact Hcat2|].
    split; [symmetry; exact Hu|].
    destruct (stop_loop_run self nr' (dict_keys (running s1')) s1' Hnd2 Hcat2)
      as (r3 & s3 & Hl3 & _ & Heff3).
    rewrite <- Hu in Hl3. injection Hl3 as <- <-. exact Heff3. }
  clear Hscan Hnd1 Hcat1 Hframe Hstop. 
  destruct Hphase as (nr2 & s2 & Hscan & Hnd2 & Hcat2 & Hloop & Hstop).
  destruct (stop_loop_raise self nr2 (dict_keys (running s2)) s2 e s' Hnd2
              (fun k Hk => dict_keys_get _ k Hk) Hnd2 Hcat2 Hloop)
    as (exe & g & date & Hin & Hg & Hgone & Hm & Hcls).
  split; [exact Hcls|]. exists exe, g, date.
  destruct (dict_keys_get _ _ Hin) as [ts Hts].
  destruct (Hstop exe) as [[Hsame _]|(_ & Hout & g' & ts' & i & t & new1 & new2 &
                                      _ & _ & _ & _ & Hcon & Hn1 & Hn2)];
    [congruence|].
  destruct (Hscan exe) as (_ & _ & (new0 & Hnew0 & Hq0) & Hin_nr & Hd).
  assert (Hunseen : ~ observed exe procs).
  { intros Ho. apply Hout, Hin_nr. right. split; [exact Ho | rewrite Hg; eauto]. }
  split; [exact Hg|]. split.
  { destruct (dict_get exe (running s)) as [ts0|]; [eauto|].
    destruct Hd as [_ Hb]. destruct Hb as [Hb _]; [tauto | congruence]. }
  split; [exact Hunseen|]. split; [exact Hm|]. split; [exact Hgone|].
  rewrite Hcon, Hnew0, !nstop_app, nstop_cons, Hn1, Hn2, (nstop_none exe new0 Hq0).
  simpl is_stop. rewrite bool_decide_eq_true_2 by reflexivity. lia.
Qed.

Lemma run_then_world `{RT : Runtime} (self : Watcher) scans (s s1 s2 : State) :
  run self scans s s1 -> running s2 = running s1 -> console s2 = console s1 ->
  run self scans s s2.
Proof.
  intros Hrun Hr Hc. induction Hrun as [s|scans s s0 s' Hr0 Hc0 Hrun IH|procs scans s r s0 s' Ht Hrun IH].
  - eapply run_world; [exact Hr | exact Hc | apply run_done].
  - eapply run_world; [exact Hr0 | exact Hc0 | apply IH; assumption].
  - eapply run_tick; [exact Ht | apply IH; assumption].
Defined.

Lemma edited_reachable `{RT : Runtime} (self : Watcher) (f : FileState) (s : State) :
  reachable self s -> reachable self (edited f s).
Proof.
  intros (s0 & s1 & scans & Hc & Hi & Hrun). exists s0, s1, scans.
  split; [exact Hc|]. split; [exact Hi|].
  eapply run_then_world; [exact Hrun | reflexivity | reflexivity].
Defined.

Lemma refused_merge_loses_session_witness :
  exists (exe : string) (g : Game) (date : string),
    games Milli.watcher !! exe = Some g /\
    is_Some (dict_get exe (running (edited (Content "[]") Milli.playing))) /\
    ~ observed (RT:=Milli.runtime) exe [] /\
    mergeable (RT:=Milli.runtime) date (name g)
      (loaded (snd (tick Milli.watcher [] (edited (Content "[]") Milli.playing)))) = false /\
    dict_get exe (running (snd (tick Milli.watcher [] (edited (Content "[]") Milli.playing))))
    = None /\
    nstop exe (console (snd (tick Milli.watcher [] (edited (Content "[]") Milli.playing)))) =
    S (nstop exe (console (edited (Content "[]") Milli.playing))).
Proof.
  assert (He : exists e, fst (tick Milli.watcher [] (edited (Content "[]") Milli.playing))
                         = Raise e).
  { vm_compute. eexists. reflexivity. }
  destruct He as [e He].
  refine (proj2 (refused_merge_loses_session Milli.watcher []
                   (edited (Content "[]") Milli.playing) _ e
                   (edited_reachable _ _ _ playing_reachable) _)).
  rewrite <- He. apply surjective_pairing.
Defined.

Section MoreSessions.
Context `{RT : Runtime}.

Lemma filter_passed_over (self : Watcher) (procs : list Proc) :
  Forall (fun p => passed_over self p = true) procs ->
  List.filter (fun p => negb (passed_over self p)) procs = [].
Proof.
  induction 1 as [|p procs Hp _ IH]; [reflexivity|]. simpl. rewrite Hp. exact IH.
Qed.

End MoreSessions.

(** X12: a game is the only one running and a tick sees nothing of the
    catalog: when the stored document accepts the merge and the write
    succeeds, the tick returns, [self.running] is empty and the data file
    holds the loaded document merged with the session. The duration is the
    first clock reading of the tick minus the start time, truncated;
    ["last_close"] is formatted from the next reading and the date from a
    later one. *)
Theorem closed_game_is_recorded `{RT : Runtime} (self : Watcher) (procs : list Proc)
    (exe : string) (g : Game) (start_ts : Float) (s : State) :
  games self !! exe = Some g ->
  running s = [(exe, start_ts)] ->
  Forall (fun p => passed_over self p = true) procs ->
  mergeable (today_of (tick_clock s)) (name g) (loaded s) = true ->
  data_dir s = DirPresent -> write_outcomes s (writes s) = WriteOk ->
  exists s' doc',
    tick self procs s = (Return tt, s') /\
    running s' = [] /\
    merge_session (loaded s) (today_of (tick_clock s)) (name g)
      (strftime_full (fromtimestamp start_ts)) (closed_at (tick_clock s))
      (py_int (fsub (clock s (clock_reads s)) start_ts)) = Return doc' /\
    data_file s' = Content (json_dumps doc') /\
    nstop exe (console s') = S (nstop exe (console s)).
Proof.
  intros Hg Hrun Hprocs Hm Hdir Hw.
  unfold tick. unfold bind at 1.
  rewrite scan_loop_filter, (filter_passed_over self procs Hprocs).
  simpl scan_loop. unfold ret at 1.
  unfold bind at 1, get at 1. rewrite Hrun. cbn [dict_keys fmap list_fmap fst].
  simpl stop_loop. unfold bind at 1. unfold stop_proc.
  destruct (decide (exe ∈ (∅ : gset string))) as [Hin|_]; [set_solver|].
  unfold bind at 1, running_pop. rewrite Hrun. cbn [dict_get].
  destruct (decide (exe = exe)) as [_|?]; [|congruence]. cbn [dict_del].
  destruct (decide (exe = exe)) as [_|?]; [|congruence].
  unfold bind at 1, time_time at 1. cbn [clock clock_reads set_running].
  rewrite (_record_eq self exe g _ _ _ Hg). cbv zeta.
  set (sb := tick_clock (set_running [] s)).
  assert (Hl : loaded sb = loaded s) by reflexivity.
  assert (Ht : today_of sb = today_of (tick_clock s)) by reflexivity.
  assert (Hc : closed_at sb = closed_at (tick_clock s)) by reflexivity.
  rewrite Hl, Ht, Hc.
  destruct (merge_session (loaded s) (today_of (tick_clock s)) (name g)
              (strftime_full (fromtimestamp start_ts)) (closed_at (tick_clock s))
              (py_int (fsub (clock s (clock_reads s)) start_ts))) as [doc'|e] eqn:Hdoc.
  2:{ apply merge_session_refused in Hdoc. destruct Hdoc as [Hdoc _]. congruence. }
  rewrite _save_eq.
  set (msg := MsgShutdown exe (name g) (py_int (fsub (clock s (clock_reads s)) start_ts))).
  cbn [data_dir writes write_outcomes tick_clock].
  rewrite after_load_data_dir, after_load_writes, after_load_write_outcomes,
    logged_data_dir, logged_writes, logged_write_outcomes.
  assert (Hdir' : data_dir (tick_clock sb) = DirPresent) by exact Hdir.
  assert (Hw' : write_outcomes (tick_clock sb) (writes (tick_clock sb)) = WriteOk) by exact Hw.
  rewrite Hdir', Hw'.
  unfold ret. do 2 eexists. split; [reflexivity|].
  split.
  { cbn [running written tick_clock]. unfold after_load.
    destruct (load_error _); rewrite ?logged_running; reflexivity. }
  split; [reflexivity|]. split; [reflexivity|].
  cbn [console written tick_clock].
  destruct (logged_console self msg (tick_clock sb)) as (t & rest & Hcon & Hrest & Hcount).
  assert (Hal : exists new, console (after_load self (logged self msg (tick_clock sb))) =
                            console (logged self msg (tick_clock sb)) ++ new /\
                            Forall (fun l => is_event l = false) new).
  { unfold after_load. destruct (load_error _).
    - eapply silent_logged. reflexivity.
    - exists []. split; [symmetry; apply app_nil_r | constructor]. }
  destruct Hal as (new & -> & Hq). rewrite Hcon. cbn [console tick_clock set_running].
  rewrite !nstop_app, nstop_cons. destruct (Hcount exe) as [_ ->].
  rewrite (nstop_none exe new); [|apply quiet_no_shutdown, Hq].
  change (console sb) with (console s). unfold msg. simpl is_stop.
  rewrite bool_decide_eq_true_2 by reflexivity. lia.
Qed.

Lemma closed_game_is_recorded_witness :
  exists doc' : JSON Z,
    data_file (snd (tick Milli.watcher [ProcInfo None None] Milli.playing)) =
    Content (Milli.dumps doc') /\
    prior_total (RT:=Milli.runtime) "2024-01-01" "Game" doc' = Some 2.
Proof.
  destruct (closed_game_is_recorded (RT:=Milli.runtime) Milli.watcher [ProcInfo None None]
              "game.exe" (mkGame "Game" "1" "/x/game.exe") 1704153593000 Milli.playing)
    as (s' & doc' & Hrun & _ & Hm & Hfile & _).
  - reflexivity.
  - vm_compute. reflexivity.
  - repeat constructor.
  - vm_compute. reflexivity.
  - vm_compute. reflexivity.
  - reflexivity.
  - apply (f_equal snd) in Hrun. cbn [snd] in Hrun. subst s'.
    exists doc'. split; [exact Hfile|].
    vm_compute in Hm. injection Hm as <-. vm_compute. reflexivity.
Defined.

Lemma string_app_assoc (a b c : string) : (a +:+ b) +:+ c = a +:+ (b +:+ c).
Proof.
  induction a as [|x a IH]; [reflexivity|].
  change (String x ((a +:+ b) +:+ c) = String x (a +:+ (b +:+ c))). rewrite IH. reflexivity.
Qed.

Lemma string_app_nil_r (a : string) : a +:+ "" = a.
Proof.
  induction a as [|x a IH]; [reflexivity|].
  change (String x (a +:+ "") = String x a). rewrite IH. reflexivity.
Qed.

(** X13: [format_playtime] on a duration made of [h] hours, [m] minutes
    and [sec] seconds shows these three numbers: hours and minutes when
    there are hours, minutes when there are none, and the seconds unless
    they are zero and something else is shown. *)
Theorem format_playtime_of_parts (h m sec : Z) :
  0 <= h -> 0 <= m < 60 -> 0 <= sec < 60 ->
  format_playtime (ArgInt (3600 * h + 60 * m + sec)) =
  ((if 0 <? h then pretty h +:+ "h" +:+ pretty m +:+ "m"
    else if 0 <? m then pretty m +:+ "m" else "")
   +:+ (if (sec =? 0) && ((0 <? h) || (0 <? m)) then "" else pretty sec +:+ "s")).
Proof.
  intros Hh Hm Hs. unfold format_playtime. cbn [as_int].
  assert (Hq : (3600 * h + 60 * m + sec) / 3600 = h).
  { symmetry. apply (Z.div_unique _ 3600 h (60 * m + sec)); lia. }
  assert (Hr : (3600 * h + 60 * m + sec) mod 3600 = 60 * m + sec).
  { symmetry. apply (Z.mod_unique _ 3600 h (60 * m + sec)); lia. }
  assert (Hq' : (60 * m + sec) / 60 = m).
  { symmetry. apply (Z.div_unique _ 60 m sec); lia. }
  assert (Hr' : (60 * m + sec) mod 60 = sec).
  { symmetry. apply (Z.mod_unique _ 60 m sec); lia. }
  assert (Hneg : (3600 * h + 60 * m + sec <? 0) = false) by (apply Z.ltb_ge; lia).
  rewrite Hneg. cbv zeta. rewrite Hq, Hr, Hq', Hr'.
  destruct (0 <? h); [|destruct (0 <? m)]; destruct (sec =? 0); cbn [andb orb];
    rewrite ?string_app_assoc, ?string_app_nil_r; reflexivity.
Qed.

Lemma format_playtime_of_parts_witness : format_playtime (ArgInt 7384) = "2h3m4s".
Proof. apply (format_playtime_of_parts 2 3 4); lia. Defined.


(** ** The tray and the window *)

(** *** Sorting *)

Section Sorting.
Context {A : Type}.
Implicit Types (l : list (Z * A)) (k : Z) (x : A).

Lemma insert_desc_perm k x l : insert_desc k x l ≡ₚ (k, x) :: l.
Proof.
  induction l as [|[k' y] l IH]; simpl; [reflexivity|].
  destruct (k <? k'); [|reflexivity].
  rewrite IH. apply Permutation_swap.
Qed.

Lemma sort_desc_perm l : sort_desc l ≡ₚ l.
Proof.
  induction l as [|[k x] l IH]; simpl; [reflexivity|].
  rewrite insert_desc_perm, IH. reflexivity.
Qed.

Lemma insert_desc_sorted k x l :
  StronglySorted (fun a b => b.1 <= a.1) l ->
  StronglySorted (fun a b => b.1 <= a.1) (insert_desc k x l).
Proof.
  induction 1 as [|[k' y] l Hs IH Hall]; simpl.
  - repeat constructor.
  - destruct (k <? k') eqn:Hk.
    + apply Z.ltb_lt in Hk. constructor; [exact IH|].
      rewrite insert_desc_perm. constructor; [simpl; lia | exact Hall].
    + apply Z.ltb_ge in Hk. constructor; [constructor; assumption|].
      constructor; [simpl; lia|].
      eapply Forall_impl; [exact Hall|]. intros [k'' z] Hz. simpl in *. lia.
Qed.

Lemma sort_desc_sorted l : StronglySorted (fun a b => b.1 <= a.1) (sort_desc l).
Proof.
  induction l as [|[k x] l IH]; simpl; [constructor | apply insert_desc_sorted, IH].
Qed.

(** The sort is stable: the items of one key keep their order. *)
Lemma insert_desc_stable k x l k0 :
  List.filter (fun a => a.1 =? k0) (insert_desc k x l) =
  List.filter (fun a => a.1 =? k0) ((k, x) :: l).
Proof.
  induction l as [|[k' y] l IH]; [reflexivity|].
  cbn [insert_desc]. destruct (k <? k') eqn:Hk; [|reflexivity].
  apply Z.ltb_lt in Hk. cbn [List.filter fst] in *. rewrite IH.
  destruct (k =? k0) eqn:H1; destruct (k' =? k0) eqn:H2; try reflexivity.
  apply Z.eqb_eq in H1, H2. lia.
Qed.

Lemma sort_desc_stable l k0 :
  List.filter (fun a => a.1 =? k0) (sort_desc l) = List.filter (fun a => a.1 =? k0) l.
Proof.
  induction l as [|[k x] l IH]; [reflexivity|].
  cbn [sort_desc]. rewrite insert_desc_stable. cbn [List.filter fst]. rewrite IH. reflexivity.
Qed.

End Sorting.

(** *** The tray: [get_today_ranking] *)

Section Tray.
Context `{BI : Builtins}.
Implicit Types (u : Ui) (data : JSON Float).

Lemma set_world_same u : set_world (ui_world u) u = u.
Proof. destruct u; reflexivity. Qed.

(** [get_today_ranking] case by case. *)
Lemma get_today_ranking_eq u :
  get_today_ranking u =
  match data_file (ui_world u) with
  | Missing => (Return [], u)
  | Unreadable e =>
    if is_decode_or_os_error e then (Return [], uprinted (RankingWarning e) u)
    else (Raise e, u)
  | Content raw =>
    if decide (str_strip raw = "") then (Return [], u)
    else
      match json_loads (str_strip raw) with
      | Raise e =>
        if is_decode_or_os_error e then (Return [], uprinted (RankingWarning e) u)
        else (Raise e, u)
      | Return data => (ranking_of (ui_today u) data, clock_read u)
      end
  end.
Proof.
  unfold get_today_ranking. unfold ubind at 1. unfold in_world at 1, file_exists, get.
  rewrite set_world_same.
  destruct (data_file (ui_world u)) as [|e|raw] eqn:Hf; cbn [negb].
  - reflexivity.
  - unfold ubind at 1, utry_except. unfold ubind at 1, in_world at 1, read_text.
    rewrite Hf, set_world_same.
    destruct (is_decode_or_os_error e); [|reflexivity].
    unfold ubind at 1, umodify, uret. reflexivity.
  - unfold ubind at 1, utry_except. unfold ubind at 1, in_world at 1, read_text.
    rewrite Hf, set_world_same.
    destruct (decide (str_strip raw = "")) as [Hblank|Hblank]; [reflexivity|].
    unfold ubind at 1, ulift at 1.
    destruct (json_loads (str_strip raw)) as [data|e].
    + unfold uret at 1. unfold ubind at 1, in_world at 1, datetime_now.
      unfold bind at 1, time_time at 1, ret at 1.
      unfold ranking_of, ui_today, clock_read.
      unfold ubind at 1, ulift at 1. destruct (get_day _ data) as [games|e]; [|reflexivity].
      unfold ubind at 1, ulift at 1. destruct (items games) as [l|e]; [|reflexivity].
      unfold ubind at 1, ulift at 1. destruct (keyed l) as [ks|e]; [|reflexivity].
      unfold ubind at 1, ulift at 1. destruct (sorted_reverse ks) as [ordered|e]; reflexivity.
    + destruct (is_decode_or_os_error e); [|reflexivity].
      unfold ubind at 1, umodify, uret. reflexivity.
Qed.

Lemma keyed_rejects l game_name info :
  (game_name, info) ∈ l -> valid_record info = false ->
  exists e, keyed l = Raise e /\ (exc_class e = TypeError \/ exc_class e = KeyError).
Proof.
  intros Hin Hbad. induction l as [|[n i] l IH]; [inversion Hin|].
  cbn [keyed].
  destruct (total_key i) as [k|e] eqn:Hk.
  - assert (Hin' : (game_name, info) ∈ l).
    { apply elem_of_cons in Hin. destruct Hin as [[= <- <-]|Hin]; [|exact Hin].
      exfalso. revert Hk Hbad. unfold total_key, valid_record.
      destruct info as [| | | | | |r]; try discriminate.
      destruct (dict_get "total" r); discriminate. }
    destruct (IH Hin') as (e & -> & He). eauto.
  - exists e. split; [reflexivity|]. revert Hk. unfold total_key.
    destruct i as [| | | | | |r]; try (intros [= <-]; auto).
    destruct (dict_get "total" r); [discriminate | intros [= <-]; auto].
Qed.

Lemma format_playtime_json_int t z :
  json_int t = Some z -> format_playtime (arg_of t) = format_playtime (ArgInt z).
Proof. destruct t; try discriminate; intros [= <-]; reflexivity. Qed.

Lemma keyed_int_totals l :
  Forall (fun item => is_Some (int_total item.2)) l ->
  exists ks, keyed l = Return ks /\
             int_keys ks = Some ((fun item => (rank_total item, item)) <$> l).
Proof.
  induction 1 as [|[n i] l [z Hz] _ IH]; [exists []; split; reflexivity|].
  destruct IH as (ks & Hks & Hint). cbn [keyed]. cbn [snd] in Hz.
  unfold int_total in Hz. unfold total_key.
  destruct i as [| | | | | |r]; try discriminate.
  destruct (dict_get "total" r) as [t|] eqn:Ht; [|discriminate].
  rewrite Hks. eexists. split; [reflexivity|].
  cbn [int_keys fmap list_fmap]. rewrite Hz, Hint. unfold rank_total, int_total. cbn [snd].
  rewrite Ht, Hz. reflexivity.
Qed.

Lemma ranking_loop_app l acc :
  Forall (fun item => is_Some (int_total item.2)) l ->
  ranking_loop l acc =
  acc ++ ((fun item => (item.1, format_playtime (ArgInt (rank_total item)))) <$> l).
Proof.
  intros H. revert acc. induction H as [|[n i] l [z Hz] _ IH]; intros acc.
  - symmetry. apply app_nil_r.
  - cbn [ranking_loop fmap list_fmap]. rewrite IH. cbn [snd fst] in *.
    unfold rank_total at 2. cbn [snd]. rewrite Hz. cbn [default from_option].
    unfold int_total in Hz.
    destruct i as [| | | | | |r]; try discriminate.
    destruct (dict_get "total" r) as [t|]; [|discriminate].
    rewrite (format_playtime_json_int t z Hz), <- app_assoc. reflexivity.
Qed.

(** The items sorted with their keys are the sorted items with theirs. *)
Lemma sort_desc_keyed {A} (key : A -> Z) (l : list A) :
  sort_desc ((fun x => (key x, x)) <$> l) =
  (fun x => (key x, x)) <$> (sort_desc ((fun x => (key x, x)) <$> l)).*2.
Proof.
  assert (H : Forall (fun p => p.1 = key p.2) (sort_desc ((fun x => (key x, x)) <$> l))).
  { rewrite sort_desc_perm. apply Forall_forall. intros p Hp.
    apply list_elem_of_fmap in Hp. destruct Hp as (x & -> & _). reflexivity. }
  induction H as [|[k x] r Hk _ IH]; [reflexivity|].
  cbn [fmap list_fmap snd] in *. rewrite <- IH. cbn in Hk. rewrite Hk. reflexivity.
Qed.

End Tray.

Section Keyed.
Context {A : Type} (key : A -> Z).

Lemma keyed_snd (l : list A) : ((fun x => (key x, x)) <$> l).*2 = l.
Proof. induction l as [|x l IH]; [reflexivity|]. cbn. rewrite IH. reflexivity. Qed.

Lemma keyed_sorted (l : list A) :
  StronglySorted (fun a b : Z * A => b.1 <= a.1) ((fun x => (key x, x)) <$> l) ->
  StronglySorted (fun a b => key b <= key a) l.
Proof.
  induction l as [|x l IH]; [constructor|].
  cbn [fmap list_fmap]. intros H. apply StronglySorted_inv in H. destruct H as [Hs Hall].
  constructor; [apply IH, Hs|].
  apply Forall_forall. intros y Hy. rewrite Forall_forall in Hall.
  apply (Hall (key y, y)). apply (list_elem_of_fmap_2 (fun x => (key x, x)) l y Hy).
Qed.

Lemma keyed_filter (l : list A) z :
  List.filter (fun p : Z * A => p.1 =? z) ((fun x => (key x, x)) <$> l) =
  (fun x => (key x, x)) <$> List.filter (fun x => key x =? z) l.
Proof.
  induction l as [|x l IH]; [reflexivity|].
  cbn [fmap list_fmap List.filter fst]. destruct (key x =? z); cbn [fmap list_fmap];
    rewrite <- IH; reflexivity.
Qed.

(** What the stable descending sort by [key] gives: the same items,
    in descending order of the key, those of one key in the order they
    had. *)
Lemma sort_desc_by_key (l : list A) :
  let ordered := (sort_desc ((fun x => (key x, x)) <$> l)).*2 in
  ordered ≡ₚ l /\
  StronglySorted (fun a b => key b <= key a) ordered /\
  forall z, List.filter (fun x => key x =? z) ordered = List.filter (fun x => key x =? z) l.
Proof.
  intros ordered.
  assert (Hk : sort_desc ((fun x => (key x, x)) <$> l) = (fun x => (key x, x)) <$> ordered)
    by apply sort_desc_keyed.
  split; [|split].
  - unfold ordered. rewrite sort_desc_perm. rewrite keyed_snd. reflexivity.
  - apply keyed_sorted. rewrite <- Hk. apply sort_desc_sorted.
  - intros z.
    rewrite <- (keyed_snd (List.filter (fun x => key x =? z) ordered)).
    rewrite <- (keyed_snd (List.filter (fun x => key x =? z) l)).
    rewrite <- !keyed_filter, <- Hk, sort_desc_stable. reflexivity.
Qed.

End Keyed.

(** X14: without a readable document [get_today_ranking] returns the empty
    list: silently when the data file is missing or blank, after printing a
    warning when reading or decoding it raises [JSONDecodeError], [OSError]
    or a subclass of it. An exception of another class escapes. *)
Theorem ranking_without_document `{BI : Builtins} (u : Ui) :
  tray_document u = None ->
  get_today_ranking u =
  match tray_error u with
  | None => (Return [], u)
  | Some e =>
    if is_decode_or_os_error e then (Return [], uprinted (RankingWarning e) u)
    else (Raise e, u)
  end.
Proof.
  rewrite get_today_ranking_eq. unfold tray_document, tray_error.
  destruct (data_file (ui_world u)) as [|e|raw]; try reflexivity.
  destruct (decide (str_strip raw = "")); [reflexivity|].
  destruct (json_loads (str_strip raw)); [discriminate | reflexivity].
Qed.

Lemma ranking_without_document_witness :
  get_today_ranking (BI:=MilliUi.builtins)
    (MilliUi.desk (Milli.world 1000 (Content " { not json "))) =
  (Return [],
   uprinted (RankingWarning (Milli.bad "Expecting value"))
     (MilliUi.desk (Milli.world 1000 (Content " { not json ")))).
Proof.
  apply (ranking_without_document (BI:=MilliUi.builtins)
           (MilliUi.desk (Milli.world 1000 (Content " { not json ")))).
  reflexivity.
Defined.

(** X15: the loop of [get_today_ranking] tests each record
    ([isinstance(info, dict) and "total" in info]) only after [sorted] has
    taken ["total"] of every record as its key: a record of today that
    fails the test is not skipped, the call raises [TypeError] or
    [KeyError]. *)
Theorem ranking_rejects_malformed_record `{BI : Builtins} (u : Ui) (data : JSON Float)
    (day : list (string * JSON Float)) (game_name : string) (info : JSON Float) :
  tray_document u = Some data ->
  get_day (ui_today u) data = Return (JDict day) ->
  (game_name, info) ∈ day ->
  valid_record info = false ->
  exists e,
    get_today_ranking u = (Raise e, clock_read u) /\
    (exc_class e = TypeError \/ exc_class e = KeyError).
Proof.
  intros Hdoc Hday Hin Hbad. rewrite get_today_ranking_eq.
  revert Hdoc. unfold tray_document.
  destruct (data_file (ui_world u)) as [|e|raw]; try discriminate.
  destruct (decide (str_strip raw = "")); [discriminate|].
  destruct (json_loads (str_strip raw)) as [data'|e]; [|discriminate].
  intros [= ->]. unfold ranking_of. rewrite Hday. cbn [items].
  destruct (keyed_rejects day game_name info Hin Hbad) as (e & -> & He).
  exists e. split; [reflexivity | exact He].
Qed.

Lemma ranking_rejects_malformed_record_witness :
  exists e,
    get_today_ranking (BI:=MilliUi.builtins) MilliUi.spoiled_desk =
    (Raise e, clock_read MilliUi.spoiled_desk) /\
    (exc_class e = TypeError \/ exc_class e = KeyError).
Proof.
  apply (ranking_rejects_malformed_record (BI:=MilliUi.builtins) MilliUi.spoiled_desk
           MilliUi.spoiled_day
           [("Game", JDict [("total", JInt 60)]); ("Other", JInt 5)] "Other" (JInt 5)).
  - vm_compute. reflexivity.
  - vm_compute. reflexivity.
  - right. left.
  - reflexivity.
Defined.

(** X16: when the records of today are objects whose ["total"] is an int,
    [get_today_ranking] lists every game of today once, with its total
    formatted, in descending order of the totals; games of equal totals
    are in the order of the document. *)
Theorem ranking_orders_int_totals `{BI : Builtins} (u : Ui) (data : JSON Float)
    (day : list (string * JSON Float)) :
  tray_document u = Some data ->
  get_day (ui_today u) data = Return (JDict day) ->
  Forall (fun item => is_Some (int_total item.2)) day ->
  exists ordered,
    get_today_ranking u =
      (Return ((fun item => (item.1, format_playtime (ArgInt (rank_total item)))) <$> ordered),
       clock_read u) /\
    ordered ≡ₚ day /\
    StronglySorted (fun a b => rank_total b <= rank_total a) ordered /\
    forall z, List.filter (fun item => rank_total item =? z) ordered =
              List.filter (fun item => rank_total item =? z) day.
Proof.
  intros Hdoc Hday Hint. rewrite get_today_ranking_eq.
  revert Hdoc. unfold tray_document.
  destruct (data_file (ui_world u)) as [|e|raw]; try discriminate.
  destruct (decide (str_strip raw = "")); [discriminate|].
  destruct (json_loads (str_strip raw)) as [data'|e]; [|discriminate].
  intros [= ->]. unfold ranking_of. rewrite Hday. cbn [items].
  destruct (keyed_int_totals day Hint) as (ks & -> & Hks).
  unfold sorted_reverse. rewrite Hks.
  destruct (sort_desc_by_key rank_total day) as (Hperm & Hsorted & Hstable).
  exists (sort_desc ((fun item => (rank_total item, item)) <$> day)).*2.
  split; [|split; [exact Hperm | split; [exact Hsorted | exact Hstable]]].
  rewrite ranking_loop_app; [reflexivity|].
  rewrite Hperm. exact Hint.
Qed.

Lemma ranking_orders_int_totals_witness :
  exists ordered : list (string * JSON Z),
    fst (get_today_ranking (BI:=MilliUi.builtins) MilliUi.two_games_desk) =
    Return ((fun item => (item.1, format_playtime (ArgInt (rank_total (RT:=Milli.runtime) item)))) <$> ordered) /\
    StronglySorted (fun a b => rank_total (RT:=Milli.runtime) b <= rank_total a) ordered /\
    ordered ≡ₚ
      [("Game", JDict [("total", JInt 60);
                       ("last_open", JStr "2024-01-01 10:00:00");
                       ("last_close", JStr "2024-01-01 10:01:00")]);
       ("Other", JDict [("total", JInt 3661);
                        ("last_open", JStr "2024-01-01 12:00:00");
                        ("last_close", JStr "2024-01-01 13:01:01")])].
Proof.
  destruct (ranking_orders_int_totals (BI:=MilliUi.builtins) MilliUi.two_games_desk
              MilliUi.two_games
              [("Game", JDict [("total", JInt 60);
                               ("last_open", JStr "2024-01-01 10:00:00");
                               ("last_close", JStr "2024-01-01 10:01:00")]);
               ("Other", JDict [("total", JInt 3661);
                                ("last_open", JStr "2024-01-01 12:00:00");
                                ("last_close", JStr "2024-01-01 13:01:01")])])
    as (ordered & Hrun & Hperm & Hsorted & _).
  - vm_compute. reflexivity.
  - vm_compute. reflexivity.
  - repeat constructor; eexists; reflexivity.
  - exists ordered. rewrite Hrun. split; [reflexivity|]. split; assumption.
Defined.

(** *** The window: [refresh] *)

Section Window.
Context `{BI : Builtins}.
Implicit Types (u : Ui) (acc : Acc) (top day : list (string * JSON Float)).

Lemma emit_all_app ws1 ws2 u : emit_all (ws1 ++ ws2) u = emit_all ws2 (emit_all ws1 u).
Proof. revert u. induction ws1 as [|w ws1 IH]; intros u; [reflexivity | apply IH]. Qed.

Lemma append_log_eq text u : append_log text u = (Return tt, emit_all [text] u).
Proof. cbn [emit_all]. unfold append_log. destruct (emit_outcomes u (emits u)); reflexivity. Qed.

(** The loops of [refresh] are their tally followed by the warnings. *)
Lemma refresh_game_eq today cw date dw game_name info acc u :
  refresh_game today cw date dw game_name info acc u =
  (fst (tally_game today cw date dw (game_name, info) acc),
   emit_all (snd (tally_game today cw date dw (game_name, info) acc)) u).
Proof.
  unfold refresh_game, tally_game. cbn [fst snd].
  destruct info as [| | | | | |r];
    try (unfold ubind; rewrite append_log_eq; reflexivity).
  destruct (dict_get "total" r); [reflexivity|].
  unfold ubind. rewrite append_log_eq. reflexivity.
Qed.

Lemma refresh_games_eq today cw date dw day acc u :
  refresh_games today cw date dw day acc u =
  (fst (tally_games today cw date dw day acc),
   emit_all (snd (tally_games today cw date dw day acc)) u).
Proof.
  revert acc u. induction day as [|[game_name info] day IH]; intros acc u; [reflexivity|].
  cbn [refresh_games tally_games]. unfold ubind at 1. rewrite refresh_game_eq.
  destruct (tally_game today cw date dw (game_name, info) acc) as [[acc1|e] ws]; cbn [fst snd];
    [|reflexivity].
  rewrite IH. destruct (tally_games today cw date dw day acc1) as [r ws']. cbn [fst snd].
  rewrite emit_all_app. reflexivity.
Qed.

Lemma refresh_date_eq today cw date daily acc u :
  refresh_date today cw date daily acc u =
  (fst (tally_date today cw (date, daily) acc),
   emit_all (snd (tally_date today cw (date, daily) acc)) u).
Proof.
  unfold refresh_date, tally_date. cbn [fst snd].
  destruct daily as [| | | | | |day];
    try (unfold ubind; rewrite append_log_eq; reflexivity).
  unfold ubind at 1, ulift at 1. destruct (strptime_date date) as [date_obj|e]; [|reflexivity].
  apply refresh_games_eq.
Qed.

Lemma refresh_dates_eq today cw top acc u :
  refresh_dates today cw top acc u =
  (fst (tally_dates today cw top acc), emit_all (snd (tally_dates today cw top acc)) u).
Proof.
  revert acc u. induction top as [|[date daily] top IH]; intros acc u; [reflexivity|].
  cbn [refresh_dates tally_dates]. unfold ubind at 1. rewrite refresh_date_eq.
  destruct (tally_date today cw (date, daily) acc) as [[acc1|e] ws]; cbn [fst snd];
    [|reflexivity].
  rewrite IH. destruct (tally_dates today cw top acc1) as [r ws']. cbn [fst snd].
  rewrite emit_all_app. reflexivity.
Qed.

(** [refresh] case by case. *)
Lemma refresh_eq u :
  refresh u =
  match data_file (ui_world u) with
  | Missing => (Return tt, if has_log_view u then emit_all [InfoNoDataFile] u else u)
  | _ =>
    match load_error (ui_world u) with
    | Some e => (Return tt, if has_log_view u then emit_all [ErrorReadFailed e] u else u)
    | None =>
      match loaded (ui_world u) with
      | JDict top =>
        match tally_dates (ui_today u) (ui_week u) top (mkAcc (NInt 0) (NInt 0) []) with
        | (Return acc, ws) => (Return tt, shows acc (emit_all ws (clock_read (clock_read u))))
        | (Raise e, ws) => (Raise e, emit_all ws (clock_read (clock_read u)))
        end
      | _ =>
        (Raise (mkExc AttributeError "object has no attribute 'items'"),
         clock_read (clock_read u))
      end
    end
  end.
Proof.
  unfold refresh. unfold ubind at 1. unfold in_world at 1, file_exists, get.
  rewrite set_world_same. unfold load_error, loaded.
  destruct (data_file (ui_world u)) as [|e|text] eqn:Hf; cbn [negb].
  - unfold ubind at 1, uget at 1. destruct (has_log_view u); [apply append_log_eq | reflexivity].
  - unfold ubind at 1, utry_except. unfold ubind at 1, in_world at 1, read_text.
    rewrite Hf, set_world_same.
    unfold ubind at 1, uget at 1. destruct (has_log_view u).
    + unfold ubind at 1. rewrite append_log_eq. reflexivity.
    + reflexivity.
  - unfold ubind at 1, utry_except. unfold ubind at 1, in_world at 1, read_text.
    rewrite Hf, set_world_same.
    unfold ubind at 1, ulift at 1. destruct (json_loads text) as [data|e].
    + unfold uret at 1. unfold ubind at 1, in_world at 1, datetime_now.
      unfold bind at 1, time_time at 1, ret at 1.
      unfold ubind at 1, in_world at 1, datetime_now.
      unfold bind at 1, time_time at 1, ret at 1.
      unfold ubind at 1, ulift at 1.
      destruct data as [| | | | | |top]; try reflexivity.
      cbn [items]. unfold ubind at 1. rewrite refresh_dates_eq.
      change (set_world _ (set_world _ u)) with (clock_read (clock_read u)).
      change (strftime_date _) with (ui_today u).
      change (iso_week _) with (ui_week u).
      destruct (tally_dates (ui_today u) (ui_week u) top (mkAcc (NInt 0) (NInt 0) []))
        as [[acc|e] ws]; reflexivity.
    + unfold ubind at 1, uget at 1. destruct (has_log_view u).
      * unfold ubind at 1. rewrite append_log_eq. reflexivity.
      * reflexivity.
Qed.

Lemma display_emit_all ws u : display (emit_all ws u) = display u.
Proof.
  revert u. induction ws as [|w ws IH]; intros u; [reflexivity|].
  cbn [emit_all]. rewrite IH. unfold append_log.
  destruct (emit_outcomes u (emits u)); reflexivity.
Qed.

Lemma world_emit_all ws u : ui_world (emit_all ws u) = ui_world u.
Proof.
  revert u. induction ws as [|w ws IH]; intros u; [reflexivity|].
  cbn [emit_all]. rewrite IH. unfold append_log.
  destruct (emit_outcomes u (emits u)); reflexivity.
Qed.

Lemma dict_get_setdefault_Some {V} (d : list (string * V)) k v :
  is_Some (dict_get k (dict_setdefault k v d)).
Proof.
  rewrite dict_get_setdefault. destruct (dict_get k d); [eauto|].
  destruct (decide (k = k)); [eauto | congruence].
Qed.

Lemma num_add_number x t :
  is_number t = true ->
  (exists y, num_add x t = Return y) \/ num_add x t = Raise int_too_large.
Proof.
  destruct x as [a|x], t as [|b|n|y| | |]; try discriminate; intros _; cbn [num_add];
    try (left; eexists; reflexivity).
  - destruct (fits_float a); [left; eexists; reflexivity | right; reflexivity].
  - destruct (fits_float n); [left; eexists; reflexivity | right; reflexivity].
Qed.

Lemma num_add_other x t :
  is_number t = false -> exists e, num_add x t = Raise e /\ exc_class e = TypeError.
Proof. destruct x, t; try discriminate; intros _; eexists; split; reflexivity. Qed.

(** Adding a record whose total is a number succeeds, unless an int is
    too large for the float it is added to. *)
Lemma add_record_number today cw date dw game_name r t acc :
  is_number t = true ->
  (exists acc', add_record today cw date dw game_name r t acc = Return acc') \/
  add_record today cw date dw game_name r t acc = Raise int_too_large.
Proof.
  intros Ht. unfold add_record.
  destruct (dict_get_setdefault_Some (acc_games acc) game_name
              (mkEntry (NInt 0) (NInt 0) (NInt 0)
                       (field_or_none "last_open" r) (field_or_none "last_close" r)))
    as [g ->].
  destruct (num_add_number (e_total g) t Ht) as [[x ->]| ->]; [|right; reflexivity].
  cbn [e_today e_week e_total e_last_open e_last_close].
  destruct (decide (date = today)).
  - destruct (num_add_number (e_today g) t Ht) as [[y ->]| ->]; [|right; reflexivity].
    destruct (num_add_number (today_total acc) t Ht) as [[y' ->]| ->]; [|right; reflexivity].
    cbn [e_today e_week e_total e_last_open e_last_close].
    destruct (decide (dw = cw)); [|left; eexists; reflexivity].
    destruct (num_add_number (e_week g) t Ht) as [[w ->]| ->]; [|right; reflexivity].
    destruct (num_add_number (week_total acc) t Ht) as [[w' ->]| ->]; [|right; reflexivity].
    left. eexists. reflexivity.
  - cbn [e_today e_week e_total e_last_open e_last_close].
    destruct (decide (dw = cw)); [|left; eexists; reflexivity].
    destruct (num_add_number (e_week g) t Ht) as [[w ->]| ->]; [|right; reflexivity].
    destruct (num_add_number (week_total acc) t Ht) as [[w' ->]| ->]; [|right; reflexivity].
    left. eexists. reflexivity.
Qed.

Lemma add_record_other today cw date dw game_name r t acc :
  is_number t = false ->
  exists e, add_record today cw date dw game_name r t acc = Raise e /\ exc_class e = TypeError.
Proof.
  intros Ht. unfold add_record.
  destruct (dict_get_setdefault_Some (acc_games acc) game_name
              (mkEntry (NInt 0) (NInt 0) (NInt 0)
                       (field_or_none "last_open" r) (field_or_none "last_close" r)))
    as [g ->].
  destruct (num_add_other (e_total g) t Ht) as (e & -> & He). eauto.
Qed.

(** One record that [refresh] accepts: the loop goes on, or an int was too
    large. *)
Lemma tally_game_ok today cw date dw item acc :
  record_ok item.2 = true ->
  (exists acc1 ws, tally_game today cw date dw item acc = (Return acc1, ws)) \/
  tally_game today cw date dw item acc = (Raise int_too_large, []).
Proof.
  unfold tally_game, record_ok. destruct item.2 as [| | | | | |r]; eauto.
  destruct (dict_get "total" r) as [t|]; [|eauto]. intros Hok.
  destruct (add_record_number today cw date dw item.1 r t acc Hok) as [[acc1 ->]| ->]; eauto.
Qed.

Lemma tally_game_bad today cw date dw item acc :
  record_ok item.2 = false ->
  exists e ws, tally_game today cw date dw item acc = (Raise e, ws).
Proof.
  unfold tally_game, record_ok. destruct item.2 as [| | | | | |r]; try discriminate.
  destruct (dict_get "total" r) as [t|]; [|discriminate]. intros Hok.
  destruct (add_record_other today cw date dw item.1 r t acc Hok) as (e & -> & _). eauto.
Qed.

Lemma tally_games_ok today cw date dw day acc :
  forallb (fun item => record_ok item.2) day = true ->
  (exists acc', fst (tally_games today cw date dw day acc) = Return acc') \/
  fst (tally_games today cw date dw day acc) = Raise int_too_large.
Proof.
  revert acc. induction day as [|item day IH]; intros acc; [eauto|].
  cbn [forallb]. intros H. apply andb_true_iff in H. destruct H as [Hok Hrest].
  cbn [tally_games].
  destruct (tally_game_ok today cw date dw item acc Hok) as [(acc1 & ws & ->)| ->];
    [|right; reflexivity].
  specialize (IH acc1 Hrest).
  destruct (tally_games today cw date dw day acc1) as [r' ws']. exact IH.
Qed.

Lemma tally_games_bad today cw date dw day acc :
  forallb (fun item => record_ok item.2) day = false ->
  exists e, fst (tally_games today cw date dw day acc) = Raise e.
Proof.
  revert acc. induction day as [|item day IH]; intros acc; [discriminate|].
  cbn [forallb]. intros H. cbn [tally_games].
  destruct (record_ok item.2) eqn:Hok.
  - cbn [andb] in H.
    destruct (tally_game_ok today cw date dw item acc Hok) as [(acc1 & ws & ->)| ->];
      [|eauto].
    specialize (IH acc1 H).
    destruct (tally_games today cw date dw day acc1) as [r' ws']. exact IH.
  - destruct (tally_game_bad today cw date dw item acc Hok) as (e & ws & ->). eauto.
Qed.

Lemma tally_date_ok today cw entry acc :
  date_ok entry = true ->
  (exists acc1, fst (tally_date today cw entry acc) = Return acc1) \/
  fst (tally_date today cw entry acc) = Raise int_too_large.
Proof.
  unfold tally_date, date_ok. destruct entry.2 as [| | | | | |day]; eauto.
  destruct (strptime_date entry.1) as [date_obj|e]; [|discriminate].
  cbn [andb]. apply tally_games_ok.
Qed.

Lemma tally_date_bad today cw entry acc :
  date_ok entry = false -> exists e, fst (tally_date today cw entry acc) = Raise e.
Proof.
  unfold tally_date, date_ok. destruct entry.2 as [| | | | | |day]; try discriminate.
  destruct (strptime_date entry.1) as [date_obj|e]; [|eauto].
  cbn [andb]. apply tally_games_bad.
Qed.

Lemma tally_dates_ok today cw top acc :
  forallb date_ok top = true ->
  (exists acc', fst (tally_dates today cw top acc) = Return acc') \/
  fst (tally_dates today cw top acc) = Raise int_too_large.
Proof.
  revert acc. induction top as [|entry top IH]; intros acc; [eauto|].
  cbn [forallb]. intros H. apply andb_true_iff in H. destruct H as [Hok Hrest].
  cbn [tally_dates].
  destruct (tally_date_ok today cw entry acc Hok) as [[acc1 H1]|H1];
    destruct (tally_date today cw entry acc) as [r ws]; cbn [fst] in H1; subst r;
    [|right; reflexivity].
  specialize (IH acc1 Hrest).
  destruct (tally_dates today cw top acc1) as [r' ws']. exact IH.
Qed.

Lemma tally_dates_bad today cw top acc :
  forallb date_ok top = false -> exists e, fst (tally_dates today cw top acc) = Raise e.
Proof.
  revert acc. induction top as [|entry top IH]; intros acc; [discriminate|].
  cbn [forallb]. intros H. cbn [tally_dates].
  destruct (date_ok entry) eqn:Hok.
  - cbn [andb] in H.
    destruct (tally_date_ok today cw entry acc Hok) as [[acc1 H1]|H1];
      destruct (tally_date today cw entry acc) as [r ws]; cbn [fst] in H1; subst r;
      [|eauto].
    specialize (IH acc1 H).
    destruct (tally_dates today cw top acc1) as [r' ws']. exact IH.
  - destruct (tally_date_bad today cw entry acc Hok) as [e H1].
    destruct (tally_date today cw entry acc) as [r ws]. cbn [fst] in H1. subst r. eauto.
Qed.

(** **** The sums *)

Lemma seconds_app keep vs1 vs2 : seconds keep (vs1 ++ vs2) = seconds keep vs1 + seconds keep vs2.
Proof.
  induction vs1 as [|v vs1 IH]; [reflexivity|].
  cbn [app seconds foldr] in *. fold (seconds keep (vs1 ++ vs2)). fold (seconds keep vs1).
  rewrite IH. lia.
Qed.

Lemma rank_total_invalid item : valid_record item.2 = false -> rank_total item = 0.
Proof.
  unfold rank_total, int_total, valid_record. destruct item.2 as [| | | | | |r]; try reflexivity.
  destruct (dict_get "total" r); [discriminate | reflexivity].
Qed.

Lemma first_record_app game_name vs1 vs2 :
  first_record game_name (vs1 ++ vs2) =
  match first_record game_name vs1 with
  | Some x => Some x
  | None => first_record game_name vs2
  end.
Proof.
  unfold first_record. induction vs1 as [|v vs1 IH]; [reflexivity|].
  cbn [app List.find]. destruct (of_game game_name v && valid_record (visited v).2);
    [reflexivity | exact IH].
Qed.

(** Without a record of the game that counts, its seconds are none. *)
Lemma seconds_no_record keep game_name vs :
  first_record game_name vs = None ->
  seconds (fun v => keep v && of_game game_name v) vs = 0.
Proof.
  unfold first_record. induction vs as [|v vs IH]; [reflexivity|].
  cbn [List.find seconds foldr].
  destruct (of_game game_name v) eqn:Hg; cbn [andb].
  - destruct (valid_record (visited v).2) eqn:Hv; [discriminate|].
    intros H. rewrite (rank_total_invalid _ Hv). rewrite andb_true_r.
    fold (seconds (fun v => keep v && of_game game_name v) vs). rewrite (IH H).
    destruct (keep v); reflexivity.
  - intros H. rewrite andb_false_r.
    fold (seconds (fun v => keep v && of_game game_name v) vs). rewrite (IH H). reflexivity.
Qed.

Lemma num_add_int a t z : json_int t = Some z -> num_add (NInt a) t = Return (NInt (a + z)).
Proof. destruct t; try discriminate; intros [= <-]; reflexivity. Qed.

(** [add_record] on sums that are ints and a total that is an int. *)
Lemma add_record_int today cw date dw game_name r t z acc g a b c T W :
  dict_get game_name
    (dict_setdefault game_name
       (mkEntry (NInt 0) (NInt 0) (NInt 0)
                (field_or_none "last_open" r) (field_or_none "last_close" r))
       (acc_games acc)) = Some g ->
  e_today g = NInt a -> e_week g = NInt b -> e_total g = NInt c ->
  today_total acc = NInt T -> week_total acc = NInt W ->
  json_int t = Some z ->
  add_record today cw date dw game_name r t acc =
  Return (mkAcc (NInt (T + if decide (date = today) then z else 0))
                (NInt (W + if decide (dw = cw) then z else 0))
                (dict_set game_name
                   (mkEntry (NInt (a + if decide (date = today) then z else 0))
                            (NInt (b + if decide (dw = cw) then z else 0))
                            (NInt (c + z)) (e_last_open g) (e_last_close g))
                   (dict_setdefault game_name
                      (mkEntry (NInt 0) (NInt 0) (NInt 0)
                               (field_or_none "last_open" r) (field_or_none "last_close" r))
                      (acc_games acc)))).
Proof.
  intros Hg Ha Hb Hc HT HW Hz. unfold add_record. rewrite Hg, Hc, (num_add_int c t z Hz).
  cbn [e_today e_week e_total e_last_open e_last_close]. rewrite Ha, Hb, HT, HW.
  destruct (decide (date = today)); rewrite ?(num_add_int _ t z Hz);
    cbn [e_today e_week e_total e_last_open e_last_close]; rewrite ?Hb;
    destruct (decide (dw = cw)); rewrite ?(num_add_int _ t z Hz);
    cbn [e_today e_week e_total e_last_open e_last_close];
    rewrite ?Z.add_0_r; reflexivity.
Qed.

Lemma tallies_nil : tallies [] (mkAcc (NInt 0) (NInt 0) []).
Proof.
  split; [reflexivity|]. split; [reflexivity|]. split; [intros n; reflexivity | constructor].
Qed.

Lemma Forall_dict_set {V} (P : string * V -> Prop) (d : list (string * V)) k v :
  Forall P d -> P (k, v) -> Forall P (dict_set k v d).
Proof.
  intros H Hv. induction H as [|[k0 v0] d H0 H IH]; cbn [dict_set]; [repeat constructor; exact Hv|].
  destruct (decide (k0 = k)); constructor; assumption.
Qed.

Lemma Forall_dict_setdefault {V} (P : string * V -> Prop) (d : list (string * V)) k v :
  Forall P d -> P (k, v) -> Forall P (dict_setdefault k v d).
Proof.
  intros H Hv. unfold dict_setdefault. destruct (dict_get k d); [exact H|].
  apply Forall_app. split; [exact H | repeat constructor; exact Hv].
Qed.

(** A record that [refresh] skips changes no sum. *)
Lemma tallies_skip vs acc v :
  valid_record (visited v).2 = false -> tallies vs acc -> tallies (vs ++ [v]) acc.
Proof.
  intros Hv (HT & HW & Hg & Hall).
  assert (Hsec : forall keep, seconds keep (vs ++ [v]) = seconds keep vs).
  { intros keep. rewrite seconds_app. cbn [seconds foldr].
    rewrite (rank_total_invalid _ Hv). destruct (keep v); lia. }
  assert (Hfirst : forall n, first_record n (vs ++ [v]) = first_record n vs).
  { intros n. rewrite first_record_app. destruct (first_record n vs); [reflexivity|].
    unfold first_record. cbn [List.find]. rewrite Hv, andb_false_r. reflexivity. }
  split; [rewrite Hsec; exact HT|]. split; [rewrite Hsec; exact HW|].
  split; [|exact Hall].
  intros n. specialize (Hg n). rewrite !Hsec, Hfirst. exact Hg.
Qed.

(** A record that counts is added to the sums of its game, and to the
    sums of today and of the week when its date is there. *)
Lemma add_record_tallies vs acc today cw date dw game_name r t z :
  tallies vs acc -> dict_get "total" r = Some t -> json_int t = Some z ->
  exists acc',
    add_record today cw date dw game_name r t acc = Return acc' /\
    tallies (vs ++ [mkVisit (bool_decide (date = today)) (dw =? cw) (game_name, JDict r)]) acc'.
Proof.
  intros (HT & HW & Hg & Hall) Htot Hz.
  set (v := mkVisit (bool_decide (date = today)) (dw =? cw) (game_name, JDict r)).
  set (new := mkEntry (NInt 0) (NInt 0) (NInt 0)
                      (field_or_none "last_open" r) (field_or_none "last_close" r)).
  assert (Hrank : rank_total (visited v) = z).
  { unfold rank_total, int_total. cbn [visited v snd]. rewrite Htot, Hz. reflexivity. }
  assert (Hvalid : valid_record (visited v).2 = true).
  { cbn [visited v snd valid_record]. rewrite Htot. reflexivity. }
  assert (Hsec : forall keep, seconds keep (vs ++ [v]) =
                              seconds keep vs + if keep v then z else 0).
  { intros keep. rewrite seconds_app. cbn [seconds foldr]. rewrite Hrank.
    destruct (keep v); lia. }
  assert (Htoday : (if decide (date = today) then z else 0) = if on_today v then z else 0).
  { cbn [on_today v]. destruct (decide (date = today)) as [H|H].
    - rewrite bool_decide_eq_true_2 by exact H. reflexivity.
    - rewrite bool_decide_eq_false_2 by exact H. reflexivity. }
  assert (Hweek : (if decide (dw = cw) then z else 0) = if in_week v then z else 0).
  { cbn [in_week v]. destruct (decide (dw = cw)) as [H|H].
    - rewrite (proj2 (Z.eqb_eq dw cw) H). reflexivity.
    - rewrite (proj2 (Z.eqb_neq dw cw) H). reflexivity. }
  assert (Hself : of_game game_name v = true).
  { unfold of_game. cbn [visited v fst]. apply bool_decide_eq_true_2. reflexivity. }
  assert (Hentry : exists g a b c,
             dict_get game_name (dict_setdefault game_name new (acc_games acc)) = Some g /\
             e_today g = NInt a /\ e_week g = NInt b /\ e_total g = NInt c /\
             a = seconds (fun v => on_today v && of_game game_name v) vs /\
             b = seconds (fun v => in_week v && of_game game_name v) vs /\
             c = seconds (of_game game_name) vs /\
             exists r0,
               first_record game_name (vs ++ [v]) = Some (JDict r0) /\
               e_last_open g = field_or_none "last_open" r0 /\
               e_last_close g = field_or_none "last_close" r0).
  { rewrite dict_get_setdefault, first_record_app. specialize (Hg game_name).
    destruct (dict_get game_name (acc_games acc)) as [e|].
    - destruct Hg as (Ha & Hb & Hc & r0 & Hf & Ho & Hcl).
      exists e. do 3 eexists. split; [reflexivity|].
      split; [exact Ha|]. split; [exact Hb|]. split; [exact Hc|].
      split; [reflexivity|]. split; [reflexivity|]. split; [reflexivity|].
      exists r0. rewrite Hf. auto.
    - destruct (decide (game_name = game_name)) as [_|?]; [|congruence].
      exists new, 0, 0, 0. split; [reflexivity|].
      split; [reflexivity|]. split; [reflexivity|]. split; [reflexivity|].
      split; [symmetry; apply seconds_no_record, Hg|].
      split; [symmetry; apply seconds_no_record, Hg|].
      split.
      { symmetry. rewrite <- (seconds_no_record (fun _ => true) game_name vs Hg).
        reflexivity. }
      exists r. rewrite Hg. unfold first_record. cbn [List.find].
      rewrite Hself, Hvalid. cbn [andb fmap option_fmap option_map visited v snd].
      auto. }
  destruct Hentry as (g & a & b & c & Hget & Ha & Hb & Hc & -> & -> & -> & r0 & Hf & Ho & Hcl).
  rewrite (add_record_int today cw date dw game_name r t z acc g _ _ _ _ _
             Hget Ha Hb Hc HT HW Hz).
  eexists. split; [reflexivity|].
  split; [cbn [today_total]; rewrite Hsec, Htoday; reflexivity|].
  split; [cbn [week_total]; rewrite Hsec, Hweek; reflexivity|].
  split.
  2:{ cbn [acc_games]. apply Forall_dict_set; [|cbn [snd e_today]; eauto].
      apply Forall_dict_setdefault; [exact Hall | cbn [snd e_today new]; eauto]. }
  intros n. cbn [acc_games]. rewrite dict_get_set.
  destruct (decide (game_name = n)) as [<-|Hn].
  - cbn [e_today e_week e_total e_last_open e_last_close].
    rewrite !Hsec, Hself, !andb_true_r, Htoday, Hweek.
    split; [reflexivity|]. split; [reflexivity|]. split; [reflexivity|].
    exists r0. auto.
  - assert (Hother : of_game n v = false).
    { unfold of_game. cbn [visited v fst]. apply bool_decide_eq_false_2. exact Hn. }
    rewrite dict_get_setdefault. specialize (Hg n).
    assert (Hfirst : first_record n (vs ++ [v]) = first_record n vs).
    { rewrite first_record_app. destruct (first_record n vs); [reflexivity|].
      unfold first_record. cbn [List.find]. rewrite Hother. reflexivity. }
    rewrite !Hsec, Hother, !andb_false_r, !Z.add_0_r, Hfirst.
    destruct (dict_get n (acc_games acc)); [exact Hg|].
    destruct (decide (game_name = n)); [contradiction | exact Hg].
Qed.

Lemma tally_games_tallies vs acc today cw date dw day :
  tallies vs acc ->
  forallb (fun item => int_record item.2) day = true ->
  exists acc',
    fst (tally_games today cw date dw day acc) = Return acc' /\
    tallies (vs ++ ((fun item => mkVisit (bool_decide (date = today)) (dw =? cw) item) <$> day))
            acc'.
Proof.
  revert vs acc. induction day as [|[n info] day IH]; intros vs acc Hacc Hday.
  { exists acc. rewrite app_nil_r. auto. }
  cbn [forallb snd] in Hday. apply andb_true_iff in Hday. destruct Hday as [Hrec Hday].
  cbn [tally_games fmap list_fmap].
  set (v := mkVisit (bool_decide (date = today)) (dw =? cw) (n, info)).
  assert (Hstep : exists acc1 ws,
             tally_game today cw date dw (n, info) acc = (Return acc1, ws) /\
             tallies (vs ++ [v]) acc1).
  { unfold tally_game. cbn [fst snd]. unfold int_record in Hrec.
    destruct (valid_record info) eqn:Hv; cbn [negb orb] in Hrec.
    - unfold int_total in Hrec. unfold valid_record in Hv.
      destruct info as [| | | | | |r]; try discriminate.
      destruct (dict_get "total" r) as [t|] eqn:Ht; [|discriminate].
      destruct (json_int t) as [z|] eqn:Hz; [|discriminate].
      destruct (add_record_tallies vs acc today cw date dw n r t z Hacc Ht Hz)
        as (acc1 & -> & H1).
      eauto.
    - exists acc. assert (H1 : tallies (vs ++ [v]) acc) by (apply tallies_skip; assumption).
      unfold valid_record in Hv. destruct info as [| | | | | |r]; eauto.
      destruct (dict_get "total" r); [discriminate | eauto]. }
  destruct Hstep as (acc1 & ws & -> & H1).
  destruct (IH (vs ++ [v]) acc1 H1 Hday) as (acc' & Hrun & H').
  destruct (tally_games today cw date dw day acc1) as [r' ws']. cbn [fst] in *.
  exists acc'. split; [exact Hrun|]. rewrite <- app_assoc in H'. exact H'.
Qed.

Lemma tally_dates_tallies vs acc today cw top :
  tallies vs acc ->
  int_document top = true ->
  exists acc',
    fst (tally_dates today cw top acc) = Return acc' /\
    tallies (vs ++ visits today cw top) acc'.
Proof.
  revert vs acc. induction top as [|[date daily] top IH]; intros vs acc Hacc Htop.
  { exists acc. unfold visits. cbn [flat_map]. rewrite app_nil_r. auto. }
  unfold int_document in Htop. cbn [forallb] in Htop.
  apply andb_true_iff in Htop. destruct Htop as [Hdate Htop].
  cbn [tally_dates]. unfold visits. cbn [flat_map]. fold (visits today cw top).
  assert (Hstep : exists acc1 ws,
             tally_date today cw (date, daily) acc = (Return acc1, ws) /\
             tallies (vs ++ match daily with
                            | JDict day =>
                              match strptime_date date with
                              | Return date_obj =>
                                (fun item =>
                                   mkVisit (bool_decide (date = today))
                                           (iso_week date_obj =? cw) item) <$> day
                              | Raise _ => []
                              end
                            | _ => []
                            end) acc1).
  { unfold tally_date. unfold int_date in Hdate. cbn [fst snd] in *.
    destruct daily as [| | | | | |day]; try (rewrite app_nil_r; eauto).
    destruct (strptime_date date) as [date_obj|e]; [|discriminate].
    cbn [andb] in Hdate.
    destruct (tally_games_tallies vs acc today cw date (iso_week date_obj) day Hacc Hdate)
      as (acc1 & Hrun & H1).
    destruct (tally_games today cw date (iso_week date_obj) day acc) as [r ws].
    cbn [fst] in Hrun. subst r. eauto. }
  cbn [fst snd]. destruct Hstep as (acc1 & ws & -> & H1).
  destruct (IH _ acc1 H1 Htop) as (acc' & Hrun & H').
  destruct (tally_dates today cw top acc1) as [r' ws']. cbn [fst] in *.
  exists acc'. split; [exact Hrun|]. rewrite <- app_assoc in H'. exact H'.
Qed.

(** [refresh] on a document of ints shows the sums of its records. *)
Lemma refresh_tallies u top :
  load_error (ui_world u) = None ->
  loaded (ui_world u) = JDict top ->
  int_document top = true ->
  exists acc ws,
    refresh u = (Return tt, shows acc (emit_all ws (clock_read (clock_read u)))) /\
    tallies (visits (ui_today u) (ui_week u) top) acc.
Proof.
  intros Hload Hdoc Hint. rewrite refresh_eq, Hload, Hdoc.
  assert (Hf : data_file (ui_world u) <> Missing).
  { intros Hf. unfold load_error in Hload. rewrite Hf in Hload. discriminate. }
  destruct (tally_dates_tallies [] _ (ui_today u) (ui_week u) top tallies_nil Hint)
    as (acc & Hrun & Hacc).
  destruct (tally_dates (ui_today u) (ui_week u) top (mkAcc (NInt 0) (NInt 0) []))
    as [r ws]. cbn [fst] in Hrun. subst r.
  exists acc, ws. split; [|exact Hacc].
  destruct (data_file (ui_world u)); [congruence | reflexivity | reflexivity].
Qed.

(** **** The window and the watcher *)

Lemma forallb_dict_get {V} (P : string * V -> bool) (d : list (string * V)) k v :
  forallb P d = true -> dict_get k d = Some v -> P (k, v) = true.
Proof.
  induction d as [|[k0 v0] d IH]; [discriminate|].
  cbn [forallb dict_get]. intros H. apply andb_true_iff in H. destruct H as [H0 H].
  destruct (decide (k0 = k)) as [<-|_]; [intros [= <-]; exact H0 | apply IH, H].
Qed.

Lemma forallb_dict_set {V} (P : string * V -> bool) (d : list (string * V)) k v :
  forallb P d = true -> P (k, v) = true -> forallb P (dict_set k v d) = true.
Proof.
  intros H Hv. induction d as [|[k0 v0] d IH]; cbn [dict_set forallb].
  - rewrite Hv. reflexivity.
  - cbn [forallb] in H. apply andb_true_iff in H. destruct H as [H0 H].
    destruct (decide (k0 = k)); cbn [forallb].
    + rewrite Hv, H. reflexivity.
    + rewrite H0, (IH H). reflexivity.
Qed.

Lemma forallb_dict_setdefault {V} (P : string * V -> bool) (d : list (string * V)) k v :
  forallb P d = true -> P (k, v) = true -> forallb P (dict_setdefault k v d) = true.
Proof.
  intros H Hv. unfold dict_setdefault. destruct (dict_get k d); [exact H|].
  rewrite forallb_app, H. cbn [forallb]. rewrite Hv. reflexivity.
Qed.

Lemma update_record_int r start_str end_str duration r' :
  int_record r = true ->
  update_record r start_str end_str duration = Return r' -> int_record r' = true.
Proof.
  unfold update_record, int_record, valid_record, int_total.
  destruct r as [| | | | | |kvs]; try discriminate.
  destruct (dict_get "total" kvs) as [total|]; [|discriminate]. cbn [negb orb].
  intros Hint. destruct (add_duration total duration) as [total'|e] eqn:Ha; [|discriminate].
  intros [= <-].
  rewrite (dict_get_set_ne _ "last_close" "total") by discriminate.
  rewrite (dict_get_set_ne _ "last_open" "total") by discriminate.
  rewrite dict_get_set_eq. cbn [negb orb].
  revert Ha Hint. unfold add_duration.
  destruct total; try discriminate; intros [= <-]; reflexivity.
Qed.

(** The merge of [_record] keeps a document of ints one, when the date is
    one that [strptime] accepts. *)
Lemma merge_session_int_document top date game start_str end_str duration doc' date_obj :
  int_document top = true ->
  strptime_date date = Return date_obj ->
  merge_session (JDict top) date game start_str end_str duration = Return doc' ->
  exists top', doc' = JDict top' /\ int_document top' = true.
Proof.
  intros Hok Hdate Hm.
  destruct (merge_session_shape _ _ _ _ _ _ _ Hm)
    as (top0 & day & r & r' & [= <-] & Hday & Hr & Hu & ->).
  eexists. split; [reflexivity|]. unfold int_document in *.
  assert (Hday_ok : forallb (fun item : string * JSON Float => int_record item.2) day = true).
  { destruct Hday as [Hd|[_ ->]]; [|reflexivity].
    pose proof (forallb_dict_get int_date top date (JDict day) Hok Hd) as H.
    unfold int_date in H. cbn [fst snd] in H. rewrite Hdate in H. exact H. }
  assert (Hday1 : forallb (fun item : string * JSON Float => int_record item.2)
                    (dict_setdefault game new_record day) = true).
  { apply (forallb_dict_setdefault (fun item : string * JSON Float => int_record item.2));
      [exact Hday_ok | reflexivity]. }
  apply forallb_dict_set.
  - apply forallb_dict_setdefault; [exact Hok|].
    unfold int_date. cbn [fst snd]. rewrite Hdate. reflexivity.
  - unfold int_date. cbn [fst snd]. rewrite Hdate. cbn [andb].
    apply (forallb_dict_set (fun item : string * JSON Float => int_record item.2));
      [exact Hday1|].
    cbn [snd]. eapply update_record_int; [|exact Hu].
    apply (forallb_dict_get (fun item : string * JSON Float => int_record item.2)
             _ game r Hday1 Hr).
Qed.

(** A document that [refresh] accepts and that holds no float is a
    document of ints. *)
Lemma float_free_int_document top :
  forallb date_ok top = true -> float_free (JDict top) = true -> int_document top = true.
Proof.
  unfold int_document. cbn [float_free]. induction top as [|entry top IH]; [reflexivity|].
  cbn [forallb]. intros H1 H2.
  apply andb_true_iff in H1. destruct H1 as [Hok H1].
  apply andb_true_iff in H2. destruct H2 as [Hfree H2].
  rewrite (IH H1 H2), andb_true_r.
  unfold date_ok in Hok. unfold int_date. destruct entry.2 as [| | | | | |day]; try reflexivity.
  destruct (strptime_date entry.1); [|discriminate]. cbn [andb] in *.
  induction day as [|item day IHd]; [reflexivity|].
  cbn [forallb] in *.
  apply andb_true_iff in Hok. destruct Hok as [Hrec Hok].
  apply andb_true_iff in Hfree. destruct Hfree as [Hf Hfree].
  rewrite (IHd Hok Hfree), andb_true_r.
  revert Hrec Hf. unfold record_ok, float_record, int_record, valid_record, int_total.
  destruct item.2 as [| | | | | |r]; try reflexivity.
  destruct (dict_get "total" r) as [t|]; [|reflexivity].
  destruct t; try discriminate; reflexivity.
Qed.

(** What [refresh] returns once the document is loaded. *)
Lemma refresh_outcome u top :
  load_error (ui_world u) = None ->
  loaded (ui_world u) = JDict top ->
  fst (refresh u) =
  match fst (tally_dates (ui_today u) (ui_week u) top (mkAcc (NInt 0) (NInt 0) [])) with
  | Return _ => Return tt
  | Raise e => Raise e
  end.
Proof.
  intros Hload Hdoc. rewrite refresh_eq, Hload, Hdoc.
  assert (Hf : data_file (ui_world u) <> Missing).
  { intros Hf. unfold load_error in Hload. rewrite Hf in Hload. discriminate. }
  destruct (tally_dates (ui_today u) (ui_week u) top (mkAcc (NInt 0) (NInt 0) []))
    as [[acc|e] ws];
    destruct (data_file (ui_world u)); try congruence; reflexivity.
Qed.

Lemma sorted_by_today_int (games : list (string * Entry)) :
  Forall (fun item : string * Entry => exists n, e_today item.2 = NInt n) games ->
  sorted_by_today games = (sort_desc ((fun item => (today_seconds item, item)) <$> games)).*2.
Proof.
  intros H. unfold sorted_by_today.
  assert (Hk : int_keys ((fun item => (num_json (e_today item.2), item)) <$> games) =
               Some ((fun item => (today_seconds item, item)) <$> games)).
  { induction H as [|item games [n Hn] _ IH]; [reflexivity|].
    cbn [fmap list_fmap int_keys]. rewrite IH. unfold today_seconds. rewrite Hn.
    reflexivity. }
  rewrite Hk. reflexivity.
Qed.

End Window.

(** X17: [refresh] changes what the window shows only at its very end.
    When the data file is missing, cannot be read or is not JSON, it
    returns normally and the cache, the labels and the table are as they
    were; when it raises, they are as they were too. It never changes the
    disk. *)
Theorem refresh_leaves_window `{BI : Builtins} (u u' : Ui) (r : Outcome unit) :
  refresh u = (r, u') ->
  (is_Some (load_error (ui_world u)) -> r = Return tt /\ ui_world u' = ui_world u) /\
  (is_Some (load_error (ui_world u)) \/ r <> Return tt -> display u' = display u) /\
  same_disk (ui_world u) (ui_world u').
Proof.
  rewrite refresh_eq. unfold load_error at 1.
  assert (Hd2 : display (clock_read (clock_read u)) = display u) by reflexivity.
  assert (Hs2 : same_disk (ui_world u) (ui_world (clock_read (clock_read u))))
    by (repeat split).
  assert (Hone : forall w, display (if has_log_view u then emit_all [w] u else u) = display u).
  { intros w. destruct (has_log_view u); [apply display_emit_all | reflexivity]. }
  assert (Hw1 : forall w, ui_world (if has_log_view u then emit_all [w] u else u) = ui_world u).
  { intros w. destruct (has_log_view u); [apply world_emit_all | reflexivity]. }
  cbn [emit_all] in Hone, Hw1.
  destruct (data_file (ui_world u)) as [|e0|text] eqn:Hf.
  - intros [= <- <-]. rewrite Hw1, Hone.
    split; [auto|]. split; [auto | apply same_disk_refl].
  - unfold load_error. rewrite Hf. intros [= <- <-]. rewrite Hw1, Hone.
    split; [auto|]. split; [auto | apply same_disk_refl].
  - destruct (load_error (ui_world u)) as [e|] eqn:He.
    + intros [= <- <-]. rewrite Hw1, Hone.
      split; [auto|]. split; [auto | apply same_disk_refl].
    + assert (Hno : ~ is_Some (@None Exc)) by (intros [? ?]; discriminate).
      destruct (loaded (ui_world u)) as [| | | | | |top];
        try (intros [= <- <-]; split; [intros H; destruct (Hno H)|];
             split; [intros _; exact Hd2 | exact Hs2]).
      destruct (tally_dates (ui_today u) (ui_week u) top (mkAcc (NInt 0) (NInt 0) []))
        as [[acc|e] ws]; intros [= <- <-].
      * split; [intros H; destruct (Hno H)|]. split.
        -- intros [H|H]; [destruct (Hno H) | destruct H; reflexivity].
        -- unfold shows, shown. cbn [ui_world]. rewrite world_emit_all. exact Hs2.
      * split; [intros H; destruct (Hno H)|]. split.
        -- intros _. rewrite display_emit_all. exact Hd2.
        -- rewrite world_emit_all. exact Hs2.
Qed.

Lemma refresh_leaves_window_witness :
  fst (refresh (BI:=MilliUi.builtins) (MilliUi.desk (Milli.world 1000 (Content "{ not json"))))
  = Return tt /\
  display (snd (refresh (BI:=MilliUi.builtins)
                  (MilliUi.desk (Milli.world 1000 (Content "{ not json"))))) =
  display (MilliUi.desk (Milli.world 1000 (Content "{ not json"))).
Proof.
  destruct (refresh_leaves_window (BI:=MilliUi.builtins)
              (MilliUi.desk (Milli.world 1000 (Content "{ not json"))) _ _
              (surjective_pairing _)) as (Hret & Hdisp & _).
  assert (Herr : is_Some (load_error (RT:=Milli.runtime)
                            (ui_world (MilliUi.desk (Milli.world 1000 (Content "{ not json"))))))
    by (vm_compute; eauto).
  split; [apply Hret, Herr | apply Hdisp; left; exact Herr].
Defined.

(** X18: on a data file that loads, [refresh] returns normally only when
    the document is an object in which every key of an object is a date
    ([strptime] accepts it) and every record that is an object with a
    ["total"] has a number there; what is not an object it skips, even
    under a key that is no date. On such a document the one exception it
    can raise is that of an int too large for the float it is added to, so
    that without floats in the document it returns exactly when the
    document is such. *)
Theorem refresh_returns_exactly_when `{BI : Builtins} (u : Ui) :
  load_error (ui_world u) = None ->
  (fst (refresh u) = Return tt -> refreshable (loaded (ui_world u)) = true) /\
  (refreshable (loaded (ui_world u)) = true ->
   fst (refresh u) = Return tt \/ fst (refresh u) = Raise int_too_large) /\
  (float_free (loaded (ui_world u)) = true ->
   (fst (refresh u) = Return tt <-> refreshable (loaded (ui_world u)) = true)).
Proof.
  intros Hload.
  assert (Hf : data_file (ui_world u) <> Missing).
  { intros Hf. unfold load_error in Hload. rewrite Hf in Hload. discriminate. }
  assert (Honly : fst (refresh u) = Return tt -> refreshable (loaded (ui_world u)) = true).
  { destruct (loaded (ui_world u)) as [| | | | | |top] eqn:Hdoc;
      try (rewrite refresh_eq, Hload, Hdoc;
           destruct (data_file (ui_world u)); [congruence | discriminate | discriminate]).
    rewrite (refresh_outcome u top Hload Hdoc). cbn [refreshable].
    destruct (forallb date_ok top) eqn:Hok; [reflexivity|].
    destruct (tally_dates_bad (ui_today u) (ui_week u) top (mkAcc (NInt 0) (NInt 0) []) Hok)
      as [e ->]. discriminate. }
  split; [exact Honly|]. split.
  - destruct (loaded (ui_world u)) as [| | | | | |top] eqn:Hdoc; try discriminate.
    cbn [refreshable]. intros Hok. rewrite (refresh_outcome u top Hload Hdoc).
    destruct (tally_dates_ok (ui_today u) (ui_week u) top (mkAcc (NInt 0) (NInt 0) []) Hok)
      as [[acc ->]| ->]; auto.
  - intros Hfree. split; [exact Honly|].
    destruct (loaded (ui_world u)) as [| | | | | |top] eqn:Hdoc; try discriminate.
    cbn [refreshable]. intros Hok.
    destruct (refresh_tallies u top Hload Hdoc (float_free_int_document top Hok Hfree))
      as (acc & ws & -> & _).
    reflexivity.
Qed.

Lemma refresh_returns_exactly_when_witness :
  (fst (refresh (BI:=MilliUi.builtins) MilliUi.two_games_desk) = Return tt <->
   refreshable (BI:=MilliUi.builtins) (loaded (ui_world MilliUi.two_games_desk)) = true) /\
  (refreshable (BI:=MilliUi.builtins) (loaded (ui_world MilliUi.large_desk)) = true /\
   fst (refresh (BI:=MilliUi.builtins) MilliUi.large_desk) = Raise int_too_large).
Proof.
  split.
  - apply (refresh_returns_exactly_when (BI:=MilliUi.builtins) MilliUi.two_games_desk).
    + vm_compute. reflexivity.
    + vm_compute. reflexivity.
  - assert (Hok : refreshable (BI:=MilliUi.builtins) (loaded (ui_world MilliUi.large_desk))
                  = true).
    { vm_compute. reflexivity. }
    split; [exact Hok|].
    destruct (proj1 (proj2 (refresh_returns_exactly_when (BI:=MilliUi.builtins)
                              MilliUi.large_desk eq_refl)) Hok) as [Hret|Hraise];
      [|exact Hraise].
    exfalso. vm_compute in Hret. discriminate Hret.
Defined.


(** X19: on a document of ints (the key of each object a date, the
    ["total"] of each record that is not skipped an int) [refresh] returns
    normally and shows the sums of the records: in the two labels the
    seconds of today and of the current ISO week, and for each game of the
    cache its seconds of today, of the week and of all dates. *)
Theorem refresh_shows_sums `{BI : Builtins} (u : Ui) (top : list (string * JSON Float)) :
  load_error (ui_world u) = None ->
  loaded (ui_world u) = JDict top ->
  int_document top = true ->
  exists u',
    refresh u = (Return tt, u') /\
    today_label u' =
      "Today's Playtime: "
      +:+ format_playtime (ArgInt (seconds on_today (visits (ui_today u) (ui_week u) top))) /\
    week_label u' =
      "This Week's Playtime: "
      +:+ format_playtime (ArgInt (seconds in_week (visits (ui_today u) (ui_week u) top))) /\
    forall game_name e,
      dict_get game_name (cache u') = Some e ->
      e_today e = NInt (seconds (fun v => on_today v && of_game game_name v)
                          (visits (ui_today u) (ui_week u) top)) /\
      e_week e = NInt (seconds (fun v => in_week v && of_game game_name v)
                         (visits (ui_today u) (ui_week u) top)) /\
      e_total e = NInt (seconds (of_game game_name) (visits (ui_today u) (ui_week u) top)).
Proof.
  intros Hload Hdoc Hint.
  destruct (refresh_tallies u top Hload Hdoc Hint) as (acc & ws & Hrun & HT & HW & Hg & Hall).
  eexists. split; [exact Hrun|].
  unfold shows, shown. cbn [today_label week_label cache].
  split; [rewrite HT; reflexivity|]. split; [rewrite HW; reflexivity|].
  intros n e He. specialize (Hg n). rewrite He in Hg.
  destruct Hg as (Ha & Hb & Hc & _). auto.
Qed.

Lemma refresh_shows_sums_witness :
  today_label (snd (refresh (BI:=MilliUi.builtins) MilliUi.two_games_desk)) =
  "Today's Playtime: 1h2m1s" /\
  week_label (snd (refresh (BI:=MilliUi.builtins) MilliUi.two_games_desk)) =
  "This Week's Playtime: 1h2m1s".
Proof.
  destruct (refresh_shows_sums (BI:=MilliUi.builtins) MilliUi.two_games_desk
              [("2023-12-31",
                JDict [("Other", JDict [("total", JInt 30);
                                        ("last_open", JStr "2023-12-31 20:00:00");
                                        ("last_close", JStr "2023-12-31 20:00:30")])]);
               ("2024-01-01",
                JDict [("Game", JDict [("total", JInt 60);
                                       ("last_open", JStr "2024-01-01 10:00:00");
                                       ("last_close", JStr "2024-01-01 10:01:00")]);
                       ("Other", JDict [("total", JInt 3661);
                                        ("last_open", JStr "2024-01-01 12:00:00");
                                        ("last_close", JStr "2024-01-01 13:01:01")])])])
    as (u' & Hrun & Htoday & Hweek & _).
  - vm_compute. reflexivity.
  - vm_compute. reflexivity.
  - vm_compute. reflexivity.
  - apply (f_equal snd) in Hrun. cbn [snd] in Hrun. rewrite Hrun, Htoday, Hweek.
    split; vm_compute; reflexivity.
Defined.

(** X20: the times of last opening and closing that [refresh] caches for a
    game (the tooltip of the table shows them) are those of the first
    record of the game in the document, whatever the later ones hold; a
    game is in the cache exactly when it has a record that is not
    skipped. *)
Theorem cache_keeps_first_record `{BI : Builtins} (u : Ui) (top : list (string * JSON Float)) :
  load_error (ui_world u) = None ->
  loaded (ui_world u) = JDict top ->
  int_document top = true ->
  exists u',
    refresh u = (Return tt, u') /\
    forall game_name,
      match dict_get game_name (cache u') with
      | Some e =>
        exists r,
          first_record game_name (visits (ui_today u) (ui_week u) top) = Some (JDict r) /\
          e_last_open e = field_or_none "last_open" r /\
          e_last_close e = field_or_none "last_close" r
      | None => first_record game_name (visits (ui_today u) (ui_week u) top) = None
      end.
Proof.
  intros Hload Hdoc Hint.
  destruct (refresh_tallies u top Hload Hdoc Hint) as (acc & ws & Hrun & HT & HW & Hg & Hall).
  eexists. split; [exact Hrun|].
  unfold shows, shown. cbn [cache].
  intros n. specialize (Hg n). destruct (dict_get n (acc_games acc)); [|exact Hg].
  destruct Hg as (_ & _ & _ & Hfirst). exact Hfirst.
Qed.

Lemma cache_keeps_first_record_witness :
  exists e,
    dict_get "Other" (cache (snd (refresh (BI:=MilliUi.builtins) MilliUi.two_games_desk))) =
    Some e /\
    e_last_open e = JStr "2023-12-31 20:00:00".
Proof.
  destruct (cache_keeps_first_record (BI:=MilliUi.builtins) MilliUi.two_games_desk
              [("2023-12-31",
                JDict [("Other", JDict [("total", JInt 30);
                                        ("last_open", JStr "2023-12-31 20:00:00");
                                        ("last_close", JStr "2023-12-31 20:00:30")])]);
               ("2024-01-01",
                JDict [("Game", JDict [("total", JInt 60);
                                       ("last_open", JStr "2024-01-01 10:00:00");
                                       ("last_close", JStr "2024-01-01 10:01:00")]);
                       ("Other", JDict [("total", JInt 3661);
                                        ("last_open", JStr "2024-01-01 12:00:00");
                                        ("last_close", JStr "2024-01-01 13:01:01")])])])
    as (u' & Hrun & Hfirst).
  - vm_compute. reflexivity.
  - vm_compute. reflexivity.
  - vm_compute. reflexivity.
  - apply (f_equal snd) in Hrun. cbn [snd] in Hrun. rewrite Hrun.
    specialize (Hfirst "Other").
    destruct (dict_get "Other" (cache u')) as [e|].
    + destruct Hfirst as (r & Hr & Ho & _). exists e. split; [reflexivity|].
      rewrite Ho. vm_compute in Hr. injection Hr as <-. reflexivity.
    + vm_compute in Hfirst. discriminate.
Defined.

(** X21: what the watcher saves, the window can show. When the document on
    disk is a document of ints and [_record] merges a session into it and
    writes it, [_record] returns and [refresh] on the disk that it leaves
    returns normally. The builtins are taken to agree: [json.loads] reads
    what [json.dumps] wrote, and [strptime] accepts the date that
    [strftime] gave. *)
Theorem saved_session_can_be_shown `{BI : Builtins} (self : Watcher) (exe : string)
    (g : Game) (start_ts : Float) (duration : Z) (s : State) (u : Ui)
    (date_obj : DateTime) (top : list (string * JSON Float)) (doc' : JSON Float) :
  games self !! exe = Some g ->
  load_error s = None ->
  loaded s = JDict top ->
  int_document top = true ->
  strptime_date (today_of s) = Return date_obj ->
  merge_session (loaded s) (today_of s) (name g)
    (strftime_full (fromtimestamp start_ts)) (closed_at s) duration = Return doc' ->
  json_loads (json_dumps doc') = Return doc' ->
  data_dir s = DirPresent ->
  write_outcomes s (writes s) = WriteOk ->
  ui_world u = snd (_record self exe start_ts duration s) ->
  fst (_record self exe start_ts duration s) = Return tt /\
  fst (refresh u) = Return tt.
Proof.
  intros Hg Hload Hdoc Hok Hdate Hm Hround Hdir Hw Hu.
  rewrite (_record_eq self exe g start_ts duration s Hg) in *. cbv zeta in *.
  rewrite Hm in *. rewrite _save_eq in *.
  cbn [data_dir writes write_outcomes tick_clock] in *.
  rewrite after_load_data_dir, after_load_writes, after_load_write_outcomes in *.
  rewrite logged_data_dir, logged_writes, logged_write_outcomes in *.
  cbn [data_dir writes write_outcomes tick_clock] in *. rewrite Hdir, Hw in *.
  cbn [fst snd] in *. split; [reflexivity|].
  assert (Hfile : data_file (ui_world u) = Content (json_dumps doc')).
  { rewrite Hu. reflexivity. }
  rewrite Hdoc in Hm.
  destruct (merge_session_int_document _ _ _ _ _ _ _ _ Hok Hdate Hm) as (top' & -> & Hok').
  destruct (refresh_tallies u top') as (acc & ws & -> & _); [| |exact Hok'|reflexivity].
  - unfold load_error. rewrite Hfile, Hround. reflexivity.
  - unfold loaded. rewrite Hfile, Hround. reflexivity.
Qed.

Lemma saved_session_can_be_shown_witness :
  fst (_record (RT:=Milli.runtime) Milli.watcher "game.exe" (Milli.t0 - 60000) 60
         Milli.saved_hour) = Return tt /\
  fst (refresh (BI:=MilliUi.builtins) (MilliUi.desk Milli.first_recorded)) = Return tt.
Proof.
  apply (saved_session_can_be_shown (BI:=MilliUi.builtins) Milli.watcher "game.exe"
           (mkGame "Game" "1" "/x/game.exe") (Milli.t0 - 60000) 60 Milli.saved_hour
           (MilliUi.desk Milli.first_recorded)
           (mkDateTime 2024 1 1 0 0 0)
           [("2024-01-01",
             JDict [("Game", JDict [("total", JInt 3600);
                                    ("last_open", JStr "2024-01-01 10:00:00");
                                    ("last_close", JStr "2024-01-01 11:00:00")])])]
           (JDict [("2024-01-01",
                    JDict [("Game", JDict [("total", JInt 3660);
                                           ("last_open", JStr "2024-01-01 23:58:50");
                                           ("last_close", JStr "2024-01-01 23:59:50")])])])).
  - reflexivity.
  - vm_compute. reflexivity.
  - vm_compute. reflexivity.
  - vm_compute. reflexivity.
  - vm_compute. reflexivity.
  - vm_compute. reflexivity.
  - vm_compute. reflexivity.
  - reflexivity.
  - reflexivity.
  - reflexivity.
Defined.

(** X22: on a document of ints the table that [refresh] fills has one row
    for each game of the cache, in descending order of the seconds of
    today; games of equal seconds are in the order of the cache, that of
    their first records in the document. *)
Theorem table_orders_by_today `{BI : Builtins} (u : Ui) (top : list (string * JSON Float)) :
  load_error (ui_world u) = None ->
  loaded (ui_world u) = JDict top ->
  int_document top = true ->
  exists u' ordered,
    refresh u = (Return tt, u') /\
    table u' = row_of <$> ordered /\
    ordered ≡ₚ cache u' /\
    StronglySorted (fun a b => today_seconds b <= today_seconds a) ordered /\
    forall z, List.filter (fun item => today_seconds item =? z) ordered =
              List.filter (fun item => today_seconds item =? z) (cache u').
Proof.
  intros Hload Hdoc Hint.
  destruct (refresh_tallies u top Hload Hdoc Hint) as (acc & ws & Hrun & HT & HW & Hg & Hall).
  destruct (sort_desc_by_key today_seconds (acc_games acc)) as (Hperm & Hsorted & Hstable).
  exists (shows acc (emit_all ws (clock_read (clock_read u)))),
    (sort_desc ((fun item => (today_seconds item, item)) <$> acc_games acc)).*2.
  split; [exact Hrun|]. unfold shows, shown. cbn [table cache].
  split; [rewrite (sorted_by_today_int _ Hall); reflexivity|].
  split; [exact Hperm|]. split; [exact Hsorted | exact Hstable].
Qed.

Lemma table_orders_by_today_witness :
  exists ordered : list (string * Entry (RT:=Milli.runtime)),
    table (snd (refresh (BI:=MilliUi.builtins) MilliUi.two_games_desk)) = row_of <$> ordered /\
    ordered ≡ₚ cache (snd (refresh (BI:=MilliUi.builtins) MilliUi.two_games_desk)).
Proof.
  destruct (table_orders_by_today (BI:=MilliUi.builtins) MilliUi.two_games_desk
              [("2023-12-31",
                JDict [("Other", JDict [("total", JInt 30);
                                        ("last_open", JStr "2023-12-31 20:00:00");
                                        ("last_close", JStr "2023-12-31 20:00:30")])]);
               ("2024-01-01",
                JDict [("Game", JDict [("total", JInt 60);
                                       ("last_open", JStr "2024-01-01 10:00:00");
                                       ("last_close", JStr "2024-01-01 10:01:00")]);
                       ("Other", JDict [("total", JInt 3661);
                                        ("last_open", JStr "2024-01-01 12:00:00");
                                        ("last_close", JStr "2024-01-01 13:01:01")])])])
    as (u' & ordered & Hrun & Htable & Hperm & _).
  - vm_compute. reflexivity.
  - vm_compute. reflexivity.
  - vm_compute. reflexivity.
  - apply (f_equal snd) in Hrun. cbn [snd] in Hrun. rewrite Hrun.
    exists ordered. split; assumption.
Defined.

(** *** The tray and the window on one document *)

Section Agreement.
Context `{BI : Builtins}.
Implicit Types (top day : list (string * JSON Float)) (vs : list Visit).

Lemma ranking_of_ints today data day :
  get_day today data = Return (JDict day) ->
  Forall (fun item => is_Some (int_total item.2)) day ->
  exists ordered,
    ranking_of today data =
      Return ((fun item => (item.1, format_playtime (ArgInt (rank_total item)))) <$> ordered) /\
    ordered ≡ₚ day.
Proof.
  intros Hday Hint. unfold ranking_of. rewrite Hday. cbn [items].
  destruct (keyed_int_totals day Hint) as (ks & -> & Hks).
  unfold sorted_reverse. rewrite Hks.
  destruct (sort_desc_by_key rank_total day) as (Hperm & _).
  eexists. split; [|exact Hperm].
  rewrite ranking_loop_app; [reflexivity|]. rewrite Hperm. exact Hint.
Qed.

Lemma seconds_day keep (f : string * JSON Float -> Visit) day :
  seconds keep (f <$> day) =
  foldr (fun item s => (if keep (f item) then rank_total (visited (f item)) else 0) + s) 0 day.
Proof.
  induction day as [|item day IH]; [reflexivity|].
  cbn [fmap list_fmap seconds foldr] in *. fold (seconds keep (f <$> day)). rewrite IH.
  reflexivity.
Qed.

(** The records of other days count for nothing today. *)
Lemma seconds_not_today today cw game_name top :
  today ∉ dict_keys top ->
  seconds (fun v => on_today v && of_game game_name v) (visits today cw top) = 0.
Proof.
  unfold visits. induction top as [|[date daily] top IH]; [reflexivity|].
  cbn [dict_keys fmap list_fmap fst flat_map]. intros Hnot.
  apply not_elem_of_cons in Hnot. destruct Hnot as [Hne Hnot].
  rewrite seconds_app. unfold dict_keys in IH. rewrite (IH Hnot), Z.add_0_r. cbn [fst snd].
  destruct daily as [| | | | | |day]; try reflexivity.
  destruct (strptime_date date) as [date_obj|e]; [|reflexivity].
  rewrite seconds_day. cbn [on_today].
  rewrite bool_decide_eq_false_2 by (intros ->; apply Hne; reflexivity).
  cbn [andb]. induction day as [|item day IHd]; [reflexivity|].
  cbn [foldr]. rewrite IHd. reflexivity.
Qed.

(** In a day the records of one game are one record. *)
Lemma seconds_one_record (wk : bool) game_name info day :
  NoDup (dict_keys day) -> (game_name, info) ∈ day ->
  foldr (fun item s =>
           (if on_today (mkVisit true wk item) && of_game game_name (mkVisit true wk item)
            then rank_total (visited (mkVisit true wk item)) else 0) + s) 0 day =
  rank_total (game_name, info).
Proof.
  cbn [on_today visited andb]. unfold of_game. cbn [visited].
  induction day as [|[n i] day IH]; [intros _ H; inversion H|].
  cbn [dict_keys fmap list_fmap fst foldr]. intros Hnd Hin.
  apply NoDup_cons in Hnd. destruct Hnd as [Hn Hnd].
  apply elem_of_cons in Hin. destruct Hin as [[= <- <-]|Hin].
  - rewrite bool_decide_eq_true_2 by reflexivity.
    assert (Hrest : foldr (fun item s =>
                             (if bool_decide (item.1 = game_name) then rank_total item else 0)
                             + s) 0 day = 0).
    { clear IH Hnd. induction day as [|[n' i'] day IHd]; [reflexivity|].
      cbn [foldr fst]. apply not_elem_of_cons in Hn. destruct Hn as [Hne Hn].
      rewrite bool_decide_eq_false_2 by (intros ->; apply Hne; reflexivity).
      rewrite (IHd Hn). reflexivity. }
    rewrite Hrest. lia.
  - rewrite bool_decide_eq_false_2.
    + unfold dict_keys in IH. rewrite (IH Hnd Hin). reflexivity.
    + intros ->. apply Hn. apply (list_elem_of_fmap_2 fst day (game_name, info) Hin).
Qed.

(** The seconds of a game today are the total of its record of today. *)
Lemma seconds_today today cw game_name info top day :
  NoDup (dict_keys top) -> int_document top = true ->
  dict_get today top = Some (JDict day) ->
  NoDup (dict_keys day) -> (game_name, info) ∈ day ->
  seconds (fun v => on_today v && of_game game_name v) (visits today cw top) =
  rank_total (game_name, info).
Proof.
  intros Hnd Hint Hget Hndd Hin. unfold int_document in Hint.
  induction top as [|[date daily] top IH]; [discriminate|].
  cbn [dict_keys fmap list_fmap fst] in Hnd. apply NoDup_cons in Hnd. destruct Hnd as [Hn Hnd].
  cbn [forallb] in Hint. apply andb_true_iff in Hint. destruct Hint as [Hdate Hint].
  cbn [dict_get] in Hget.
  change (visits today cw ((date, daily) :: top))
    with (match daily with
          | JDict day0 =>
            match strptime_date date with
            | Return date_obj =>
              (fun item => mkVisit (bool_decide (date = today)) (iso_week date_obj =? cw) item)
                <$> day0
            | Raise _ => []
            end
          | _ => []
          end ++ visits today cw top).
  rewrite seconds_app.
  destruct (decide (date = today)) as [->|Hne].
  - injection Hget as ->. rewrite (seconds_not_today today cw game_name top Hn).
    unfold int_date in Hdate. cbn [fst snd] in Hdate.
    destruct (strptime_date today) as [date_obj|e]; [|discriminate].
    rewrite seconds_day, bool_decide_eq_true_2 by reflexivity.
    rewrite (seconds_one_record _ game_name info day Hndd Hin). lia.
  - rewrite (IH Hnd Hint Hget).
    assert (Hzero : seconds (fun v => on_today v && of_game game_name v)
                      match daily with
                      | JDict day0 =>
                        match strptime_date date with
                        | Return date_obj =>
                          (fun item =>
                             mkVisit (bool_decide (date = today)) (iso_week date_obj =? cw) item)
                            <$> day0
                        | Raise _ => []
                        end
                      | _ => []
                      end = 0).
    { destruct daily as [| | | | | |day0]; try reflexivity.
      destruct (strptime_date date) as [date_obj|e]; [|reflexivity].
      rewrite seconds_day. cbn [on_today].
      rewrite bool_decide_eq_false_2 by exact Hne. cbn [andb].
      clear. induction day0 as [|item day0 IHd]; [reflexivity|].
      cbn [foldr]. rewrite IHd. reflexivity. }
    rewrite Hzero. reflexivity.
Qed.

(** A record of today that counts is among the records met. *)
Lemma first_record_today today cw game_name info top day :
  int_document top = true ->
  dict_get today top = Some (JDict day) ->
  (game_name, info) ∈ day -> valid_record info = true ->
  is_Some (first_record game_name (visits today cw top)).
Proof.
  intros Hint Hget Hin Hvalid.
  assert (Hv : exists v, In v (visits today cw top) /\
                         (of_game game_name v && valid_record (visited v).2) = true).
  { unfold int_document in Hint.
    induction top as [|[date daily] top IH]; [discriminate|].
    cbn [forallb] in Hint. apply andb_true_iff in Hint. destruct Hint as [Hdate Hint].
    cbn [dict_get] in Hget. unfold visits. cbn [flat_map fst snd]. fold (visits today cw top).
    destruct (decide (date = today)) as [->|Hne].
    - injection Hget as ->. unfold int_date in Hdate. cbn [fst snd] in Hdate.
      destruct (strptime_date today) as [date_obj|e]; [|discriminate].
      exists (mkVisit (bool_decide (today = today)) (iso_week date_obj =? cw) (game_name, info)).
      split.
      + apply in_or_app. left. apply list_elem_of_In.
        apply (list_elem_of_fmap_2
                 (fun item => mkVisit (bool_decide (today = today)) (iso_week date_obj =? cw) item)
                 day (game_name, info) Hin).
      + unfold of_game. cbn [visited fst snd]. rewrite Hvalid.
        rewrite bool_decide_eq_true_2 by reflexivity. reflexivity.
    - destruct (IH Hint Hget) as (v & Hv & Hp). exists v.
      split; [apply in_or_app; right; exact Hv | exact Hp]. }
  destruct Hv as (v & Hv & Hp). unfold first_record.
  destruct (List.find (fun v => of_game game_name v && valid_record (visited v).2)
              (visits today cw top)) eqn:Hfind; [cbn; eauto|].
  pose proof (find_none _ _ Hfind v Hv) as Hnone. cbv beta in Hnone. congruence.
Qed.

End Agreement.

(** X27: the tray and the window agree. On one document of ints, read at
    one moment, in which the dates are distinct and so are the games of
    today, each game that [get_today_ranking] lists is in the cache of
    [refresh], and the time the tray shows for it is the time of the
    Today column of the window. *)
Theorem tray_agrees_with_window `{BI : Builtins} (u : Ui)
    (top day : list (string * JSON Float)) :
  tray_document u = Some (JDict top) ->
  load_error (ui_world u) = None ->
  loaded (ui_world u) = JDict top ->
  int_document top = true ->
  NoDup (dict_keys top) ->
  dict_get (ui_today u) top = Some (JDict day) ->
  NoDup (dict_keys day) ->
  Forall (fun item => is_Some (int_total item.2)) day ->
  exists ranking u',
    fst (get_today_ranking u) = Return ranking /\
    refresh u = (Return tt, u') /\
    length ranking = length day /\
    forall game_name text,
      (game_name, text) ∈ ranking ->
      exists e,
        dict_get game_name (cache u') = Some e /\
        text = format_playtime (arg_of_num (e_today e)).
Proof.
  intros Htray Hload Hdoc Hint Hnd Hget Hndd Hday.
  destruct (refresh_tallies u top Hload Hdoc Hint) as (acc & ws & Hrun & _ & _ & Hg & _).
  assert (Hgd : get_day (ui_today u) (JDict top) = Return (JDict day)).
  { cbn [get_day]. rewrite Hget. reflexivity. }
  destruct (ranking_of_ints (ui_today u) (JDict top) day Hgd Hday) as (ordered & Hrank & Hperm).
  eexists. eexists. split.
  { rewrite get_today_ranking_eq. revert Htray. unfold tray_document.
    destruct (data_file (ui_world u)) as [|e|raw]; try discriminate.
    destruct (decide (str_strip raw = "")); [discriminate|].
    destruct (json_loads (str_strip raw)) as [data|e]; [|discriminate].
    intros [= ->]. cbn [fst]. exact Hrank. }
  split; [exact Hrun|].
  split; [rewrite length_fmap; apply Permutation_length, Hperm|].
  intros game_name text Hin. apply list_elem_of_fmap in Hin.
  destruct Hin as ([n info] & [= -> ->] & Hitem). cbn [fst].
  rewrite Hperm in Hitem.
  assert (Hvalid : valid_record info = true).
  { rewrite Forall_forall in Hday. destruct (Hday _ Hitem) as [z Hz]. cbn [snd] in Hz.
    revert Hz. unfold int_total, valid_record. destruct info as [| | | | | |r]; try discriminate.
    destruct (dict_get "total" r); [reflexivity | discriminate]. }
  destruct (first_record_today (ui_today u) (ui_week u) n info top day Hint Hget Hitem Hvalid)
    as [x Hx].
  unfold shows, shown. cbn [cache]. specialize (Hg n).
  destruct (dict_get n (acc_games acc)) as [e|]; [|congruence].
  destruct Hg as (Htoday & _). exists e. split; [reflexivity|].
  rewrite Htoday.
  rewrite (seconds_today (ui_today u) (ui_week u) n info top day Hnd Hint Hget Hndd Hitem).
  reflexivity.
Qed.

Lemma tray_agrees_with_window_witness :
  exists ranking,
    fst (get_today_ranking (BI:=MilliUi.builtins) MilliUi.two_games_desk) = Return ranking /\
    length ranking = 2%nat.
Proof.
  destruct (tray_agrees_with_window (BI:=MilliUi.builtins) MilliUi.two_games_desk
              [("2023-12-31",
                JDict [("Other", JDict [("total", JInt 30);
                                        ("last_open", JStr "2023-12-31 20:00:00");
                                        ("last_close", JStr "2023-12-31 20:00:30")])]);
               ("2024-01-01",
                JDict [("Game", JDict [("total", JInt 60);
                                       ("last_open", JStr "2024-01-01 10:00:00");
                                       ("last_close", JStr "2024-01-01 10:01:00")]);
                       ("Other", JDict [("total", JInt 3661);
                                        ("last_open", JStr "2024-01-01 12:00:00");
                                        ("last_close", JStr "2024-01-01 13:01:01")])])]
              [("Game", JDict [("total", JInt 60);
                               ("last_open", JStr "2024-01-01 10:00:00");
                               ("last_close", JStr "2024-01-01 10:01:00")]);
               ("Other", JDict [("total", JInt 3661);
                                ("last_open", JStr "2024-01-01 12:00:00");
                                ("last_close", JStr "2024-01-01 13:01:01")])])
    as (ranking & u' & Hrank & _ & Hlen & _).
  - vm_compute. reflexivity.
  - vm_compute. reflexivity.
  - vm_compute. reflexivity.
  - vm_compute. reflexivity.
  - apply (bool_decide_unpack _). vm_compute. exact I.
  - vm_compute. reflexivity.
  - apply (bool_decide_unpack _). vm_compute. exact I.
  - repeat constructor; eexists; reflexivity.
  - exists ranking. split; [exact Hrank | exact Hlen].
Defined.


(** ** The scanner *)

Section Scanner.
Context `{FS : FileSystem}.
Implicit Types (games : gmap string Game) (k file : string) (g : Game).

(** **** Where the entries come from *)

Lemma scan_file_lookup game_name app_id root_dir file games k g :
  scan_file game_name app_id root_dir file games !! k = Some g ->
  games !! k = Some g \/
  (is_game_exe file = true /\ k = str_lower file /\
   g = mkGame game_name app_id (path_join root_dir [file])).
Proof.
  unfold scan_file, is_game_exe.
  destruct (endswith ".exe" (str_lower file)); cbn [negb andb]; [|auto].
  destruct (bool_decide (str_lower file ∈ EXE_BLACKLIST)); cbn [negb]; [auto|].
  intros H. apply lookup_insert_Some in H. destruct H as [[<- <-]|[_ H]]; auto.
Qed.

Lemma scan_files_lookup game_name app_id root_dir file_list games k g :
  scan_files game_name app_id root_dir file_list games !! k = Some g ->
  games !! k = Some g \/
  exists file,
    file ∈ file_list /\ is_game_exe file = true /\ k = str_lower file /\
    g = mkGame game_name app_id (path_join root_dir [file]).
Proof.
  unfold scan_files. revert games.
  induction file_list as [|file file_list IH]; intros games; cbn [foldl]; [auto|].
  intros H. destruct (IH _ H) as [H1|(f & Hin & Hf)].
  - destruct (scan_file_lookup _ _ _ _ _ _ _ H1) as [H0|Hf]; [auto|].
    right. exists file. split; [left | exact Hf].
  - right. exists f. split; [right; exact Hin | exact Hf].
Qed.

Lemma scan_tree_lookup game_name app_id tree games k g :
  scan_tree game_name app_id tree games !! k = Some g ->
  games !! k = Some g \/
  exists root_dir file_list file,
    (root_dir, file_list) ∈ tree /\ file ∈ file_list /\ is_game_exe file = true /\
    k = str_lower file /\ g = mkGame game_name app_id (path_join root_dir [file]).
Proof.
  unfold scan_tree. revert games.
  induction tree as [|[root_dir file_list] tree IH]; intros games; cbn [foldl fst snd]; [auto|].
  intros H. destruct (IH _ H) as [H1|(rd & fl & f & Hin & Hf)].
  - destruct (scan_files_lookup _ _ _ _ _ _ _ H1) as [H0|(f & Hin & Hf)]; [auto|].
    right. exists root_dir, file_list, f. split; [left | auto].
  - right. exists rd, fl, f. split; [right; exact Hin | exact Hf].
Qed.

(** A manifest that the scan does not skip has its tree scanned. *)
Lemma scan_manifest_eq steamapps_dir file_name games :
  scan_manifest steamapps_dir file_name games =
  if negb (String.prefix "appmanifest_" file_name) || negb (endswith ".acf" file_name)
  then Return games
  else
    match parse_acf (path_join steamapps_dir [file_name]) with
    | Raise e => Raise e
    | Return _ =>
      match manifest steamapps_dir file_name with
      | Some (game_name, app_id, game_root_dir) =>
        Return (scan_tree game_name app_id (walk game_root_dir) games)
      | None => Return games
      end
    end.
Proof.
  unfold scan_manifest, manifest.
  destruct (negb (String.prefix "appmanifest_" file_name) || negb (endswith ".acf" file_name));
    [reflexivity|].
  destruct (parse_acf (path_join steamapps_dir [file_name])) as [[game_name install_dir]|e];
    [|reflexivity].
  destruct game_name as [game_name|]; [|reflexivity].
  destruct install_dir as [install_dir|]; cbn [falsy default from_option];
    [|rewrite orb_true_r; reflexivity].
  destruct (bool_decide (game_name = "") || bool_decide (install_dir = "")); [reflexivity|].
  unfold id. destruct (isdir (path_join steamapps_dir ["common"; install_dir])); reflexivity.
Qed.

Lemma scan_manifests_lookup steamapps_dir file_names games games' k g :
  scan_manifests steamapps_dir file_names games = Return games' ->
  games' !! k = Some g ->
  games !! k = Some g \/ scanned_from steamapps_dir file_names k g.
Proof.
  revert games. induction file_names as [|file_name file_names IH]; intros games.
  { intros [= <-]. auto. }
  cbn [scan_manifests].
  destruct (scan_manifest steamapps_dir file_name games) as [games1|e] eqn:Hm; [|discriminate].
  intros Hrest Hk. destruct (IH _ Hrest Hk) as [H1|Hfrom].
  2:{ right. destruct Hfrom as (fn & gr & rd & fl & f & Hin & Hrest').
      exists fn, gr, rd, fl, f. split; [right; exact Hin | exact Hrest']. }
  rewrite scan_manifest_eq in Hm.
  destruct (negb (String.prefix "appmanifest_" file_name) || negb (endswith ".acf" file_name));
    [injection Hm as <-; auto|].
  destruct (parse_acf (path_join steamapps_dir [file_name])) as [parsed|e]; [|discriminate].
  destruct (manifest steamapps_dir file_name) as [[[game_name app_id] game_root_dir]|] eqn:Hman;
    injection Hm as <-; [|auto].
  destruct (scan_tree_lookup _ _ _ _ _ _ H1) as [H0|(rd & fl & f & Hin & Hf & Hexe & Hkey & ->)];
    [auto|].
  right. exists file_name, game_root_dir, rd, fl, f. cbn [name appid exe_path].
  split; [left|]. auto 10.
Qed.

(** **** What the scan keeps *)

Lemma scan_file_present game_name app_id root_dir file games k :
  is_Some (games !! k) -> is_Some (scan_file game_name app_id root_dir file games !! k).
Proof.
  unfold scan_file. destruct (negb (endswith ".exe" (str_lower file))); [auto|].
  destruct (bool_decide (str_lower file ∈ EXE_BLACKLIST)); [auto|].
  intros H. destruct (decide (str_lower file = k)) as [<-|Hne].
  - rewrite lookup_insert_eq. eauto.
  - rewrite lookup_insert_ne by exact Hne. exact H.
Qed.

Lemma scan_file_keeps game_name app_id root_dir file games k :
  owned game_name app_id k games ->
  owned game_name app_id k (scan_file game_name app_id root_dir file games).
Proof.
  unfold scan_file. destruct (negb (endswith ".exe" (str_lower file))); [auto|].
  destruct (bool_decide (str_lower file ∈ EXE_BLACKLIST)); [auto|].
  intros H. destruct (decide (str_lower file = k)) as [<-|Hne].
  - eexists. rewrite lookup_insert_eq. split; [reflexivity | split; reflexivity].
  - destruct H as (g & Hg & Hn). exists g. rewrite lookup_insert_ne by exact Hne. auto.
Qed.

Lemma scan_file_owns game_name app_id root_dir file games :
  is_game_exe file = true ->
  owned game_name app_id (str_lower file) (scan_file game_name app_id root_dir file games).
Proof.
  unfold scan_file, is_game_exe. intros H. apply andb_true_iff in H. destruct H as [H1 H2].
  rewrite H1. cbn [negb]. apply negb_true_iff in H2. rewrite H2.
  eexists. rewrite lookup_insert_eq. split; [reflexivity | split; reflexivity].
Qed.

Lemma scan_files_keeps game_name app_id root_dir file_list games k :
  owned game_name app_id k games ->
  owned game_name app_id k (scan_files game_name app_id root_dir file_list games).
Proof.
  unfold scan_files. revert games.
  induction file_list as [|file file_list IH]; intros games H; cbn [foldl]; [exact H|].
  apply IH, scan_file_keeps, H.
Qed.

Lemma scan_files_present game_name app_id root_dir file_list games k :
  is_Some (games !! k) ->
  is_Some (scan_files game_name app_id root_dir file_list games !! k).
Proof.
  unfold scan_files. revert games.
  induction file_list as [|file file_list IH]; intros games H; cbn [foldl]; [exact H|].
  apply IH, scan_file_present, H.
Qed.

Lemma scan_files_owns game_name app_id root_dir file_list games file :
  file ∈ file_list -> is_game_exe file = true ->
  owned game_name app_id (str_lower file)
        (scan_files game_name app_id root_dir file_list games).
Proof.
  intros Hin Hexe. revert games.
  induction file_list as [|f file_list IH]; intros games; [inversion Hin|].
  apply elem_of_cons in Hin. destruct Hin as [->|Hin].
  - change (scan_files game_name app_id root_dir (f :: file_list) games)
      with (scan_files game_name app_id root_dir file_list
              (scan_file game_name app_id root_dir f games)).
    apply scan_files_keeps, scan_file_owns, Hexe.
  - apply (IH Hin).
Qed.

Lemma scan_tree_keeps game_name app_id tree games k :
  owned game_name app_id k games -> owned game_name app_id k (scan_tree game_name app_id tree games).
Proof.
  unfold scan_tree. revert games.
  induction tree as [|entry tree IH]; intros games H; cbn [foldl]; [exact H|].
  apply IH, scan_files_keeps, H.
Qed.

Lemma scan_tree_present game_name app_id tree games k :
  is_Some (games !! k) -> is_Some (scan_tree game_name app_id tree games !! k).
Proof.
  unfold scan_tree. revert games.
  induction tree as [|entry tree IH]; intros games H; cbn [foldl]; [exact H|].
  apply IH, scan_files_present, H.
Qed.

Lemma scan_tree_owns game_name app_id tree games root_dir file_list file :
  (root_dir, file_list) ∈ tree -> file ∈ file_list -> is_game_exe file = true ->
  owned game_name app_id (str_lower file) (scan_tree game_name app_id tree games).
Proof.
  intros Hin Hfile Hexe. revert games.
  induction tree as [|entry tree IH]; intros games; [inversion Hin|].
  apply elem_of_cons in Hin. destruct Hin as [<-|Hin].
  - change (scan_tree game_name app_id ((root_dir, file_list) :: tree) games)
      with (scan_tree game_name app_id tree
              (scan_files game_name app_id root_dir file_list games)).
    apply scan_tree_keeps, scan_files_owns; assumption.
  - apply (IH Hin).
Qed.

Lemma scan_manifests_present steamapps_dir file_names games games' k :
  scan_manifests steamapps_dir file_names games = Return games' ->
  is_Some (games !! k) -> is_Some (games' !! k).
Proof.
  revert games. induction file_names as [|file_name file_names IH]; intros games.
  { intros [= <-]. auto. }
  cbn [scan_manifests].
  destruct (scan_manifest steamapps_dir file_name games) as [games1|e] eqn:Hm; [|discriminate].
  intros Hrest Hk. apply (IH _ Hrest).
  rewrite scan_manifest_eq in Hm.
  destruct (negb (String.prefix "appmanifest_" file_name) || negb (endswith ".acf" file_name));
    [injection Hm as <-; exact Hk|].
  destruct (parse_acf (path_join steamapps_dir [file_name])) as [parsed|e]; [|discriminate].
  destruct (manifest steamapps_dir file_name) as [[[game_name app_id] game_root_dir]|];
    injection Hm as <-; [apply scan_tree_present, Hk | exact Hk].
Qed.

Lemma scan_manifests_app steamapps_dir names1 names2 games :
  scan_manifests steamapps_dir (names1 ++ names2) games =
  match scan_manifests steamapps_dir names1 games with
  | Raise e => Raise e
  | Return games1 => scan_manifests steamapps_dir names2 games1
  end.
Proof.
  revert games. induction names1 as [|n names1 IH]; intros games; [reflexivity|].
  cbn [app scan_manifests].
  destruct (scan_manifest steamapps_dir n games); [apply IH | reflexivity].
Qed.

(** A manifest that is not skipped leaves its executables in the catalog
    under its own game. *)
Lemma scan_manifest_owns steamapps_dir file_name games games' game_name app_id game_root_dir
    root_dir file_list file :
  scan_manifest steamapps_dir file_name games = Return games' ->
  manifest steamapps_dir file_name = Some (game_name, app_id, game_root_dir) ->
  (root_dir, file_list) ∈ walk game_root_dir -> file ∈ file_list -> is_game_exe file = true ->
  owned game_name app_id (str_lower file) games'.
Proof.
  intros Hm Hman Hin Hfile Hexe. rewrite scan_manifest_eq, Hman in Hm.
  revert Hman. unfold manifest.
  destruct (negb (String.prefix "appmanifest_" file_name) || negb (endswith ".acf" file_name));
    [discriminate|].
  destruct (parse_acf (path_join steamapps_dir [file_name])) as [parsed|e]; [|discriminate].
  intros _. injection Hm as <-. eapply scan_tree_owns; eassumption.
Qed.

End Scanner.

(** X23: every entry of the catalog that [scan_steam_games] returns comes
    from a file of the tree of a manifest of the listing: the manifest is
    named [appmanifest_*.acf] and gives the name of the game, its id and an
    installation directory that exists; the file ends in [.exe] when
    lowercased and is not blacklisted; the key is the lowercased filename
    and [exe_path] the file's path. *)
Theorem catalog_comes_from_manifests `{FS : FileSystem} (steam_path : string)
    (games : gmap string Game) (k : string) (g : Game) :
  scan_steam_games steam_path = Return games ->
  games !! k = Some g ->
  exists file_names,
    listdir (path_join steam_path ["steamapps"]) = Return file_names /\
    scanned_from (path_join steam_path ["steamapps"]) file_names k g.
Proof.
  unfold scan_steam_games.
  destruct (isdir (path_join steam_path ["steamapps"])); cbn [negb].
  2:{ intros [= <-] H. rewrite lookup_empty in H. discriminate. }
  destruct (listdir (path_join steam_path ["steamapps"])) as [file_names|e]; [|discriminate].
  intros Hscan Hk. exists file_names. split; [reflexivity|].
  destruct (scan_manifests_lookup _ _ _ _ _ _ Hscan Hk) as [H|H]; [|exact H].
  rewrite lookup_empty in H. discriminate.
Qed.

Lemma catalog_comes_from_manifests_witness :
  exists file_names,
    listdir (FileSystem:=MilliFs.fs) (path_join (FileSystem:=MilliFs.fs) "/steam" ["steamapps"])
    = Return file_names /\
    scanned_from (FS:=MilliFs.fs) (path_join (FileSystem:=MilliFs.fs) "/steam" ["steamapps"])
      file_names "game.exe"
      (mkGame "Game" "42" "/steam/steamapps/common/GameDir/bin/Game.EXE").
Proof.
  apply (catalog_comes_from_manifests (FS:=MilliFs.fs) "/steam"
           {[ "game.exe" := mkGame "Game" "42" "/steam/steamapps/common/GameDir/bin/Game.EXE" ]}).
  - vm_compute. reflexivity.
  - reflexivity.
Defined.

(** X24: every executable of a manifest that the scan does not skip is in
    the catalog, and it is there under the game of its own manifest when
    no manifest that the listing has later ships an executable of the same
    lowercased name: of the games that ship a file of one name, the one
    that [os.listdir] gives last has the entry. *)
Theorem last_manifest_has_the_entry `{FS : FileSystem} (steam_path : string)
    (names1 names2 : list string) (file_name : string) (games : gmap string Game)
    (game_name app_id game_root_dir root_dir : string) (file_list : list string)
    (file : string) :
  isdir (path_join steam_path ["steamapps"]) = true ->
  listdir (path_join steam_path ["steamapps"]) = Return (names1 ++ file_name :: names2) ->
  scan_steam_games steam_path = Return games ->
  manifest (path_join steam_path ["steamapps"]) file_name =
    Some (game_name, app_id, game_root_dir) ->
  (root_dir, file_list) ∈ walk game_root_dir ->
  file ∈ file_list ->
  is_game_exe file = true ->
  is_Some (games !! str_lower file) /\
  ((forall g, ~ scanned_from (path_join steam_path ["steamapps"]) names2 (str_lower file) g) ->
   owned game_name app_id (str_lower file) games).
Proof.
  intros Hdir Hlist Hscan Hman Hin Hfile Hexe.
  unfold scan_steam_games in Hscan. rewrite Hdir, Hlist in Hscan. cbn [negb] in Hscan.
  rewrite scan_manifests_app in Hscan.
  destruct (scan_manifests (path_join steam_path ["steamapps"]) names1 ∅) as [games1|e];
    [|discriminate].
  cbn [scan_manifests] in Hscan.
  destruct (scan_manifest (path_join steam_path ["steamapps"]) file_name games1)
    as [games2|e] eqn:Hm; [|discriminate].
  pose proof (scan_manifest_owns _ _ _ _ _ _ _ _ _ _ Hm Hman Hin Hfile Hexe) as Hown.
  assert (Hsome : is_Some (games !! str_lower file)).
  { eapply scan_manifests_present; [exact Hscan|].
    destruct Hown as (g & -> & _). eauto. }
  split; [exact Hsome|].
  intros Hlater. destruct Hsome as [g Hg]. exists g. split; [exact Hg|].
  destruct (scan_manifests_lookup _ _ _ _ _ _ Hscan Hg) as [H2|Hfrom].
  - destruct Hown as (g2 & Hg2 & Hname). rewrite Hg2 in H2. injection H2 as ->. exact Hname.
  - exfalso. exact (Hlater g Hfrom).
Qed.

Lemma last_manifest_has_the_entry_witness :
  scan_steam_games (FS:=MilliFs.shelf) "/steam" = Return MilliFs.shelf_catalog /\
  owned "Two" "2" "launcher.exe" MilliFs.shelf_catalog.
Proof.
  split; [vm_compute; reflexivity|].
  refine (proj2 (last_manifest_has_the_entry (FS:=MilliFs.shelf) "/steam"
                   ["appmanifest_1.acf"] ["appmanifest_3.acf"; "common"] "appmanifest_2.acf"
                   MilliFs.shelf_catalog "Two" "2" "/steam/steamapps/common/Two"
                   "/steam/steamapps/common/Two" ["launcher.EXE"] "launcher.EXE"
                   _ _ _ _ _ _ _) _).
  - reflexivity.
  - reflexivity.
  - vm_compute. reflexivity.
  - vm_compute. reflexivity.
  - left.
  - left.
  - reflexivity.
  - intros g (fn & gr & rd & fl & f & Hin & Hman & Hwalk & Hf & _ & Hk & _).
    apply elem_of_cons in Hin. destruct Hin as [->|Hin].
    + vm_compute in Hman. injection Hman as _ _ <-.
      apply list_elem_of_singleton in Hwalk. injection Hwalk as -> ->.
      apply list_elem_of_singleton in Hf. subst f. discriminate Hk.
    + apply list_elem_of_singleton in Hin. subst fn. discriminate Hman.
Defined.

(** X25: a game that the scanner put in the catalog is detected when it
    runs. When, on the files that [os.walk] yields, [Path(p).name.lower()]
    of the path that [os.path.join] built is the lowercased filename, a
    tick of a watcher constructed on the scanned catalog that sees a
    process running [exe_path] of an entry and returns normally has the
    key of the entry in [self.running]. *)
Theorem scanned_game_is_detected `{RT : Runtime} `{FS : FileSystem} (steam_path : string)
    (self : Watcher) (k : string) (g : Game) (pid : option Z) (procs : list Proc)
    (s s' : State) :
  scan_steam_games steam_path = Return (games self) ->
  games self !! k = Some g ->
  (forall p root_dir file_list file,
      (root_dir, file_list) ∈ walk p -> file ∈ file_list ->
      path_name_lower (path_join root_dir [file]) = str_lower file) ->
  exe_path g <> "" ->
  reachable self s ->
  ProcInfo (Some (exe_path g)) pid ∈ procs ->
  tick self procs s = (Return tt, s') ->
  is_Some (dict_get k (running s')).
Proof.
  intros Hscan Hk Hpath Hne Hreach Hproc Htick.
  destruct (reachable_consistent self s Hreach) as (Hnd & Hcat & _).
  apply (tick_running_keys self procs s s' Hnd Hcat Htick k).
  split; [|rewrite Hk; eauto].
  unfold scan_steam_games in Hscan.
  assert (Hfrom : exists dir names, scanned_from dir names k g).
  { destruct (isdir (path_join steam_path ["steamapps"])); cbn [negb] in Hscan.
    2:{ injection Hscan as Hempty. rewrite <- Hempty, lookup_empty in Hk. discriminate. }
    destruct (listdir (path_join steam_path ["steamapps"])) as [names|e]; [|discriminate].
    destruct (scan_manifests_lookup _ _ _ _ _ _ Hscan Hk) as [H|H]; [|eauto].
    rewrite lookup_empty in H. discriminate. }
  destruct Hfrom as (dir & names & fn & gr & rd & fl & f & _ & _ & Hin & Hf & _ & Hkey & Hexe).
  unfold observed. apply Exists_exists. exists (ProcInfo (Some (exe_path g)) pid).
  split; [exact Hproc|]. cbn [filename_of].
  destruct (decide (exe_path g = "")); [contradiction|].
  rewrite Hexe, (Hpath gr rd fl f Hin Hf), Hkey. reflexivity.
Qed.

Lemma library_constructed_reachable :
  reachable (RT:=Milli.runtime) MilliFs.library_watcher MilliFs.library_constructed.
Proof.
  exists (Milli.world 1000 (Content "{}")), MilliFs.library_constructed, [].
  split; [reflexivity|]. split.
  - rewrite (surjective_pairing (__init__ _ _)). reflexivity.
  - apply run_done.
Defined.

Lemma scanned_game_is_detected_witness :
  is_Some
    (dict_get "game.exe"
       (running
          (snd (tick (RT:=Milli.runtime) MilliFs.library_watcher
                  [ProcInfo (Some "/steam/steamapps/common/GameDir/bin/Game.EXE") (Some 7)]
                  MilliFs.library_constructed)))).
Proof.
  apply (scanned_game_is_detected (RT:=Milli.runtime) (FS:=MilliFs.fs) "/steam"
           MilliFs.library_watcher "game.exe"
           (mkGame "Game" "42" "/steam/steamapps/common/GameDir/bin/Game.EXE") (Some 7)
           [ProcInfo (Some "/steam/steamapps/common/GameDir/bin/Game.EXE") (Some 7)]
           MilliFs.library_constructed).
  - vm_compute. reflexivity.
  - reflexivity.
  - intros p root_dir file_list file Hin Hfile. cbn [walk MilliFs.fs] in Hin.
    destruct (bool_decide (p = "/steam/steamapps/common/GameDir")); [|inversion Hin].
    apply elem_of_cons in Hin. destruct Hin as [[= -> ->]|Hin].
    { apply elem_of_cons in Hfile. destruct Hfile as [->|Hfile]; [reflexivity|].
      apply list_elem_of_singleton in Hfile. subst file. reflexivity. }
    apply list_elem_of_singleton in Hin. injection Hin as -> ->.
    apply list_elem_of_singleton in Hfile. subst file. reflexivity.
  - discriminate.
  - exact library_constructed_reachable.
  - left.
  - rewrite (surjective_pairing (tick _ _ _)) at 1. reflexivity.
Defined.

(** X26: the scan of the library raises only what the file system raises
    on it: the listing of [steamapps], or the reading of a file of the
    listing that is named as a manifest. Without a [steamapps] directory
    the catalog is empty and nothing is read. *)
Theorem scan_raises_only_when `{FS : FileSystem} (steam_path : string) :
  (isdir (path_join steam_path ["steamapps"]) = false ->
   scan_steam_games steam_path = Return ∅) /\
  (forall e,
      scan_steam_games steam_path = Raise e ->
      listdir (path_join steam_path ["steamapps"]) = Raise e \/
      exists file_names file_name,
        listdir (path_join steam_path ["steamapps"]) = Return file_names /\
        file_name ∈ file_names /\
        String.prefix "appmanifest_" file_name = true /\
        endswith ".acf" file_name = true /\
        read_lines (path_join (path_join steam_path ["steamapps"]) [file_name]) = Raise e).
Proof.
  unfold scan_steam_games. split.
  { intros ->. reflexivity. }
  intros e. destruct (isdir (path_join steam_path ["steamapps"])); cbn [negb]; [|discriminate].
  destruct (listdir (path_join steam_path ["steamapps"])) as [file_names|e0];
    [|intros [= ->]; auto].
  intros Hscan. right. exists file_names.
  assert (H : exists file_name,
             file_name ∈ file_names /\
             String.prefix "appmanifest_" file_name = true /\
             endswith ".acf" file_name = true /\
             read_lines (path_join (path_join steam_path ["steamapps"]) [file_name]) = Raise e).
  { revert Hscan. generalize (∅ : gmap string Game).
    induction file_names as [|file_name file_names IH]; intros games; [discriminate|].
    cbn [scan_manifests].
    destruct (scan_manifest (path_join steam_path ["steamapps"]) file_name games)
      as [games1|e1] eqn:Hm.
    - intros Hrest. destruct (IH _ Hrest) as (fn & Hin & Hrest'). exists fn.
      split; [right; exact Hin | exact Hrest'].
    - intros [= ->]. exists file_name. split; [left|].
      revert Hm. unfold scan_manifest.
      destruct (String.prefix "appmanifest_" file_name); cbn [negb orb]; [|discriminate].
      destruct (endswith ".acf" file_name); cbn [negb]; [|discriminate].
      unfold parse_acf.
      destruct (read_lines (path_join (path_join steam_path ["steamapps"]) [file_name]))
        as [lines|e1].
      + destruct (parse_lines lines None None) as [game_name install_dir].
        destruct (falsy game_name || falsy install_dir); [discriminate|].
        destruct (negb (isdir _)); discriminate.
      + intros [= ->]. auto. }
  destruct H as (fn & H). exists fn. split; [reflexivity | exact H].
Qed.

Lemma scan_raises_only_when_witness :
  scan_steam_games (FS:=MilliFs.fs) "/elsewhere" = Return ∅.
Proof.
  apply (proj1 (scan_raises_only_when (FS:=MilliFs.fs) "/elsewhere")). reflexivity.
Defined.
